(** * Meta-prompt generation pipeline and in-memory collection double

    A shallow embedding of
    - [app/models/meta_prompt_generator.py] (class [MetaPromptGenerator]):
      per-user lookup in six tabular datasets, rendering of the records and
      insight dictionaries into a sectioned text, and the orchestrator with
      its catch-all fallback;
    - [app/database/mongodb.py]: [MockCollection] ([find_one], [find] with
      its cursor, [insert_one], [update_one]) on a list of documents,
      [MockDatabase], [connect_to_mongo] and [get_database];
    - [app/models/meta_prompt_generator.py] again: [_load_datasets] and
      [__init__] over a data directory;
    - [app/main.py]: [startup_db_client] and [simple_chat_endpoint], over the
      outcomes of the code they call;
    - the monthly spending aggregate of the insight extractor
      ([app/utils/data_processor.py]), whose source is not available and
      which is modelled from the specification.

    Python dictionaries with string keys are [gmap string _]; exceptions are
    values of [result]; the generator object, its tables and the log are an
    explicit state threaded by a small state-and-error monad. *)

From stdpp Require Import gmap strings list fin_maps pretty.
From Stdlib Require Import ZArith QArith Ascii String.

Open Scope string_scope.
Open Scope Z_scope.

(** ** Python values and exceptions *)

(** The exception classes the modelled code can raise.  All of them derive
    from [Exception]; [OtherError] stands for any other [Exception] subclass
    raised by code outside this development (the insight extractors). *)
Inductive exn_class :=
  | KeyError
  | TypeError
  | ValueError
  | AttributeError
  | IndexError
  | UnboundLocalError
  | OtherError.

Record exn := mk_exn { exn_kind : exn_class; exn_str : string }.

Inductive result (A : Type) :=
  | Ok (a : A)
  | Raise (e : exn).
Arguments Ok {A} a.
Arguments Raise {A} e.

Global Instance result_ret : MRet result := fun _ a => Ok a.
Global Instance result_bind : MBind result := fun _ _ f m =>
  match m with
  | Ok a => f a
  | Raise e => Raise e
  end.

Global Instance exn_class_eq_dec : EqDecision exn_class.
Proof. solve_decision. Defined.

(** A cell of a table or an entry of an insight dictionary.  A float is
    carried by its [repr] text ([VFloat "nan"] is a missing CSV cell): float
    arithmetic and float-to-text conversion are outside the model, the
    renderer only prints the value.  A list holds strings, which is what the
    renderer joins. *)
Inductive value :=
  | VNone
  | VBool (b : bool)
  | VInt (z : Z)
  | VFloat (repr : string)
  | VStr (s : string)
  | VList (l : list string).

Global Instance value_eq_dec : EqDecision value.
Proof. solve_decision. Defined.

Abbreviation dict := (gmap string value).

(** [bool(v)]. *)
Definition truthy (v : value) : bool :=
  match v with
  | VNone => false
  | VBool b => b
  | VInt z => negb (z =? 0)
  | VFloat r => negb (String.eqb r "0.0" || String.eqb r "-0.0")
  | VStr s => negb (String.eqb s "")
  | VList l => match l with [] => false | _ => true end
  end.

(** [bool(d)] for a dictionary: non-empty. *)
Definition dict_truthy {A} (d : gmap string A) : bool :=
  negb (bool_decide (d = ∅)).

Definition hex_digit (n : N) : ascii :=
  ascii_of_N (if (n <? 10)%N then 48 + n else 87 + n)%N.

Definition contains_char (c : ascii) (s : string) : bool :=
  existsb (Ascii.eqb c) (list_ascii_of_string s).

(** [repr(s)] of a [str]: single quotes unless the text has a single quote
    and no double quote; backslash, the chosen quote, tab, newline, carriage
    return and the other control characters are escaped.  Bytes above 127
    (the UTF-8 encoding of non-ASCII characters) are kept, as [repr] does for
    printable characters: which non-ASCII characters are printable is a
    table of the interpreter and not part of the model, so that the text of
    a list is that of Python for elements whose non-ASCII characters are
    printable. *)
Fixpoint repr_body (q : ascii) (s : string) : string :=
  match s with
  | EmptyString => EmptyString
  | String c s' =>
      let n := N_of_ascii c in
      (if Ascii.eqb c q || Ascii.eqb c "\"%char then String "\" (String c "")
       else if Ascii.eqb c "009" then "\t"
       else if Ascii.eqb c "010" then "\n"
       else if Ascii.eqb c "013" then "\r"
       else if (n <? 32)%N || (n =? 127)%N
            then String "\" (String "x" (String (hex_digit (n / 16)) (String (hex_digit (n mod 16)) "")))
       else String c "") ++ repr_body q s'
  end.

Definition py_repr (s : string) : string :=
  let q := if contains_char "'" s && negb (contains_char "034" s)
           then "034"%char else "'"%char in
  String q (repr_body q s) ++ String q "".

(** The text of a value: what [str(v)] returns when it returns one.  [str]
    refuses an int that is too long; [py_format] below is the conversion
    with that error. *)
Definition py_str (v : value) : string :=
  match v with
  | VNone => "None"
  | VBool b => if b then "True" else "False"
  | VInt z => pretty z
  | VFloat r => r
  | VStr s => s
  | VList l => "[" ++ String.concat ", " (py_repr <$> l) ++ "]"
  end.

(** CPython (3.11 and later) does not convert an int of more than
    [sys.int_max_str_digits] decimal digits to text; the limit is 4300
    unless the interpreter is started or set up otherwise.  The sign is not
    counted. *)
Definition int_max_str_digits : Z := 4300.

Definition digits (z : Z) : Z := Z.of_nat (String.length (pretty (Z.abs z))).

Definition exceeds_limit (v : value) : bool :=
  match v with
  | VInt z => int_max_str_digits <? digits z
  | _ => false
  end.

Definition int_limit_error : exn :=
  mk_exn ValueError
    "Exceeds the limit (4300 digits) for integer string conversion; use sys.set_int_max_str_digits() to increase the limit".

(** An f-string field [{v}]: [format(v, '')], which is [str(v)] for the
    values at hand. *)
Definition py_format (v : value) : result string :=
  if exceeds_limit v then Raise int_limit_error else Ok (py_str v).

(** The characters of a text.  A [string] holds the UTF-8 encoding of a
    Python [str]: a character is a leading byte together with the
    continuation bytes (128 to 191) that follow it. *)
Definition is_continuation (c : ascii) : bool :=
  let n := N_of_ascii c in ((128 <=? n) && (n <? 192))%N.

Fixpoint characters (s : string) : list string :=
  match s with
  | EmptyString => []
  | String c s' =>
      match s' with
      | String c' _ =>
          if is_continuation c'
          then match characters s' with
               | p :: ps => String c p :: ps
               | [] => [String c EmptyString]
               end
          else String c EmptyString :: characters s'
      | EmptyString => [String c EmptyString]
      end
  end.

Definition join_error : exn := mk_exn TypeError "can only join an iterable".

(** [sep.join(v)]: [v] has to be an iterable of [str].  A list is joined; a
    [str] is iterated character by character; anything else is not
    iterable. *)
Definition py_join (sep : string) (v : value) : result string :=
  match v with
  | VList l => Ok (String.concat sep l)
  | VStr s => Ok (String.concat sep (characters s))
  | _ => Raise join_error
  end.

(** [d.get(k, default)]. *)
Definition get (d : dict) (k : string) (dflt : value) : value :=
  default dflt (d !! k).

(** The text of a line break, [split("\n")] and the lines that open a section
    ([##] header lines).  They state properties of the rendered text. *)
Definition nl : string := String "010" EmptyString.

Fixpoint lines (s : string) : list string :=
  match s with
  | EmptyString => [EmptyString]
  | String c s' =>
      if Ascii.eqb c "010" then EmptyString :: lines s'
      else match lines s' with
           | l :: ls => String c l :: ls
           | [] => [String c EmptyString]
           end
  end.

Definition is_header (l : string) : bool := String.prefix "##" l.

Definition header_lines (text : string) : list string :=
  List.filter is_header (lines text).

(** The text has no line break. *)
Fixpoint newline_free (s : string) : bool :=
  match s with
  | EmptyString => true
  | String c s' => negb (Ascii.eqb c "010") && newline_free s'
  end.

(** ** The renderer: [MetaPromptGenerator._format_meta_prompt] *)

Module Renderer.

Definition unknown : value := VStr "Unknown".

(** A list display is evaluated from left to right, and so are the fields of
    an f-string: the first conversion that fails ends the call. *)
Definition demo_section (demographics : dict) : result (list string) :=
  age ← py_format (get demographics "age" unknown);
  gender ← py_format (get demographics "gender" unknown);
  occupation ← py_format (get demographics "occupation" unknown);
  annual_income ← py_format (get demographics "annual_income" unknown);
  education_level ← py_format (get demographics "education_level" unknown);
  city ← py_format (get demographics "city" unknown);
  state ← py_format (get demographics "state" unknown);
  Ok [ "## Demographic Profile";
       "Age: " ++ age;
       "Gender: " ++ gender;
       "Occupation: " ++ occupation;
       "Annual Income: $" ++ annual_income;
       "Education: " ++ education_level;
       "Location: " ++ city ++ ", " ++ state ].

Definition account_lines (account : dict) : result (list string) :=
  account_type ← py_format (get account "account_type" unknown);
  account_balance ← py_format (get account "account_balance" unknown);
  savings_balance ← py_format (get account "savings_balance" unknown);
  account_opening_date ← py_format (get account "account_opening_date" unknown);
  Ok [ "Account Type: " ++ account_type;
       "Account Balance: $" ++ account_balance;
       "Savings Balance: $" ++ savings_balance;
       "Account Opened: " ++ account_opening_date ].

Definition credit_lines (credit : dict) : result (list string) :=
  credit_score ← py_format (get credit "credit_score" unknown);
  outstanding_debt ← py_format (get credit "outstanding_debt" unknown);
  credit_utilization ← py_format (get credit "credit_utilization" unknown);
  payment_history ← py_format (get credit "payment_history" unknown);
  Ok [ "Credit Score: " ++ credit_score;
       "Outstanding Debt: $" ++ outstanding_debt;
       "Credit Utilization: " ++ credit_utilization ++ "%";
       "Payment History: " ++ payment_history ].

Definition finance_section (account credit : dict) : result (list string) :=
  let finance_section := ["## Financial Profile"] in
  finance_section ←
    (if dict_truthy account
     then l ← account_lines account; Ok (finance_section ++ l)%list
     else Ok finance_section);
  finance_section ←
    (if dict_truthy credit
     then l ← credit_lines credit; Ok (finance_section ++ l)%list
     else Ok finance_section);
  Ok finance_section.

Definition invest_section (investments : dict) : result (list string) :=
  risk_tolerance ← py_format (get investments "risk_tolerance" unknown);
  investment_goals ← py_format (get investments "investment_goals" unknown);
  current_investments ← py_format (get investments "current_investments" unknown);
  retirement_savings ← py_format (get investments "retirement_savings" unknown);
  investment_preferences ← py_format (get investments "investment_preferences" unknown);
  Ok [ "## Investment Profile";
       "Risk Tolerance: " ++ risk_tolerance;
       "Investment Goals: " ++ investment_goals;
       "Current Investments: $" ++ current_investments;
       "Retirement Savings: $" ++ retirement_savings;
       "Investment Preferences: " ++ investment_preferences ].

Definition trans_section (transaction_insights : dict) : result (list string) :=
  monthly_spending ← py_format (get transaction_insights "monthly_spending" unknown);
  top ← py_join ", " (get transaction_insights "top_categories" (VList ["Unknown"]));
  large_transactions ←
    py_format (get transaction_insights "large_transactions" (VStr "None"));
  let trans_section :=
    [ "## Spending Patterns";
      "Monthly Spending: $" ++ monthly_spending;
      "Top Spending Categories: " ++ top;
      "Recent Large Transactions: " ++ large_transactions ] in
  if truthy (get transaction_insights "recurring_payments" VNone)
  then recurring_payments ←
         py_format (get transaction_insights "recurring_payments" (VStr "None"));
       Ok (app trans_section [ "Recurring Payments: " ++ recurring_payments ])
  else Ok trans_section.

Definition sentiment_section (sentiment_insights : dict) : result (list string) :=
  overall_sentiment ← py_format (get sentiment_insights "overall_sentiment" unknown);
  interests ← py_join ", " (get sentiment_insights "financial_interests" (VList ["Unknown"]));
  financial_concerns ←
    py_format (get sentiment_insights "financial_concerns" (VStr "None"));
  Ok [ "## Social Media Insights";
       "Overall Sentiment: " ++ overall_sentiment;
       "Financial Interests: " ++ interests;
       "Recent Concerns: " ++ financial_concerns ].

Definition empty_fallback : string :=
  "New financial advisor user with limited context information available.".

(** The list [sections] of the source, one text per rendered section. *)
Definition build_sections
    (demographics account credit investments
     transaction_insights sentiment_insights : dict) : result (list string) :=
  let sections := [] in
  sections ←
    (if dict_truthy demographics
     then s ← demo_section demographics;
          Ok (sections ++ [String.concat nl s])%list
     else Ok sections);
  sections ←
    (if dict_truthy account || dict_truthy credit
     then s ← finance_section account credit;
          Ok (sections ++ [String.concat nl s])%list
     else Ok sections);
  sections ←
    (if dict_truthy investments
     then s ← invest_section investments;
          Ok (sections ++ [String.concat nl s])%list
     else Ok sections);
  sections ←
    (if dict_truthy transaction_insights
     then s ← trans_section transaction_insights;
          Ok (sections ++ [String.concat nl s])%list
     else Ok sections);
  sections ←
    (if dict_truthy sentiment_insights
     then s ← sentiment_section sentiment_insights;
          Ok (sections ++ [String.concat nl s])%list
     else Ok sections);
  Ok sections.

Definition _format_meta_prompt
    (demographics account credit investments
     transaction_insights sentiment_insights : dict) : result string :=
  sections ← build_sections demographics account credit investments
               transaction_insights sentiment_insights;
  let meta_prompt := String.concat (nl ++ nl) sections in
  Ok (if String.eqb meta_prompt EmptyString then empty_fallback else meta_prompt).

End Renderer.

(** ** The layout of the rendered text, as the specification words it *)

Module Layout.
Import Renderer.

(** The six arguments of the renderer. *)
Record inputs := mk_inputs {
  demographics : dict;
  account : dict;
  credit : dict;
  investments : dict;
  transaction_insights : dict;
  sentiment_insights : dict
}.

(** [render] is the specification's name of [_format_meta_prompt]. *)
Definition render (x : inputs) : result string :=
  _format_meta_prompt (demographics x) (account x) (credit x) (investments x)
    (transaction_insights x) (sentiment_insights x).

Inductive section := Demographic | Financial | Investment | Spending | Social.

Definition header (k : section) : string :=
  match k with
  | Demographic => "## Demographic Profile"
  | Financial => "## Financial Profile"
  | Investment => "## Investment Profile"
  | Spending => "## Spending Patterns"
  | Social => "## Social Media Insights"
  end.

(** The fixed order of the sections. *)
Definition section_order : list section :=
  [Demographic; Financial; Investment; Spending; Social].

(** The source of a section is not empty; the financial section has two
    sources. *)
Definition has_source (x : inputs) (k : section) : bool :=
  match k with
  | Demographic => dict_truthy (demographics x)
  | Financial => dict_truthy (account x) || dict_truthy (credit x)
  | Investment => dict_truthy (investments x)
  | Spending => dict_truthy (transaction_insights x)
  | Social => dict_truthy (sentiment_insights x)
  end.

Definition present_sections (x : inputs) : list section :=
  List.filter (has_source x) section_order.

(** A line is made of literal text, of fields shown by their value or by a
    placeholder when the key is absent, and of sequences joined with a
    comma. *)
Inductive piece :=
  | Lit (text : string)
  | Field (key placeholder : string)
  | Joined (key placeholder : string).

Definition shown (d : dict) (key placeholder : string) : string :=
  match d !! key with
  | Some v => py_str v
  | None => placeholder
  end.

(** The joined text of a sequence; a value that cannot be joined makes the
    renderer raise, so that its text is immaterial. *)
Definition joined (d : dict) (key placeholder : string) : string :=
  match d !! key with
  | Some v => match py_join ", " v with Ok s => s | Raise _ => EmptyString end
  | None => placeholder
  end.

Definition piece_text (d : dict) (p : piece) : string :=
  match p with
  | Lit text => text
  | Field key placeholder => shown d key placeholder
  | Joined key placeholder => joined d key placeholder
  end.

Fixpoint fill (d : dict) (line : list piece) : string :=
  match line with
  | [] => EmptyString
  | p :: rest =>
      match rest with
      | [] => piece_text d p
      | _ :: _ => piece_text d p ++ fill d rest
      end
  end.

Definition demographic_fields : list (list piece) :=
  [ [Lit "Age: "; Field "age" "Unknown"];
    [Lit "Gender: "; Field "gender" "Unknown"];
    [Lit "Occupation: "; Field "occupation" "Unknown"];
    [Lit "Annual Income: $"; Field "annual_income" "Unknown"];
    [Lit "Education: "; Field "education_level" "Unknown"];
    [Lit "Location: "; Field "city" "Unknown"; Lit ", "; Field "state" "Unknown"] ].

Definition account_fields : list (list piece) :=
  [ [Lit "Account Type: "; Field "account_type" "Unknown"];
    [Lit "Account Balance: $"; Field "account_balance" "Unknown"];
    [Lit "Savings Balance: $"; Field "savings_balance" "Unknown"];
    [Lit "Account Opened: "; Field "account_opening_date" "Unknown"] ].

Definition credit_fields : list (list piece) :=
  [ [Lit "Credit Score: "; Field "credit_score" "Unknown"];
    [Lit "Outstanding Debt: $"; Field "outstanding_debt" "Unknown"];
    [Lit "Credit Utilization: "; Field "credit_utilization" "Unknown"; Lit "%"];
    [Lit "Payment History: "; Field "payment_history" "Unknown"] ].

Definition investment_fields : list (list piece) :=
  [ [Lit "Risk Tolerance: "; Field "risk_tolerance" "Unknown"];
    [Lit "Investment Goals: "; Field "investment_goals" "Unknown"];
    [Lit "Current Investments: $"; Field "current_investments" "Unknown"];
    [Lit "Retirement Savings: $"; Field "retirement_savings" "Unknown"];
    [Lit "Investment Preferences: "; Field "investment_preferences" "Unknown"] ].

(** The recurring payments have a line only when their value is present and
    true as a condition. *)
Definition has_recurring (t : dict) : bool :=
  match t !! "recurring_payments" with
  | Some v => truthy v
  | None => false
  end.

Definition spending_fields (t : dict) : list (list piece) :=
  [ [Lit "Monthly Spending: $"; Field "monthly_spending" "Unknown"];
    [Lit "Top Spending Categories: "; Joined "top_categories" "Unknown"];
    [Lit "Recent Large Transactions: "; Field "large_transactions" "None"] ]
  ++ (if has_recurring t
      then [[Lit "Recurring Payments: "; Field "recurring_payments" "None"]]
      else []).

Definition social_fields : list (list piece) :=
  [ [Lit "Overall Sentiment: "; Field "overall_sentiment" "Unknown"];
    [Lit "Financial Interests: "; Joined "financial_interests" "Unknown"];
    [Lit "Recent Concerns: "; Field "financial_concerns" "None"] ].

(** The lines of a section: its header, then one line per field. *)
Definition expected_section (x : inputs) (k : section) : list string :=
  header k ::
  match k with
  | Demographic => fill (demographics x) <$> demographic_fields
  | Financial =>
      (if dict_truthy (account x) then fill (account x) <$> account_fields else [])
      ++ (if dict_truthy (credit x) then fill (credit x) <$> credit_fields else [])
  | Investment => fill (investments x) <$> investment_fields
  | Spending =>
      fill (transaction_insights x) <$> spending_fields (transaction_insights x)
  | Social => fill (sentiment_insights x) <$> social_fields
  end.

(** Lines are joined by a line break, sections by a blank line; no section
    at all gives the renderer's fallback sentence. *)
Definition join_sections (sections : list (list string)) : string :=
  match sections with
  | [] => empty_fallback
  | _ :: _ => String.concat (nl ++ nl) (String.concat nl <$> sections)
  end.

(** A sequence that is rendered cannot be joined. *)
Definition join_fails (d : dict) (key : string) : bool :=
  match d !! key with
  | Some v => match py_join ", " v with Ok _ => false | Raise _ => true end
  | None => false
  end.

Definition unjoinable (x : inputs) : bool :=
  (dict_truthy (transaction_insights x)
   && join_fails (transaction_insights x) "top_categories")
  || (dict_truthy (sentiment_insights x)
      && join_fails (sentiment_insights x) "financial_interests").

(** The lines of a section with the dictionary each of them reads. *)
Definition section_lines (x : inputs) (k : section) : list (dict * list piece) :=
  match k with
  | Demographic => (fun l => (demographics x, l)) <$> demographic_fields
  | Financial =>
      (if dict_truthy (account x)
       then (fun l => (account x, l)) <$> account_fields else [])
      ++ (if dict_truthy (credit x)
          then (fun l => (credit x, l)) <$> credit_fields else [])
  | Investment => (fun l => (investments x, l)) <$> investment_fields
  | Spending =>
      (fun l => (transaction_insights x, l)) <$> spending_fields (transaction_insights x)
  | Social => (fun l => (sentiment_insights x, l)) <$> social_fields
  end.

(** A field that is rendered holds an int that is too long to be printed. *)
Definition field_too_long (d : dict) (key : string) : bool :=
  match d !! key with
  | Some v => exceeds_limit v
  | None => false
  end.

(** The exception a piece raises when it is evaluated, if it raises. *)
Definition piece_error (d : dict) (p : piece) : option exn :=
  match p with
  | Lit _ => None
  | Field key _ => if field_too_long d key then Some int_limit_error else None
  | Joined key _ => if join_fails d key then Some join_error else None
  end.

(** The first exception, in the order of evaluation, which is the order of
    the sections, of their lines and of the pieces of a line. *)
Fixpoint first_error (d : dict) (line : list piece) : option exn :=
  match line with
  | [] => None
  | p :: rest =>
      match piece_error d p with
      | Some e => Some e
      | None => first_error d rest
      end
  end.

Fixpoint lines_error (ls : list (dict * list piece)) : option exn :=
  match ls with
  | [] => None
  | (d, line) :: rest =>
      match first_error d line with
      | Some e => Some e
      | None => lines_error rest
      end
  end.

Fixpoint sections_error (x : inputs) (ks : list section) : option exn :=
  match ks with
  | [] => None
  | k :: rest =>
      match lines_error (section_lines x k) with
      | Some e => Some e
      | None => sections_error x rest
      end
  end.

Definition render_error (x : inputs) : option exn :=
  sections_error x (present_sections x).

(** Some field of a rendered section holds an int that is too long. *)
Definition oversized (x : inputs) : bool :=
  existsb (fun k =>
             existsb (fun dl =>
                        existsb (fun p => match p with
                                          | Field key _ => field_too_long dl.1 key
                                          | _ => false
                                          end)
                                dl.2)
                     (section_lines x k))
          (present_sections x).

(** A value that goes into a line as it is has no line break: the text of a
    [str] or of a float.  An int prints as digits and the elements of a list
    that is printed are escaped. *)
Definition field_plain (v : value) : bool :=
  match v with
  | VStr s => newline_free s
  | VFloat r => newline_free r
  | _ => true
  end.

(** A sequence that is joined has no line break in its elements. *)
Definition joined_plain (v : value) : bool :=
  match v with
  | VStr s => newline_free s
  | VList l => forallb newline_free l
  | _ => true
  end.

(** The text a piece contributes has no line break: a literal and a
    placeholder as they are, a value as above. *)
Definition piece_plain (d : dict) (p : piece) : bool :=
  match p with
  | Lit text => newline_free text
  | Field key placeholder =>
      match d !! key with Some v => field_plain v | None => newline_free placeholder end
  | Joined key placeholder =>
      match d !! key with Some v => joined_plain v | None => newline_free placeholder end
  end.

(** No value that is rendered has a line break. *)
Definition single_line_values (x : inputs) : bool :=
  forallb (fun k =>
             forallb (fun dl => forallb (piece_plain dl.1) dl.2) (section_lines x k))
          (present_sections x).

End Layout.

(** ** Tables: the part of [pandas.DataFrame] the generator uses *)

Module Frame.

(** A table is its column names and its rows, in source order; a row has one
    cell per column. *)
Record DataFrame := mk_frame { columns : list string; rows : list (list value) }.

(** [pd.DataFrame()]. *)
Definition no_data : DataFrame := mk_frame [] [].

(** [df.empty]: an axis of length zero. *)
Definition empty (df : DataFrame) : bool :=
  match columns df, rows df with
  | [], _ | _, [] => true
  | _, _ => false
  end.

Fixpoint index_of (name : string) (cols : list string) : option nat :=
  match cols with
  | [] => None
  | c :: cols' => if String.eqb c name then Some O else S <$> index_of name cols'
  end.

(** The cell of [row] in the column at position [i]. *)
Definition cell (i : nat) (row : list value) : value :=
  nth i row (VFloat "nan").

(** [df[name]]: the column as a list of cells, [KeyError] when the table has
    no such column. *)
Definition column (df : DataFrame) (name : string) : result (list value) :=
  match index_of name (columns df) with
  | Some i => Ok (cell i <$> rows df)
  | None => Raise (mk_exn KeyError ("'" ++ name ++ "'"))
  end.

(** [series == user_id] for a [str]: true exactly at the cells that are
    that string. *)
Definition eq_str (user_id : string) (c : value) : bool :=
  bool_decide (c = VStr user_id).

(** [df[mask]]: the rows at which the mask holds, in their order. *)
Fixpoint select (mask : list bool) (rs : list (list value)) : list (list value) :=
  match mask, rs with
  | b :: mask', r :: rs' => if b then r :: select mask' rs' else select mask' rs'
  | _, _ => []
  end.

(** [df[df['user_id'] == user_id]]. *)
Definition of_user (df : DataFrame) (user_id : string) : result DataFrame :=
  col ← column df "user_id";
  Ok (mk_frame (columns df) (select (eq_str user_id <$> col) (rows df))).

(** [row.to_dict()]: column name to cell. *)
Definition to_dict (cols : list string) (row : list value) : dict :=
  list_to_map (zip cols row).

(** [df.iloc[0].to_dict()]. *)
Definition iloc0_to_dict (df : DataFrame) : result dict :=
  match rows df with
  | r :: _ => Ok (to_dict (columns df) r)
  | [] => Raise (mk_exn IndexError "single positional indexer is out-of-bounds")
  end.

(** [df.to_dict('records')]. *)
Definition to_dict_records (df : DataFrame) : list dict :=
  to_dict (columns df) <$> rows df.

(** A row of [df] is a row of the user: its [user_id] cell is that string. *)
Definition row_of_user (df : DataFrame) (user_id : string) (row : list value) : bool :=
  match index_of "user_id" (columns df) with
  | Some i => eq_str user_id (cell i row)
  | None => false
  end.

End Frame.

(** ** The generator: [MetaPromptGenerator] *)

Module Generator.
Import Frame.

(** The two methods of [DataProcessor] the generator calls.  Their source is
    not part of the development: the processor is a component of the
    generator object and its methods are functions of the rows they are
    given, which may raise.  The rows they are given are fresh dictionaries
    ([to_dict('records')]), not the tables. *)
Record DataProcessor := mk_processor {
  extract_transaction_insights : list dict → result dict;
  extract_sentiment_insights : list dict → result dict
}.

(** The attributes of [self] after [__init__] ([db] is not used by the
    methods below). *)
Record MetaPromptGenerator := mk_generator {
  data_processor : DataProcessor;
  demographic_df : DataFrame;
  account_df : DataFrame;
  transaction_df : DataFrame;
  credit_df : DataFrame;
  investment_df : DataFrame;
  sentiment_df : DataFrame
}.

Inductive log_record :=
  | LogInfo (msg : string)
  | LogError (msg : string).

(** What a call can read and write: the generator object and the log. *)
Record world := mk_world { self : MetaPromptGenerator; logged : list log_record }.

(** State and exceptions. *)
Definition M (A : Type) : Type := world → result A * world.

Global Instance M_ret : MRet M := fun _ a w => (Ok a, w).
Global Instance M_bind : MBind M := fun _ _ f m w =>
  match m w with
  | (Ok a, w') => f a w'
  | (Raise e, w') => (Raise e, w')
  end.

Definition get_self : M MetaPromptGenerator := fun w => (Ok (self w), w).

Definition lift {A} (r : result A) : M A := fun w => (r, w).

Definition log (r : log_record) : M unit :=
  fun w => (Ok tt, mk_world (self w) (logged w ++ [r])).

(** [try: body except Exception as e: handler(e)]. *)
Definition try_except {A} (body : M A) (handler : exn → M A) : M A := fun w =>
  match body w with
  | (Ok a, w') => (Ok a, w')
  | (Raise e, w') => handler e w'
  end.

(** The dictionary [result] of [_get_user_data]: its six keys are fixed. *)
Record user_data := mk_user_data {
  demographics : dict;
  account : dict;
  credit : dict;
  investments : dict;
  transactions : list dict;
  sentiment : list dict
}.

Definition set_demographics (d : dict) (r : user_data) : user_data :=
  mk_user_data d (account r) (credit r) (investments r) (transactions r) (sentiment r).
Definition set_account (d : dict) (r : user_data) : user_data :=
  mk_user_data (demographics r) d (credit r) (investments r) (transactions r) (sentiment r).
Definition set_credit (d : dict) (r : user_data) : user_data :=
  mk_user_data (demographics r) (account r) d (investments r) (transactions r) (sentiment r).
Definition set_investments (d : dict) (r : user_data) : user_data :=
  mk_user_data (demographics r) (account r) (credit r) d (transactions r) (sentiment r).
Definition set_transactions (l : list dict) (r : user_data) : user_data :=
  mk_user_data (demographics r) (account r) (credit r) (investments r) l (sentiment r).
Definition set_sentiment (l : list dict) (r : user_data) : user_data :=
  mk_user_data (demographics r) (account r) (credit r) (investments r) (transactions r) l.

(** One block of [_get_user_data] for a table with one record per user (the
    source writes it out for each of the four tables):
    [if not df.empty: u = df[df['user_id'] == user_id];
     if not u.empty: result[key] = u.iloc[0].to_dict()]. *)
Definition first_record (df : DataFrame) (user_id : string)
    (set : dict → user_data → user_data) (res : user_data) : result user_data :=
  if negb (empty df) then
    u ← of_user df user_id;
    if negb (empty u) then d ← iloc0_to_dict u; Ok (set d res) else Ok res
  else Ok res.

(** One block for a table with many records per user:
    [... if not u.empty: result[key] = u.to_dict('records')]. *)
Definition all_records (df : DataFrame) (user_id : string)
    (set : list dict → user_data → user_data) (res : user_data) : result user_data :=
  if negb (empty df) then
    u ← of_user df user_id;
    if negb (empty u) then Ok (set (to_dict_records u) res) else Ok res
  else Ok res.

Definition _get_user_data (user_id : string) : M user_data :=
  self ← get_self;
  let res := mk_user_data ∅ ∅ ∅ ∅ [] [] in
  res ← lift (first_record (demographic_df self) user_id set_demographics res);
  res ← lift (first_record (account_df self) user_id set_account res);
  res ← lift (first_record (credit_df self) user_id set_credit res);
  res ← lift (first_record (investment_df self) user_id set_investments res);
  res ← lift (all_records (transaction_df self) user_id set_transactions res);
  res ← lift (all_records (sentiment_df self) user_id set_sentiment res);
  mret res.

Definition error_fallback : string :=
  "Financial advisor user with limited context information available.".

(** The body of the [try] block. *)
Definition pipeline (user_id : string) : M string :=
  user_data ← _get_user_data user_id;
  self ← get_self;
  transaction_insights ←
    lift (extract_transaction_insights (data_processor self) (transactions user_data));
  sentiment_insights ←
    lift (extract_sentiment_insights (data_processor self) (sentiment user_data));
  meta_prompt ←
    lift (Renderer._format_meta_prompt
            (demographics user_data) (account user_data) (credit user_data)
            (investments user_data) transaction_insights sentiment_insights);
  mret meta_prompt.

Definition generate_meta_prompt (user_id : string) : M string :=
  _ ← log (LogInfo ("Generating meta-prompt for user " ++ user_id));
  try_except (pipeline user_id)
    (fun e =>
       _ ← log (LogError ("Error generating meta-prompt: " ++ exn_str e));
       mret error_fallback).

(** *** Notions used to state the properties of the generator *)

(** A table can be searched by user: it is empty (and then not searched at
    all) or it has a [user_id] column. *)
Definition queryable (df : DataFrame) : bool :=
  empty df || bool_decide (is_Some (index_of "user_id" (columns df))).

Definition all_queryable (g : MetaPromptGenerator) : bool :=
  queryable (demographic_df g) && queryable (account_df g)
  && queryable (credit_df g) && queryable (investment_df g)
  && queryable (transaction_df g) && queryable (sentiment_df g).

(** The table has a row of the user. *)
Definition has_row_of (df : DataFrame) (user_id : string) : bool :=
  existsb (row_of_user df user_id) (rows df).

(** None of the six tables has a row of the user. *)
Definition no_data_for (g : MetaPromptGenerator) (user_id : string) : bool :=
  negb (has_row_of (demographic_df g) user_id)
  && negb (has_row_of (account_df g) user_id)
  && negb (has_row_of (credit_df g) user_id)
  && negb (has_row_of (investment_df g) user_id)
  && negb (has_row_of (transaction_df g) user_id)
  && negb (has_row_of (sentiment_df g) user_id).

(** The four record types with one record per user, their tables and their
    entries in the result of [_get_user_data]. *)
Inductive singular := Demographics | Account | Credit | Investments.

Definition table_of (k : singular) (g : MetaPromptGenerator) : DataFrame :=
  match k with
  | Demographics => demographic_df g
  | Account => account_df g
  | Credit => credit_df g
  | Investments => investment_df g
  end.

Definition record_of (k : singular) (r : user_data) : dict :=
  match k with
  | Demographics => demographics r
  | Account => account r
  | Credit => credit r
  | Investments => investments r
  end.

Definition setter_of (k : singular) : dict → user_data → user_data :=
  match k with
  | Demographics => set_demographics
  | Account => set_account
  | Credit => set_credit
  | Investments => set_investments
  end.

(** The six lookups of [_get_user_data] as one computation on the generator
    object. *)
Definition lookup_all (g : MetaPromptGenerator) (user_id : string) : result user_data :=
  let res := mk_user_data ∅ ∅ ∅ ∅ [] [] in
  res ← first_record (demographic_df g) user_id set_demographics res;
  res ← first_record (account_df g) user_id set_account res;
  res ← first_record (credit_df g) user_id set_credit res;
  res ← first_record (investment_df g) user_id set_investments res;
  res ← all_records (transaction_df g) user_id set_transactions res;
  res ← all_records (sentiment_df g) user_id set_sentiment res;
  Ok res.

(** The stages of the [try] block after the lookup, on its result. *)
Definition insights_and_render (g : MetaPromptGenerator) (ud : user_data) : result string :=
  transaction_insights ← extract_transaction_insights (data_processor g) (transactions ud);
  sentiment_insights ← extract_sentiment_insights (data_processor g) (sentiment ud);
  Renderer._format_meta_prompt
    (demographics ud) (account ud) (credit ud) (investments ud)
    transaction_insights sentiment_insights.

End Generator.

(** ** The in-memory collection: [MockCollection] *)

Module Mongo.

(** Values of a document: [None], booleans, integers and strings, or a
    sub-document of these (what a [$set] operand is).  Floats and deeper
    nesting are not modelled. *)
Inductive scalar :=
  | SNone
  | SBool (b : bool)
  | SInt (z : Z)
  | SStr (s : string).

Global Instance scalar_eq_dec : EqDecision scalar.
Proof. solve_decision. Defined.

Inductive value :=
  | Atom (a : scalar)
  | Doc (d : gmap string scalar).

Global Instance value_eq_dec : EqDecision value.
Proof. solve_decision. Defined.

Abbreviation document := (gmap string value).

(** Python's [==] on these values: a [bool] is the integer 0 or 1, and two
    dictionaries are equal when they have the same keys with equal
    values. *)
Definition norm (a : scalar) : scalar :=
  match a with
  | SBool b => SInt (if b then 1 else 0)
  | _ => a
  end.

Definition py_eq (x y : value) : bool :=
  match x, y with
  | Atom a, Atom b => bool_decide (norm a = norm b)
  | Doc d, Doc e => bool_decide (norm <$> d = norm <$> e)
  | _, _ => false
  end.

Definition type_name (a : scalar) : string :=
  match a with
  | SNone => "NoneType"
  | SBool _ => "bool"
  | SInt _ => "int"
  | SStr _ => "str"
  end.

Record MockCollection := mk_collection { name : string; data : list document }.

Record MockInsertResult := mk_insert_result { inserted_id : value }.

Record MockUpdateResult := mk_update_result {
  matched_count : Z;
  modified_count : Z;
  upserted_id : option string
}.

(** The inner loop of [find_one]: every key of the query is in the item
    with an equal value. *)
Definition matches (query item : document) : bool :=
  forallb (fun kv => match item !! kv.1 with
                     | Some x => py_eq x kv.2
                     | None => false
                     end)
          (map_to_list query).

(** The position of the first matching item. *)
Fixpoint first_match (query : document) (items : list document) : option nat :=
  match items with
  | [] => None
  | item :: rest =>
      if matches query item then Some O else S <$> first_match query rest
  end.

(** [find_one] returns a reference to an item of [self.data]; the model
    returns its position, [None] for Python's [None].  An empty query
    ([not query]) selects the first item, if any. *)
Definition find_one_index (query : document) (c : MockCollection) : option nat :=
  if negb (dict_truthy query) then
    match data c with [] => None | _ :: _ => Some O end
  else first_match query (data c).

Definition find_one (query : document) (c : MockCollection) : option document :=
  i ← find_one_index query c; data c !! i.

(** [insert_one]: append, and report [document.get('_id', 'mock_id')]. *)
Definition insert_one (doc : document) (c : MockCollection)
    : MockInsertResult * MockCollection :=
  (mk_insert_result (default (Atom (SStr "mock_id")) (doc !! "_id")),
   mk_collection (name c) (data c ++ [doc])).

(** [v.items()] for the operand of [$set] in the matched branch. *)
Definition items (v : value) : result document :=
  match v with
  | Doc d => Ok (Atom <$> d)
  | Atom a =>
      Raise (mk_exn AttributeError
               ("'" ++ type_name a ++ "' object has no attribute 'items'"))
  end.

(** What [new_doc.update(v)] adds: the entries of a dictionary; nothing for
    the empty string (an empty iterable); an error for the other
    values. *)
Definition update_entries (v : value) : result document :=
  match v with
  | Doc d => Ok (Atom <$> d)
  | Atom (SStr s) =>
      if String.eqb s EmptyString then Ok ∅
      else Raise (mk_exn ValueError
             "dictionary update sequence element #0 has length 1; 2 is required")
  | Atom a =>
      Raise (mk_exn TypeError ("'" ++ type_name a ++ "' object is not iterable"))
  end.

(** In the branches that did not run the [class MockUpdateResult]
    statement the name is an unbound local variable (the message is the one
    of Python 3.11 and later). *)
Definition unbound_MockUpdateResult : exn :=
  mk_exn UnboundLocalError
    "cannot access local variable 'MockUpdateResult' where it is not associated with a value".

(** The matched branch: [for key, value in d.items(): item[key] = value]
    leaves [item] as [d ∪ item], where [d] is the operand of [$set] when
    the update has one and the update itself otherwise. *)
Definition updated_item (update item : document) : result document :=
  match update !! "$set" with
  | Some v => d ← items v; Ok (d ∪ item)
  | None => Ok (update ∪ item)
  end.

(** The upsert branch: [new_doc = {**query}] followed by
    [new_doc.update(...)]. *)
Definition upsert_doc (query update : document) : result document :=
  let new_doc := query in
  match update !! "$set" with
  | Some v => d ← update_entries v; Ok (d ∪ new_doc)
  | None => Ok (update ∪ new_doc)
  end.

(** The branches of [update_one] taken when [if item:] fails.  The name
    [MockUpdateResult] is bound by the [class] statement of the matched
    branch only, so that both end on the unbound name; the upsert inserts
    first. *)
Definition not_matched (query update : document) (upsert : bool) (c : MockCollection)
    : result MockUpdateResult * MockCollection :=
  if upsert then
    match upsert_doc query update with
    | Ok new_doc =>
        let '(_, c') := insert_one new_doc c in
        (Raise unbound_MockUpdateResult, c')
    | Raise e => (Raise e, c)
    end
  else (Raise unbound_MockUpdateResult, c).

(** [update_one].  The item found is changed in place, at its position in
    [self.data] (the items of the list are taken to be distinct objects).
    [if item:] fails for [None] and for an empty dictionary. *)
Definition update_one (query update : document) (upsert : bool) (c : MockCollection)
    : result MockUpdateResult * MockCollection :=
  match find_one_index query c with
  | Some i =>
      match data c !! i with
      | Some item =>
          if dict_truthy item then
            match updated_item update item with
            | Ok item' =>
                (Ok (mk_update_result 1 1 None),
                 mk_collection (name c) (<[i := item']> (data c)))
            | Raise e => (Raise e, c)
            end
          else not_matched query update upsert c
      | None => not_matched query update upsert c
      end
  | None => not_matched query update upsert c
  end.

End Mongo.

(** ** The monthly spending aggregate of the insight extractor *)

Module DataProcessor.
Local Open Scope Q_scope.

(** Modelled from the spec: [app/utils/data_processor.py] is missing.  A
    transaction has an amount, a category and a timestamp, of which the
    calendar month (year and month) is used. *)
Record transaction := mk_transaction {
  amount : Q;
  category : string;
  year : Z;
  month : Z
}.

Definition calendar_month (t : transaction) : Z * Z := (year t, month t).

(** Modelled from the spec: the missing grouping step, "group amounts by
    calendar month of timestamp".  One running total is kept per month; the
    order of the months plays no part in the average. *)
Fixpoint add_to_month (m : Z * Z) (a : Q) (totals : list (Z * Z * Q)) : list (Z * Z * Q) :=
  match totals with
  | [] => [(m, a)]
  | (m', t) :: rest =>
      if decide (m' = m) then (m', t + a) :: rest
      else (m', t) :: add_to_month m a rest
  end.

Fixpoint month_totals (transactions : list transaction) : list (Z * Z * Q) :=
  match transactions with
  | [] => []
  | t :: rest => add_to_month (calendar_month t) (amount t) (month_totals rest)
  end.

Definition Qsum (l : list Q) : Q := fold_right Qplus 0 l.

(** Modelled from the spec: the missing averaging step, "average the
    per-month totals"; by the edge policy, the neutral value [0] when
    there is no month to average over. *)
Definition mean (l : list Q) : Q :=
  match l with
  | [] => 0
  | _ :: _ => Qsum l / inject_Z (Z.of_nat (List.length l))
  end.

(** Modelled from the spec: the missing [monthly_spending] of
    [extract_transaction_insights]. *)
Definition monthly_spending (transactions : list transaction) : Q :=
  mean (snd <$> month_totals transactions).

(** The total of a calendar month, said directly: the sum of the amounts of
    the transactions of that month. *)
Definition total_of_month (transactions : list transaction) (m : Z * Z) : Q :=
  Qsum (amount <$> List.filter (fun t => bool_decide (calendar_month t = m)) transactions).

(** The raw sum of the amounts. *)
Definition raw_sum (transactions : list transaction) : Q :=
  Qsum (amount <$> transactions).

(** The data spans at most one calendar month. *)
Definition one_month (transactions : list transaction) : Prop :=
  ∀ t t', In t transactions → In t' transactions → calendar_month t = calendar_month t'.

(** The transactions of the specification's example. *)
Definition example_transactions : list transaction :=
  [ mk_transaction 100 "Food" 2024 1;
    mk_transaction 300 "Food" 2024 2;
    mk_transaction 50 "Travel" 2024 1 ].

End DataProcessor.

(** ** Example data *)

Module Examples.
Import Frame Generator.

(** A processor that finds no insight in anything. *)
Definition quiet_processor : DataProcessor :=
  mk_processor (fun _ => Ok ∅) (fun _ => Ok ∅).

(** The generator when no CSV file was found: six [pd.DataFrame()]. *)
Definition bare_generator : MetaPromptGenerator :=
  mk_generator quiet_processor no_data no_data no_data no_data no_data no_data.

Definition bare_world : world := mk_world bare_generator [].

(** A demographic table loaded from a file without a [user_id] column. *)
Definition headless_world : world :=
  mk_world
    (mk_generator quiet_processor
       (mk_frame ["id"; "age"] [[VStr "u1"; VInt 34]])
       no_data no_data no_data no_data no_data)
    [].

(** An account table with two rows for the user [u1], after a row of
    another user. *)
Definition account_table : DataFrame :=
  mk_frame ["user_id"; "account_type"]
    [ [VStr "u2"; VStr "savings"];
      [VStr "u1"; VStr "checking"];
      [VStr "u1"; VStr "brokerage"] ].

Definition two_accounts_world : world :=
  mk_world
    (mk_generator quiet_processor no_data account_table no_data no_data no_data no_data)
    [].

(** The demographic record of the specification's example, as a dictionary
    and as the only row of the demographic table. *)
Definition engineer : dict :=
  <["age" := VInt 34]> (<["occupation" := VStr "Engineer"]>
  (<["annual_income" := VInt 95000]> (<["city" := VStr "Austin"]>
  (<["state" := VStr "TX"]> ∅)))).

Definition engineer_world (p : DataProcessor) : world :=
  mk_world
    (mk_generator p
       (mk_frame ["user_id"; "age"; "occupation"; "annual_income"; "city"; "state"]
          [[VStr "u1"; VInt 34; VStr "Engineer"; VInt 95000; VStr "Austin"; VStr "TX"]])
       no_data no_data no_data no_data no_data)
    [].

(** Insights with a monthly figure and nothing else. *)
Definition spending_only : Layout.inputs :=
  Layout.mk_inputs ∅ ∅ ∅ ∅ (<["monthly_spending" := VInt 100]> ∅) ∅.

(** A credit record without a score, and nothing else. *)
Definition credit_only : Layout.inputs :=
  Layout.mk_inputs ∅ ∅ (<["payment_history" := VStr "Good"]> ∅) ∅ ∅ ∅.

(** An investment record and nothing else. *)
Definition investment_only : Layout.inputs :=
  Layout.mk_inputs ∅ ∅ ∅ (<["risk_tolerance" := VStr "Moderate"]> ∅) ∅ ∅.

(** A demographic record whose occupation holds a line break followed by
    the text of a header, and nothing else. *)
Definition two_line_occupation : Layout.inputs :=
  Layout.mk_inputs
    (<["occupation" := VStr ("Engineer" ++ nl ++ "## Investment Profile")]> ∅)
    ∅ ∅ ∅ ∅ ∅.

(** A demographic record whose age has 4301 digits. *)
Definition long_age : Layout.inputs :=
  Layout.mk_inputs (<["age" := VInt (10 ^ 4300)]> ∅) ∅ ∅ ∅ ∅ ∅.

(** A collection with one user document, a query for another user, a
    well-formed update and one whose [$set] operand is a number. *)
Definition users : Mongo.MockCollection :=
  Mongo.mk_collection "users"
    [ <["user_id" := Mongo.Atom (Mongo.SStr "testuser")]> ∅ ].

Definition query_u1 : Mongo.document :=
  <["user_id" := Mongo.Atom (Mongo.SStr "u1")]> ∅.

Definition set_name : Mongo.document :=
  <["$set" := Mongo.Doc (<["full_name" := Mongo.SStr "User One"]> ∅)]> ∅.

Definition set_number : Mongo.document :=
  <["$set" := Mongo.Atom (Mongo.SInt 5)]> ∅.

(** A transaction table with rows of two users, and a world that holds it
    beside the account table. *)
Definition transaction_table : DataFrame :=
  mk_frame ["user_id"; "amount"; "category"]
    [ [VStr "u1"; VInt 100; VStr "Food"];
      [VStr "u2"; VInt 20; VStr "Fuel"];
      [VStr "u1"; VInt 50; VStr "Travel"] ].

Definition busy_world : world :=
  mk_world
    (mk_generator quiet_processor no_data account_table transaction_table
       no_data no_data no_data)
    [].

(** The same tables without the rows of [u2], and with a log. *)
Definition busy_world_u1 : world :=
  mk_world
    (mk_generator quiet_processor no_data
       (mk_frame ["user_id"; "account_type"]
          [ [VStr "u1"; VStr "checking"]; [VStr "u1"; VStr "brokerage"] ])
       (mk_frame ["user_id"; "amount"; "category"]
          [ [VStr "u1"; VInt 100; VStr "Food"]; [VStr "u1"; VInt 50; VStr "Travel"] ])
       no_data no_data no_data)
    [LogInfo "earlier"].

(** The demographic record with a key the renderer does not read. *)
Definition engineer_with_id : dict := <["user_id" := VStr "u1"]> engineer.

End Examples.

(** ** The rest of the collection: [find] and [MockCursor] *)

Module Cursor.

(** [MockCursor]: the documents a query selected. *)
Record MockCursor := mk_cursor { items : list Mongo.document }.

(** The loop of [find]: every matching item is appended to [results]. *)
Definition results (query : Mongo.document) (data : list Mongo.document)
    : list Mongo.document :=
  fold_left (fun results item =>
               if Mongo.matches query item then app results [item] else results)
            data [].

(** What [find] returns: for an empty query ([not query]) the list
    [self.data] itself, otherwise a cursor on the matching items. *)
Inductive found :=
  | Listing (data : list Mongo.document)
  | Cursor (c : MockCursor).

Definition find (query : Mongo.document) (c : Mongo.MockCollection) : found :=
  if negb (dict_truthy query) then Listing (Mongo.data c)
  else Cursor (mk_cursor (results query (Mongo.data c))).

(** The documents of either answer. *)
Definition documents (r : found) : list Mongo.document :=
  match r with
  | Listing data => data
  | Cursor c => items c
  end.

(** [sort] accepts any arguments and returns the cursor as it is. *)
Definition sort {A : Type} (args : A) (c : MockCursor) : MockCursor := c.

(** [items[:n]] for an integer [n]: the first [n] items, and for a negative
    [n] all but the last [-n]. *)
Definition slice_to (n : Z) (l : list Mongo.document) : list Mongo.document :=
  if 0 <=? n then take (Z.to_nat n) l
  else take (Z.to_nat (Z.of_nat (List.length l) + n)) l.

(** [to_list(length=None)]: [self.items[:length] if length else self.items];
    the condition fails for [None] and for [0]. *)
Definition to_list (length : option Z) (c : MockCursor) : list Mongo.document :=
  match length with
  | Some n => if n =? 0 then items c else slice_to n (items c)
  | None => items c
  end.

End Cursor.

(** ** The in-memory database: [MockDatabase] *)

Module Database.

(** The dictionary [self.collections], in insertion order; its keys are
    distinct. *)
Record MockDatabase := mk_database {
  collections : list (string * Mongo.MockCollection)
}.

(** The stored test user of [__init__]. *)
Definition test_user : Mongo.document :=
  <["_id" := Mongo.Atom (Mongo.SStr "1")]>
  (<["user_id" := Mongo.Atom (Mongo.SStr "testuser")]>
  (<["hashed_password" :=
       Mongo.Atom (Mongo.SStr "$2b$12$EixZaYVK1fsbw1ZfbX3OXePaWxn96p36WQoeG6Lruj3vjPGga31lW")]>
  (<["full_name" := Mongo.Atom (Mongo.SStr "Test User")]>
  (<["email" := Mongo.Atom (Mongo.SStr "test@example.com")]> ∅)))).

(** [MockDatabase()]. *)
Definition new_database : MockDatabase :=
  mk_database
    [ ("users", Mongo.mk_collection "users" [test_user]);
      ("account_data", Mongo.mk_collection "account_data" []);
      ("credit_history", Mongo.mk_collection "credit_history" []);
      ("demographic_data", Mongo.mk_collection "demographic_data" []);
      ("investment_data", Mongo.mk_collection "investment_data" []);
      ("transaction_data", Mongo.mk_collection "transaction_data" []);
      ("products", Mongo.mk_collection "products" []) ].

(** [d.get(name)] on the dictionary of collections. *)
Fixpoint lookup (name : string) (l : list (string * Mongo.MockCollection))
    : option Mongo.MockCollection :=
  match l with
  | [] => None
  | (n, c) :: rest => if String.eqb n name then Some c else lookup name rest
  end.

(** [d[name] = c] for a key that is in the dictionary: the entry keeps its
    place. *)
Fixpoint store (name : string) (c : Mongo.MockCollection)
    (l : list (string * Mongo.MockCollection)) : list (string * Mongo.MockCollection) :=
  match l with
  | [] => []
  | (n, c0) :: rest =>
      if String.eqb n name then (n, c) :: rest else (n, c0) :: store name c rest
  end.

(** [__getitem__]: a name that is not a key gets a new, empty collection,
    which is entered last. *)
Definition getitem (name : string) (db : MockDatabase)
    : Mongo.MockCollection * MockDatabase :=
  match lookup name (collections db) with
  | Some c => (c, db)
  | None =>
      let c := Mongo.mk_collection name [] in
      (c, mk_database (app (collections db) [(name, c)]))
  end.

(** [list_collection_names]. *)
Definition list_collection_names (db : MockDatabase) : list string :=
  fst <$> collections db.

(** [command]: the answer to a ping is [{"ok": 1}], to anything else
    [{"ok": 0}]; the value of [ok] is returned. *)
Definition command (cmd : string) : Z :=
  if String.eqb cmd "ping" then 1 else 0.

(** [db[name].op(...)]: the collection that [db[name]] returns is the object
    the database holds, so that what the method does to it is seen by the
    database. *)
Definition on_collection {A : Type} (name : string)
    (op : Mongo.MockCollection → A * Mongo.MockCollection) (db : MockDatabase)
    : A * MockDatabase :=
  let '(c, db1) := getitem name db in
  let '(a, c') := op c in
  (a, mk_database (store name c' (collections db1))).

End Database.

(** ** Loading the tables: [MetaPromptGenerator._load_datasets] *)

Module Loader.
Import Frame Generator.

(** The data directory as the loader meets it ([settings.DATA_DIR] is a
    path): whether it exists, what [os.makedirs] does when it is created, and
    for each file name whether the file exists ([None] when it does not) and
    what [pd.read_csv] makes of it. *)
Record file_system := mk_file_system {
  dir_exists : bool;
  makedirs : result unit;
  read_csv : string → option (result DataFrame)
}.

(** The log of the loader, by kind of record: the directory was missing, a
    file was read with so many records, a file was missing, the load
    failed. *)
Inductive load_record :=
  | DirMissing
  | Loaded (file : string) (records : nat)
  | NotFound (file : string)
  | LoadFailed (message : string).

(** The six table attributes of [self]; an attribute is [None] until it is
    assigned. *)
Record attributes := mk_attributes {
  demographic : option DataFrame;
  account : option DataFrame;
  transaction : option DataFrame;
  credit : option DataFrame;
  investment : option DataFrame;
  sentiment : option DataFrame
}.

Definition unset : attributes := mk_attributes None None None None None None.

Definition set_demographic (df : DataFrame) (a : attributes) : attributes :=
  mk_attributes (Some df) (account a) (transaction a) (credit a) (investment a) (sentiment a).
Definition set_account (df : DataFrame) (a : attributes) : attributes :=
  mk_attributes (demographic a) (Some df) (transaction a) (credit a) (investment a) (sentiment a).
Definition set_transaction (df : DataFrame) (a : attributes) : attributes :=
  mk_attributes (demographic a) (account a) (Some df) (credit a) (investment a) (sentiment a).
Definition set_credit (df : DataFrame) (a : attributes) : attributes :=
  mk_attributes (demographic a) (account a) (transaction a) (Some df) (investment a) (sentiment a).
Definition set_investment (df : DataFrame) (a : attributes) : attributes :=
  mk_attributes (demographic a) (account a) (transaction a) (credit a) (Some df) (sentiment a).
Definition set_sentiment (df : DataFrame) (a : attributes) : attributes :=
  mk_attributes (demographic a) (account a) (transaction a) (credit a) (investment a) (Some df).

(** The state of a load: the attributes and the log. *)
Record loading := mk_loading { attrs : attributes; records : list load_record }.

Definition L (A : Type) : Type := loading → result A * loading.

Global Instance L_ret : MRet L := fun _ a st => (Ok a, st).
Global Instance L_bind : MBind L := fun _ _ f m st =>
  match m st with
  | (Ok a, st') => f a st'
  | (Raise e, st') => (Raise e, st')
  end.

Definition note (r : load_record) : L unit :=
  fun st => (Ok tt, mk_loading (attrs st) (app (records st) [r])).

Definition assign (set : attributes → attributes) : L unit :=
  fun st => (Ok tt, mk_loading (set (attrs st)) (records st)).

Definition fail_with {A} (r : result A) : L A := fun st => (r, st).

Definition attempt {A} (body : L A) (handler : exn → L A) : L A := fun st =>
  match body st with
  | (Ok a, st') => (Ok a, st')
  | (Raise e, st') => handler e st'
  end.

(** One block of the [try]: [if os.path.exists(path): self.x_df =
    pd.read_csv(path); logger.info(...) else: logger.warning(...);
    self.x_df = pd.DataFrame()]. *)
Definition load_file (fs : file_system) (file : string)
    (set : DataFrame → attributes → attributes) : L unit :=
  match read_csv fs file with
  | Some r =>
      df ← fail_with r;
      _ ← assign (set df);
      note (Loaded file (List.length (rows df)))
  | None =>
      _ ← note (NotFound file);
      assign (set no_data)
  end.

(** The [except] clause: every attribute becomes an empty table. *)
Definition reset_all (a : attributes) : attributes :=
  set_sentiment no_data (set_investment no_data (set_credit no_data
    (set_transaction no_data (set_account no_data (set_demographic no_data a))))).

Definition _load_datasets (fs : file_system) : L unit :=
  _ ← (if negb (dir_exists fs)
       then _ ← note DirMissing; fail_with (makedirs fs)
       else mret tt);
  attempt
    (_ ← load_file fs "demographic_data.csv" set_demographic;
     _ ← load_file fs "account_data.csv" set_account;
     _ ← load_file fs "transaction_data.csv" set_transaction;
     _ ← load_file fs "credit_history.csv" set_credit;
     _ ← load_file fs "investment_data.csv" set_investment;
     load_file fs "social_media_sentiment.csv" set_sentiment)
    (fun e =>
       _ ← note (LoadFailed (exn_str e));
       assign reset_all).

(** The generator object once its six attributes are assigned. *)
Definition generator_of (p : DataProcessor) (a : attributes) : option MetaPromptGenerator :=
  d ← demographic a; ac ← account a; t ← transaction a;
  c ← credit a; i ← investment a; s ← sentiment a;
  Some (mk_generator p d ac t c i s).

(** [__init__]: the processor is stored, then the tables are loaded. *)
Definition init (p : DataProcessor) (fs : file_system)
    : result (option MetaPromptGenerator) * list load_record :=
  match _load_datasets fs (mk_loading unset []) with
  | (Ok _, st) => (Ok (generator_of p (attrs st)), records st)
  | (Raise e, st) => (Raise e, records st)
  end.

(** What a file holds when nothing fails: its table, or an empty table when
    it is missing. *)
Definition table_of_file (fs : file_system) (file : string) : DataFrame :=
  match read_csv fs file with
  | Some (Ok df) => df
  | _ => no_data
  end.

(** The six file names, in the order in which they are read. *)
Definition file_names : list string :=
  [ "demographic_data.csv"; "account_data.csv"; "transaction_data.csv";
    "credit_history.csv"; "investment_data.csv"; "social_media_sentiment.csv" ].

(** Reading some file fails. *)
Definition read_fails (fs : file_system) : bool :=
  existsb (fun file => match read_csv fs file with
                       | Some (Raise _) => true
                       | _ => false
                       end)
          file_names.

(** The directory is missing and cannot be created. *)
Definition no_directory (fs : file_system) : bool :=
  negb (dir_exists fs)
  && match makedirs fs with Ok _ => false | Raise _ => true end.

(** The attributes after a load in which nothing failed, and after one in
    which a read failed. *)
Definition tables_of_files (fs : file_system) : attributes :=
  mk_attributes
    (Some (table_of_file fs "demographic_data.csv"))
    (Some (table_of_file fs "account_data.csv"))
    (Some (table_of_file fs "transaction_data.csv"))
    (Some (table_of_file fs "credit_history.csv"))
    (Some (table_of_file fs "investment_data.csv"))
    (Some (table_of_file fs "social_media_sentiment.csv")).

Definition empty_tables : attributes :=
  mk_attributes (Some no_data) (Some no_data) (Some no_data)
    (Some no_data) (Some no_data) (Some no_data).

End Loader.

(** ** Connecting: [connect_to_mongo] and [get_database] *)

Module Connection.

(** The settings the module reads ([app.config] is not part of the
    development). *)
Record Settings := mk_settings {
  ENABLE_MOCK_DATA : bool;
  MONGODB_URL : string;
  MONGODB_DB : string
}.

(** What the driver and the server do at the four calls of the [try] block:
    creating the client, taking the database of the client
    ([db_client[settings.MONGODB_DB]]), the ping, and listing the collection
    names. *)
Record server := mk_server {
  create_client : result unit;
  select_database : result unit;
  ping : result unit;
  collection_names : result (list string)
}.

(** A database object as the functions return it: the Motor database of a
    client, or a [MockDatabase] object.  A [MockDatabase] object is known by
    its number, the objects being numbered as they are created, so that two
    references to one object are told from two objects with equal
    contents. *)
Inductive database :=
  | MotorDatabase (url name : string)
  | Mock (id : nat).

(** The three module globals, and the [MockDatabase] objects created so far
    (the object of number [id] is at position [id]); [db_client] is known by
    its URL and [mock_db] holds the number of an object. *)
Record globals := mk_globals {
  db_client : option string;
  db : option database;
  mock_db : option nat;
  mocks : list Database.MockDatabase
}.

(** The log, by kind of record. *)
Inductive connect_record :=
  | UsingMock
  | Connecting (url : string)
  | Connected
  | Available (names : list string)
  | NoCollections
  | MissingCollections (names : list string)
  | ConnectFailed (message : string).

Definition required_collections : list string :=
  [ "account_data"; "credit_history"; "demographic_data"; "investment_data";
    "transaction_data"; "products" ].

(** [[coll for coll in required_collections if coll not in collections]]. *)
Definition missing_collections (names : list string) : list string :=
  List.filter (fun coll => negb (existsb (String.eqb coll) names)) required_collections.

(** [mock_db = MockDatabase(); return mock_db]: a new object is created and
    [mock_db] refers to it. *)
Definition use_new_mock (g : globals) (log : list connect_record)
    : option database * globals * list connect_record :=
  let id := List.length (mocks g) in
  (Some (Mock id),
   mk_globals (db_client g) (db g) (Some id) (app (mocks g) [Database.new_database]),
   log).

(** The [except] clause.  Its test of [ENABLE_MOCK_DATA] is written as in
    the source. *)
Definition connect_failed (s : Settings) (e : exn) (g : globals)
    (log : list connect_record) : option database * globals * list connect_record :=
  let log := app log [ConnectFailed (exn_str e)] in
  if ENABLE_MOCK_DATA s
  then use_new_mock g (app log [UsingMock])
  else (None, mk_globals (db_client g) None (mock_db g) (mocks g), log).

Definition connect_to_mongo (s : Settings) (srv : server) (g : globals)
    : option database * globals * list connect_record :=
  if ENABLE_MOCK_DATA s
  then use_new_mock g [UsingMock]
  else
    let log := [Connecting (MONGODB_URL s)] in
    match create_client srv with
    | Raise e => connect_failed s e g log
    | Ok _ =>
        let g := mk_globals (Some (MONGODB_URL s)) (db g) (mock_db g) (mocks g) in
        match select_database srv with
        | Raise e => connect_failed s e g log
        | Ok _ =>
            let the_db := MotorDatabase (MONGODB_URL s) (MONGODB_DB s) in
            let g := mk_globals (db_client g) (Some the_db) (mock_db g) (mocks g) in
            match ping srv with
            | Raise e => connect_failed s e g log
            | Ok _ =>
                let log := app log [Connected] in
                match collection_names srv with
                | Raise e => connect_failed s e g log
                | Ok names =>
                    let log := app log [Available names] in
                    let log := match names with
                               | [] => app log [NoCollections]
                               | _ :: _ => log
                               end in
                    let log := match missing_collections names with
                               | [] => log
                               | missing => app log [MissingCollections missing]
                               end in
                    (Some the_db, g, log)
                end
            end
        end
    end.

(** [get_database]: the mock when it is enabled and there; otherwise the
    global [db], connecting first when it is [None]. *)
Definition get_database (s : Settings) (srv : server) (g : globals)
    : option database * globals * list connect_record :=
  if ENABLE_MOCK_DATA s && bool_decide (is_Some (mock_db g))
  then (Mock <$> mock_db g, g, [])
  else
    match db g with
    | None =>
        let '(r, g', log) := connect_to_mongo s srv g in
        (r, mk_globals (db_client g') r (mock_db g') (mocks g'), log)
    | Some d => (Some d, g, [])
    end.

(** The module before any call. *)
Definition fresh : globals := mk_globals None None None [].

(** Some call of the [try] block fails. *)
Definition unreachable (srv : server) : bool :=
  match create_client srv, select_database srv, ping srv, collection_names srv with
  | Ok _, Ok _, Ok _, Ok _ => false
  | _, _, _, _ => true
  end.

End Connection.

(** ** The application: [startup_db_client] and [simple_chat_endpoint] *)

Module App.

(** The files that are imported at startup, in the order of the
    dictionary [csv_files]. *)
Definition csv_files : list (string * string) :=
  [ ("demographic_data", "demographic_data.csv");
    ("account_data", "account_data.csv");
    ("credit_history", "credit_history.csv");
    ("investment_data", "investment_data.csv");
    ("transaction_data", "transaction_data.csv");
    ("products", "products.csv");
    ("social_media_sentiment", "social_media_sentiment.csv") ].

(** The log of the startup, by kind of record; an import that is attempted
    is recorded as such. *)
Inductive startup_record :=
  | ImportStarting
  | Importing (collection file : string)
  | ImportComplete (total : Z)
  | ImportFailed (message : string)
  | KeyVerified
  | KeyNotVerified
  | KeyTestFailed (message : string).

(** The loop [for collection, file_name in csv_files.items()]: the counts
    add up, and the first import that raises ends the loop.
    [import_csv_to_collection] is not part of the development; it is given
    by what it returns for a collection and a file. *)
Fixpoint import_all (import_csv : string → string → result Z)
    (files : list (string * string)) (total_imported : Z)
    (log : list startup_record) : result Z * list startup_record :=
  match files with
  | [] => (Ok total_imported, log)
  | (collection, file_name) :: rest =>
      let log := app log [Importing collection file_name] in
      match import_csv collection file_name with
      | Ok count => import_all import_csv rest (total_imported + count) log
      | Raise e => (Raise e, log)
      end
  end.

(** [startup_db_client]: the connection, the import into the database that
    [connect_to_mongo] returned (also when that is [None]), then the test of
    the key of the language model ([LLMService] is not part of the
    development; [test_api_key] is what its import, its construction and the
    call of its method come to).  The import and the test are each wrapped
    in [try] and [except Exception]. *)
Definition startup_db_client (s : Connection.Settings) (srv : Connection.server)
    (g : Connection.globals)
    (import_csv : option Connection.database → string → string → result Z)
    (test_api_key : result bool)
    : result unit * Connection.globals * list Connection.connect_record
      * list startup_record :=
  let '(db, g, connect_log) := Connection.connect_to_mongo s srv g in
  let log := [ImportStarting] in
  let log :=
    match import_all (import_csv db) csv_files 0 log with
    | (Ok total_imported, log) => app log [ImportComplete total_imported]
    | (Raise e, log) => app log [ImportFailed (exn_str e)]
    end in
  let log :=
    match test_api_key with
    | Ok is_valid => app log [if is_valid then KeyVerified else KeyNotVerified]
    | Raise e => app log [KeyTestFailed (exn_str e)]
    end in
  (Ok tt, g, connect_log, log).

(** [ChatResponse]. *)
Record ChatResponse (R : Type) := mk_response {
  response : string;
  recommendations : list R
}.
Arguments mk_response {R} response recommendations.
Arguments response {R} c.
Arguments recommendations {R} c.

Definition processing_apology : string :=
  "I apologize, but I encountered an issue processing your message. I'm a financial advisor chatbot that can help with investment advice, savings strategies, and debt management. Could you try asking in a different way?".

Definition endpoint_apology : string :=
  "I apologize, but something went wrong. Please try again later.".

(** [simple_chat_endpoint].  [I] is the type of a decoded image and [R] of a
    recommendation.  An uploaded image is given by what reading and opening
    it returns; the chatbot by what [process_message] returns for a user, a
    message and an image: a reply with recommendations, or an exception.
    The three [try] blocks are those of the source. *)
Definition simple_chat_endpoint {I R : Type}
    (process_message : string → string → option I → result (string * list R))
    (message : string) (image : option (result I)) : result (ChatResponse R) :=
  let body : result (ChatResponse R) :=
    let pil_image :=
      match image with
      | Some opened =>
          match opened with
          | Ok img => Some img
          | Raise _ => None
          end
      | None => None
      end in
    let user_id := "guest-user" in
    match process_message user_id message pil_image with
    | Ok (response, recommendations) => Ok (mk_response response recommendations)
    | Raise _ => Ok (mk_response processing_apology [])
    end in
  match body with
  | Ok r => Ok r
  | Raise _ => Ok (mk_response endpoint_apology [])
  end.

End App.

(** ** Example data directories *)

Module Directories.
Import Frame Generator Loader.

Definition engineer_table : DataFrame :=
  mk_frame ["user_id"; "age"; "occupation"; "annual_income"; "city"; "state"]
    [[VStr "u1"; VInt 34; VStr "Engineer"; VInt 95000; VStr "Austin"; VStr "TX"]].

(** A directory with a good demographic file, an empty sentiment file, which
    [pd.read_csv] refuses, and no other file. *)
Definition broken_sentiment : file_system :=
  mk_file_system true (Ok tt)
    (fun file =>
       if String.eqb file "demographic_data.csv" then Some (Ok engineer_table)
       else if String.eqb file "social_media_sentiment.csv"
            then Some (Raise (mk_exn OtherError "No columns to parse from file"))
            else None).

(** A directory with the demographic file only. *)
Definition demographic_only : file_system :=
  mk_file_system true (Ok tt)
    (fun file =>
       if String.eqb file "demographic_data.csv" then Some (Ok engineer_table)
       else None).

End Directories.

(** ** Notions used to state further properties of the generator *)

Module Views.
Import Frame Generator.

(** The rows of a user in a table, as dictionaries, in source order. *)
Definition records_of (df : DataFrame) (user_id : string) : list dict :=
  to_dict (columns df) <$> List.filter (row_of_user df user_id) (rows df).

(** The first of them, or the empty dictionary. *)
Definition record_in (df : DataFrame) (user_id : string) : dict :=
  match records_of df user_id with
  | d :: _ => d
  | [] => ∅
  end.

(** The keys the renderer reads in each of its six arguments. *)
Definition demographic_keys : list string :=
  ["age"; "gender"; "occupation"; "annual_income"; "education_level"; "city"; "state"].
Definition account_keys : list string :=
  ["account_type"; "account_balance"; "savings_balance"; "account_opening_date"].
Definition credit_keys : list string :=
  ["credit_score"; "outstanding_debt"; "credit_utilization"; "payment_history"].
Definition investment_keys : list string :=
  ["risk_tolerance"; "investment_goals"; "current_investments"; "retirement_savings";
   "investment_preferences"].
Definition spending_keys : list string :=
  ["monthly_spending"; "top_categories"; "large_transactions"; "recurring_payments"].
Definition social_keys : list string :=
  ["overall_sentiment"; "financial_interests"; "financial_concerns"].

(** Two dictionaries are both empty or both not, and hold the same values
    under the given keys. *)
Definition agree_on (keys : list string) (d e : dict) : Prop :=
  dict_truthy d = dict_truthy e ∧ Forall (fun k => d !! k = e !! k) keys.

(** The value under the key is there and is neither a list nor a string. *)
Definition not_joinable (d : dict) (key : string) : Prop :=
  ∃ v, d !! key = Some v ∧ (∀ l, v ≠ VList l) ∧ (∀ s, v ≠ VStr s).

End Views.

(** * Properties *)

Open Scope list_scope.

(** ** The definitions on small inputs *)

Module Checks.
Import Frame Generator.

Example str_of_int : py_str (VInt 95000) = "95000".
Proof. reflexivity. Qed.

Example str_of_list : py_str (VList ["Food"; "Travel"]) = "['Food', 'Travel']".
Proof. reflexivity. Qed.

Example join_of_list : py_join ", " (VList ["Food"; "Travel"]) = Ok "Food, Travel".
Proof. reflexivity. Qed.

Example join_of_number : py_join ", " (VInt 3) = Raise (mk_exn TypeError "can only join an iterable").
Proof. reflexivity. Qed.

(** A [str] is joined character by character, here [h] and the two bytes of
    an accented letter. *)
Example join_of_text :
  py_join ", " (VStr (String "h" (String "195" (String "169" EmptyString))))
  = Ok (String "h" (String "," (String " " (String "195" (String "169" EmptyString))))).
Proof. reflexivity. Qed.

Example lines_of_text : lines ("a" ++ nl ++ nl ++ "b") = ["a"; EmptyString; "b"].
Proof. reflexivity. Qed.

(** The rows of [u1] in the account table, in source order. *)
Example rows_of_u1 :
  of_user Examples.account_table "u1"
  = Ok (mk_frame ["user_id"; "account_type"]
          [ [VStr "u1"; VStr "checking"]; [VStr "u1"; VStr "brokerage"] ]).
Proof. reflexivity. Qed.

(** A table without a [user_id] column: the failure is caught and logged. *)
Example headless_run :
  generate_meta_prompt "u1" Examples.headless_world
  = (Ok error_fallback,
     mk_world (self Examples.headless_world)
       [ LogInfo "Generating meta-prompt for user u1";
         LogError "Error generating meta-prompt: 'user_id'" ]).
Proof. reflexivity. Qed.

(** [update_one] on a document that is found: the item is changed in place
    and a result is returned. *)
Example update_found :
  Mongo.update_one
    (<["user_id" := Mongo.Atom (Mongo.SStr "testuser")]> ∅)
    Examples.set_name false Examples.users
  = (Ok (Mongo.mk_update_result 1 1 None),
     Mongo.mk_collection "users"
       [ <["full_name" := Mongo.Atom (Mongo.SStr "User One")]>
           (<["user_id" := Mongo.Atom (Mongo.SStr "testuser")]> ∅) ]).
Proof. by vm_compute. Qed.

(** Without a match and without [upsert] nothing changes. *)
Example update_not_found :
  Mongo.update_one Examples.query_u1 Examples.set_name false Examples.users
  = (Raise Mongo.unbound_MockUpdateResult, Examples.users).
Proof. by vm_compute. Qed.

End Checks.

(** ** Lines of a text *)

Module TextFacts.

Lemma lines_nonempty s : lines s ≠ [].
Proof.
  destruct s as [|c s]; simpl; [done|].
  destruct (Ascii.eqb c "010"); [done|]. by destruct (lines s).
Qed.

(** Splitting at a line break that is written out. *)
Lemma lines_app_nl (a b : string) :
  lines (a ++ nl ++ b)%string = lines a ++ lines b.
Proof.
  induction a as [|c a IH]; simpl; [done|].
  destruct (Ascii.eqb c "010"); simpl.
  - f_equal. exact IH.
  - simpl in IH. rewrite IH.
    pose proof (lines_nonempty a) as Hne.
    by destruct (lines a).
Qed.

Lemma lines_newline_free s :
  newline_free s = true → lines s = [s].
Proof.
  induction s as [|c s IH]; simpl; [done|].
  destruct (Ascii.eqb c "010"); simpl; [discriminate|].
  intros H. by rewrite (IH H).
Qed.

Lemma join_cons sep (x y : string) (l : list string) :
  String.concat sep (x :: y :: l) = (x ++ sep ++ String.concat sep (y :: l))%string.
Proof. reflexivity. Qed.

(** [split] undoes [join] on lines without line breaks. *)
Lemma lines_concat_nl (ls : list string) :
  ls ≠ [] →
  Forall (fun l => newline_free l = true) ls →
  lines (String.concat nl ls) = ls.
Proof.
  induction ls as [|x ls IH]; [done|].
  intros _ Hall. apply Forall_cons in Hall as [Hx Hls].
  destruct ls as [|y ls].
  - simpl. by apply lines_newline_free.
  - rewrite join_cons, lines_app_nl, (lines_newline_free _ Hx).
    simpl. f_equal. by apply IH.
Qed.

Lemma newline_free_app (a b : string) :
  newline_free (a ++ b)%string = newline_free a && newline_free b.
Proof. induction a as [|c a IH]; simpl; [done|]. by rewrite IH, andb_assoc. Qed.

Lemma newline_free_concat sep (l : list string) :
  newline_free sep = true →
  Forall (fun s => newline_free s = true) l →
  newline_free (String.concat sep l) = true.
Proof.
  intros Hsep. induction 1 as [|x l Hx Hl IH]; [done|].
  destruct l as [|y l]; [done|].
  rewrite join_cons, !newline_free_app, Hx, Hsep. exact IH.
Qed.

(** An int prints as a sign and digits. *)
Lemma pretty_N_go_newline_free x s :
  newline_free s = true → newline_free (pretty_N_go x s) = true.
Proof.
  revert s. induction (N.lt_wf_0 x) as [x _ IH]; intros s Hs.
  assert (x = 0 ∨ 0 < x)%N as [->|Hx] by lia; [by rewrite pretty_N_go_0|].
  rewrite pretty_N_go_step by done. apply IH; [by apply N.div_lt|].
  simpl. rewrite Hs. unfold pretty_N_char. by repeat case_match.
Qed.

Lemma pretty_Z_newline_free (z : Z) : newline_free (pretty z) = true.
Proof.
  assert (∀ p : positive, newline_free (pretty p) = true) as Hpos.
  { intros p. unfold pretty, pretty_positive, pretty, pretty_N.
    case_decide; [done|]. by apply pretty_N_go_newline_free. }
  destruct z as [|p|p]; [done | apply Hpos |].
  unfold pretty, pretty_Z. simpl. apply Hpos.
Qed.

(** The length of the text of a number is the number of its decimal
    digits. *)
Lemma pretty_N_go_grows x s :
  (String.length s ≤ String.length (pretty_N_go x s))%nat.
Proof.
  revert s. induction (N.lt_wf_0 x) as [x _ IH]; intros s.
  assert (x = 0 ∨ 0 < x)%N as [->|Hx] by lia; [by rewrite pretty_N_go_0|].
  rewrite pretty_N_go_step by done.
  etrans; [|apply IH; by apply N.div_lt]. simpl. lia.
Qed.

Lemma pretty_N_go_digits x s (n : nat) :
  ((x < 10 ^ N.of_nat n)%N →
   (String.length (pretty_N_go x s) ≤ String.length s + n)%nat)
  ∧ ((10 ^ N.of_nat n ≤ x)%N →
     (String.length s + n < String.length (pretty_N_go x s))%nat).
Proof.
  revert x s. induction n as [|n IH]; intros x s.
  - change (10 ^ N.of_nat 0)%N with 1%N. split; intros Hx.
    + assert (x = 0%N) as -> by lia. rewrite pretty_N_go_0. lia.
    + rewrite pretty_N_go_step by lia.
      pose proof (pretty_N_go_grows (x `div` 10) (String (pretty_N_char (x `mod` 10)) s))
        as Hgrows.
      simpl in Hgrows. lia.
  - assert (10 ^ N.of_nat (S n) = 10 * 10 ^ N.of_nat n)%N as ->.
    { by rewrite Nat2N.inj_succ, N.pow_succ_r'. }
    assert (0 < 10 ^ N.of_nat n)%N as Hpow.
    { apply N.neq_0_lt_0. by apply N.pow_nonzero. }
    split; intros Hx.
    + assert (x = 0 ∨ 0 < x)%N as [->|Hpos] by lia; [rewrite pretty_N_go_0; lia|].
      rewrite pretty_N_go_step by done.
      destruct (IH (x `div` 10)%N (String (pretty_N_char (x `mod` 10)) s)) as [Hle _].
      etrans; [apply Hle; by apply N.Div0.div_lt_upper_bound|]. simpl. lia.
    + rewrite pretty_N_go_step by lia.
      destruct (IH (x `div` 10)%N (String (pretty_N_char (x `mod` 10)) s)) as [_ Hlt].
      assert (10 ^ N.of_nat n ≤ x `div` 10)%N as Hdiv.
      { by apply N.div_le_lower_bound. }
      specialize (Hlt Hdiv). simpl in Hlt. lia.
Qed.

(** An int has more than [n] digits exactly when its absolute value is at
    least the [n]-th power of ten. *)
Lemma digits_spec (z n : Z) :
  0 < n → n < digits z ↔ 10 ^ n ≤ Z.abs z.
Proof.
  intros Hn. unfold digits.
  rewrite <- (Z2Nat.id n) by lia.
  assert (0 < Z.to_nat n)%nat as Hm by lia. revert Hm.
  generalize (Z.to_nat n). intros m Hm.
  assert (Z.of_N (10 ^ N.of_nat m) = 10 ^ Z.of_nat m) as Hpow.
  { by rewrite N2Z.inj_pow, nat_N_Z. }
  destruct (Z.abs z) as [|p|p] eqn:Habs; [| |lia].
  - change (pretty 0%Z) with "0". cbn [String.length].
    assert (0 < 10 ^ Z.of_nat m) by (apply Z.pow_pos_nonneg; lia). lia.
  - change (pretty (Z.pos p)) with (pretty_N_go (N.pos p) "").
    destruct (pretty_N_go_digits (N.pos p) "" m) as [Hle Hlt].
    rewrite <- Hpow. change (Z.pos p) with (Z.of_N (N.pos p)).
    rewrite <- N2Z.inj_le. cbn [String.length] in Hle, Hlt. split.
    + intros Hlong. apply N.le_ngt. intros Hsmall. specialize (Hle Hsmall). lia.
    + intros Hbig. specialize (Hlt Hbig). lia.
Qed.

(** [repr] escapes the line break. *)
Lemma repr_body_newline_free q s :
  q = "'"%char ∨ q = "034"%char → newline_free (repr_body q s) = true.
Proof.
  intros Hq. induction s as [|c s IH]; [done|].
  cbn [repr_body]. rewrite newline_free_app, IH, andb_true_r.
  destruct Hq as [-> | ->];
    destruct c as [[] [] [] [] [] [] [] []]; reflexivity.
Qed.

Lemma py_repr_newline_free s : newline_free (py_repr s) = true.
Proof.
  unfold py_repr.
  set (q := if contains_char "'" s && negb (contains_char "034" s)
            then "034"%char else "'"%char).
  assert (q = "'"%char ∨ q = "034"%char) as Hq.
  { subst q. destruct (contains_char "'" s && negb (contains_char "034" s)); auto. }
  rewrite newline_free_app. cbn [newline_free].
  rewrite (repr_body_newline_free q s Hq).
  destruct Hq as [-> | ->]; reflexivity.
Qed.

Lemma characters_newline_free s :
  newline_free s = true → Forall (fun p => newline_free p = true) (characters s).
Proof.
  induction s as [|c s IH]; [constructor|].
  cbn [newline_free]. intros [Hc Hs]%andb_true_iff. specialize (IH Hs).
  cbn [characters]. destruct s as [|c' s']; [by repeat constructor; simpl; rewrite Hc|].
  destruct (is_continuation c').
  - destruct (characters (String c' s')) as [|p ps].
    + repeat constructor. simpl. by rewrite Hc.
    + apply Forall_cons in IH as [Hp Hps]. constructor; [|done].
      simpl. by rewrite Hc, Hp.
  - constructor; [|done]. simpl. by rewrite Hc.
Qed.

Lemma header_lines_app_nl (a b : string) :
  header_lines (a ++ nl ++ b)%string = header_lines a ++ header_lines b.
Proof. unfold header_lines. by rewrite lines_app_nl, List.filter_app. Qed.

(** A blank line between two texts adds no header line. *)
Lemma header_lines_app_blank (a b : string) :
  header_lines (a ++ (nl ++ nl) ++ b)%string = header_lines a ++ header_lines b.
Proof.
  change (a ++ (nl ++ nl) ++ b)%string with (a ++ nl ++ (EmptyString ++ nl ++ b))%string.
  by rewrite !header_lines_app_nl.
Qed.

Lemma header_lines_concat_blank (texts : list string) :
  texts ≠ [] →
  header_lines (String.concat (nl ++ nl) texts) = List.concat (header_lines <$> texts).
Proof.
  induction texts as [|x texts IH]; [done|]. intros _.
  destruct texts as [|y texts].
  - simpl. by rewrite app_nil_r.
  - rewrite join_cons, header_lines_app_blank. csimpl. f_equal. by apply IH.
Qed.

End TextFacts.

(** ** The renderer against the layout *)

Module RendererFacts.
Import Renderer Layout TextFacts.

Lemma shown_absent d key placeholder :
  d !! key = None → shown d key placeholder = placeholder.
Proof. unfold shown. by intros ->. Qed.

Lemma shown_present d key placeholder v :
  d !! key = Some v → shown d key placeholder = py_str v.
Proof. unfold shown. by intros ->. Qed.

(** A field of an f-string: the text shown, unless the value is an int that
    is too long. *)
Lemma format_get d key placeholder :
  py_format (get d key (VStr placeholder))
  = if field_too_long d key then Raise int_limit_error
    else Ok (shown d key placeholder).
Proof. unfold py_format, get, field_too_long, shown. by destruct (d !! key). Qed.

Lemma join_get d key :
  py_join ", " (get d key (VList ["Unknown"]))
  = if join_fails d key then Raise join_error else Ok (joined d key "Unknown").
Proof.
  unfold get, join_fails, joined. destruct (d !! key) as [v|]; [|done].
  by destruct v.
Qed.

Lemma has_recurring_get t :
  truthy (get t "recurring_payments" VNone) = has_recurring t.
Proof. unfold get, has_recurring. by destruct (t !! "recurring_payments"). Qed.

Lemma expected_section_lines x k :
  expected_section x k = header k :: ((fun dl => fill dl.1 dl.2) <$> section_lines x k).
Proof.
  unfold expected_section, section_lines. f_equal.
  destruct k; rewrite ?fmap_app, <- ?list_fmap_compose; try reflexivity.
  by destruct (dict_truthy (account x)), (dict_truthy (credit x)).
Qed.

Ltac field_cases :=
  unfold section_lines, expected_section, demographic_fields, account_fields,
    credit_fields, investment_fields, social_fields;
  cbn [fmap list_fmap app lines_error first_error piece_error fst snd];
  repeat match goal with
         | |- context [field_too_long ?d ?k] => destruct (field_too_long d k)
         | |- context [join_fails ?d ?k] => destruct (join_fails d k)
         end;
  reflexivity.

Lemma demo_section_layout x :
  demo_section (demographics x)
  = match lines_error (section_lines x Demographic) with
    | Some e => Raise e
    | None => Ok (expected_section x Demographic)
    end.
Proof. unfold demo_section, unknown. rewrite !format_get. field_cases. Qed.

Lemma finance_section_layout x :
  finance_section (account x) (credit x)
  = match lines_error (section_lines x Financial) with
    | Some e => Raise e
    | None => Ok (expected_section x Financial)
    end.
Proof.
  unfold finance_section, account_lines, credit_lines, unknown.
  rewrite !format_get. unfold section_lines, expected_section.
  destruct (dict_truthy (account x)), (dict_truthy (credit x)); field_cases.
Qed.

Lemma invest_section_layout x :
  invest_section (investments x)
  = match lines_error (section_lines x Investment) with
    | Some e => Raise e
    | None => Ok (expected_section x Investment)
    end.
Proof. unfold invest_section, unknown. rewrite !format_get. field_cases. Qed.

Lemma trans_section_layout x :
  trans_section (transaction_insights x)
  = match lines_error (section_lines x Spending) with
    | Some e => Raise e
    | None => Ok (expected_section x Spending)
    end.
Proof.
  unfold trans_section, unknown.
  rewrite has_recurring_get, !format_get, join_get.
  unfold section_lines, expected_section, spending_fields.
  destruct (has_recurring (transaction_insights x)); field_cases.
Qed.

Lemma sentiment_section_layout x :
  sentiment_section (sentiment_insights x)
  = match lines_error (section_lines x Social) with
    | Some e => Raise e
    | None => Ok (expected_section x Social)
    end.
Proof. unfold sentiment_section, unknown. rewrite !format_get, join_get. field_cases. Qed.

(** The list [sections] holds the expected sections, joined, of the sources
    that are not empty, in the fixed order, unless a piece raises. *)
Lemma build_sections_layout x :
  build_sections (demographics x) (account x) (credit x) (investments x)
    (transaction_insights x) (sentiment_insights x)
  = match render_error x with
    | Some e => Raise e
    | None => Ok ((fun k => String.concat nl (expected_section x k)) <$> present_sections x)
    end.
Proof.
  unfold build_sections, render_error, present_sections, section_order.
  rewrite demo_section_layout, finance_section_layout, invest_section_layout,
    trans_section_layout, sentiment_section_layout.
  simpl List.filter. unfold has_source.
  generalize (expected_section x). intros sec.
  generalize (fun k => lines_error (section_lines x k)). intros err.
  destruct (dict_truthy (demographics x));
    destruct (dict_truthy (account x) || dict_truthy (credit x));
    destruct (dict_truthy (investments x));
    destruct (dict_truthy (transaction_insights x));
    destruct (dict_truthy (sentiment_insights x));
    cbn [sections_error];
    repeat match goal with
           | |- context [lines_error (section_lines x ?k)] =>
               destruct (lines_error (section_lines x k))
           end;
    reflexivity.
Qed.

Lemma expected_section_text x k :
  ∃ rest, String.concat nl (expected_section x k) = String "#" rest.
Proof.
  unfold expected_section.
  destruct k; simpl header;
    match goal with
    | |- context [?h :: ?body] =>
        destruct body as [|l body'] eqn:Hbody; simpl; eauto
    end.
Qed.

Lemma concat_sections_not_blank (texts : list string) t :
  (∃ rest, t = String "#" rest) →
  String.eqb (String.concat (nl ++ nl) (t :: texts)) EmptyString = false.
Proof. intros [rest ->]. by destruct texts. Qed.

(** The renderer returns the layout of the specification, or raises the
    first exception of a piece. *)
Lemma render_layout x :
  render x
  = match render_error x with
    | Some e => Raise e
    | None => Ok (join_sections (expected_section x <$> present_sections x))
    end.
Proof.
  unfold render, _format_meta_prompt. rewrite build_sections_layout.
  destruct (render_error x); [done|].
  unfold mbind, result_bind. f_equal.
  pose proof (expected_section_text x) as Htext.
  revert Htext. generalize (expected_section x). intros sec Htext.
  destruct (present_sections x) as [|k ks]; [done|].
  rewrite !fmap_cons, concat_sections_not_blank by apply Htext.
  unfold join_sections. rewrite fmap_cons, <- list_fmap_compose. done.
Qed.

End RendererFacts.

Module RendererClaims.
Import Renderer Layout TextFacts RendererFacts.

Lemma expected_section_shape x k :
  has_source x k = true →
  ∃ l ls, expected_section x k = header k :: l :: ls.
Proof.
  unfold expected_section, has_source.
  destruct k; simpl; eauto.
  destruct (dict_truthy (account x)); simpl; eauto.
  destruct (dict_truthy (credit x)); simpl; eauto. discriminate.
Qed.

Lemma expected_section_headers x k :
  List.filter is_header (expected_section x k) = [header k].
Proof.
  unfold expected_section.
  destruct k; simpl; try reflexivity.
  - by destruct (dict_truthy (account x)), (dict_truthy (credit x)).
  - by destruct (has_recurring (transaction_insights x)).
Qed.

Lemma header_lines_section (sec : list string) :
  sec ≠ [] →
  Forall (fun l => newline_free l = true) sec →
  header_lines (String.concat nl sec) = List.filter is_header sec.
Proof. intros Hne Hfree. unfold header_lines. by rewrite lines_concat_nl. Qed.

Lemma header_lines_each x (ks : list section) :
  Forall (Forall (fun l => newline_free l = true)) (expected_section x <$> ks) →
  List.concat (header_lines <$> (String.concat nl <$> (expected_section x <$> ks)))
  = header <$> ks.
Proof.
  induction ks as [|k ks IH]; [done|].
  rewrite !fmap_cons. intros Hfree. apply Forall_cons in Hfree as [Hk Hks].
  rewrite List.concat_cons, header_lines_section by done.
  rewrite expected_section_headers, IH by done. reflexivity.
Qed.

Lemma header_lines_layout x (ks : list section) :
  Forall (Forall (fun l => newline_free l = true)) (expected_section x <$> ks) →
  header_lines (join_sections (expected_section x <$> ks)) = header <$> ks.
Proof.
  intros Hfree. rewrite <- (header_lines_each x ks Hfree).
  destruct ks as [|k ks]; [done|].
  unfold join_sections. rewrite fmap_cons.
  by rewrite header_lines_concat_blank.
Qed.

Lemma field_plain_str v : field_plain v = true → newline_free (py_str v) = true.
Proof.
  destruct v as [|b|z|r|s|l]; cbn [field_plain py_str]; try done.
  - by destruct b.
  - intros _. apply pretty_Z_newline_free.
  - intros _.
    change (newline_free (String "[" (String.concat ", " (py_repr <$> l) ++ "]")) = true).
    cbn [newline_free]. rewrite newline_free_app, newline_free_concat; [done|done|].
    apply Forall_fmap, List.Forall_forall. intros s _. apply py_repr_newline_free.
Qed.

Lemma joined_plain_text v :
  joined_plain v = true →
  newline_free (match py_join ", " v with Ok s => s | Raise _ => EmptyString end) = true.
Proof.
  destruct v as [|b|z|r|s|l]; cbn [joined_plain py_join]; try done.
  - intros Hs. apply newline_free_concat; [done|]. by apply characters_newline_free.
  - intros Hl. apply newline_free_concat; [done|].
    apply List.Forall_forall. by apply forallb_forall.
Qed.

Lemma piece_text_plain d p :
  piece_plain d p = true → newline_free (piece_text d p) = true.
Proof.
  destruct p as [text|key placeholder|key placeholder];
    cbn [piece_plain piece_text]; [done|..].
  - unfold shown. destruct (d !! key) as [v|]; [apply field_plain_str | done].
  - unfold joined. destruct (d !! key) as [v|]; [apply joined_plain_text | done].
Qed.

Lemma fill_plain d line :
  forallb (piece_plain d) line = true → newline_free (fill d line) = true.
Proof.
  induction line as [|p rest IH]; [done|].
  cbn [forallb]. intros [Hp Hrest]%andb_true_iff. cbn [fill].
  destruct rest as [|p' rest]; [by apply piece_text_plain|].
  rewrite newline_free_app, (piece_text_plain _ _ Hp). by apply IH.
Qed.

Lemma expected_section_plain x k :
  forallb (fun dl => forallb (piece_plain dl.1) dl.2) (section_lines x k) = true →
  Forall (fun l => newline_free l = true) (expected_section x k).
Proof.
  rewrite expected_section_lines. intros H.
  constructor; [by destruct k|].
  apply Forall_fmap, List.Forall_forall. intros [d line] Hin. simpl.
  apply fill_plain. rewrite forallb_forall in H. exact (H _ Hin).
Qed.

(** Values without a line break give lines without one. *)
Lemma single_line_sections x :
  single_line_values x = true →
  Forall (Forall (fun l => newline_free l = true))
    (expected_section x <$> present_sections x).
Proof.
  unfold single_line_values. intros H.
  apply Forall_fmap, List.Forall_forall. intros k Hk.
  apply expected_section_plain. rewrite forallb_forall in H. exact (H k Hk).
Qed.

Lemma header_inj k k' : header k = header k' → k = k'.
Proof. by destruct k, k'. Qed.

(** C3, as the code has it.  When the renderer returns, its text is the
    sections joined by blank lines, where the sections are those whose
    source is not empty, taken in the fixed order demographic, financial
    (account and credit together), investment, spending, social; each begins
    with its header and has at least one more line, and a section whose
    source is empty is not among them.  The values are put into the lines
    as they are.  When no value that is rendered holds a line break, the
    lines of the text that begin with [##] are exactly the headers of those
    sections, in that order, and the header of a section whose source is
    empty is no line of the text. *)
Theorem render_section_order (x : inputs) (out : string) :
  render x = Ok out →
  out = join_sections
          (expected_section x
             <$> List.filter (has_source x)
                   [Demographic; Financial; Investment; Spending; Social])
  ∧ Forall (fun k => ∃ l ls, expected_section x k = header k :: l :: ls)
      (List.filter (has_source x)
         [Demographic; Financial; Investment; Spending; Social])
  ∧ (single_line_values x = true →
     header_lines out
     = header <$> List.filter (has_source x)
                    [Demographic; Financial; Investment; Spending; Social]
     ∧ ∀ k, has_source x k = false → ¬ In (header k) (lines out)).
Proof.
  fold section_order. fold (present_sections x).
  rewrite render_layout. destruct (render_error x); [discriminate|].
  intros [= <-]. split; [done|]. split.
  - apply List.Forall_forall. intros k Hk. apply expected_section_shape.
    by apply filter_In in Hk as [_ Hk].
  - intros Hplain.
    pose proof (header_lines_layout x (present_sections x) (single_line_sections x Hplain))
      as Hheaders.
    split; [done|]. intros k Hk Hin.
    assert (In (header k) (header <$> present_sections x)) as Hamong.
    { rewrite <- Hheaders. unfold header_lines. apply filter_In.
      split; [done | by destruct k]. }
    apply in_map_iff in Hamong as (k' & Heq & Hk').
    apply header_inj in Heq as ->.
    apply filter_In in Hk' as [_ Hk']. congruence.
Qed.

Lemma render_section_order_witness :
  "## Investment Profile
Risk Tolerance: Moderate
Investment Goals: Unknown
Current Investments: $Unknown
Retirement Savings: $Unknown
Investment Preferences: Unknown"
  = join_sections (expected_section Examples.investment_only <$> [Investment])
  ∧ header_lines "## Investment Profile
Risk Tolerance: Moderate
Investment Goals: Unknown
Current Investments: $Unknown
Retirement Savings: $Unknown
Investment Preferences: Unknown" = ["## Investment Profile"]
  ∧ ¬ In "## Spending Patterns" (lines "## Investment Profile
Risk Tolerance: Moderate
Investment Goals: Unknown
Current Investments: $Unknown
Retirement Savings: $Unknown
Investment Preferences: Unknown").
Proof.
  destruct (render_section_order Examples.investment_only _ eq_refl)
    as (Hout & _ & Hlines).
  destruct (Hlines eq_refl) as [Hheaders Habsent].
  split; [exact Hout|]. split; [exact Hheaders | exact (Habsent Spending eq_refl)].
Defined.

(** C3, as it is stated, fails on a demographic record whose occupation
    holds a line break followed by the text of a header: the investment
    record is empty and no investment section is rendered, and yet
    [## Investment Profile] is a line of the text, the second of its two
    lines that begin with [##]. *)
Lemma render_header_counterexample :
  ∃ out,
    render Examples.two_line_occupation = Ok out
    ∧ investments Examples.two_line_occupation = ∅
    ∧ has_source Examples.two_line_occupation Investment = false
    ∧ lines out
      = [ "## Demographic Profile";
          "Age: Unknown";
          "Gender: Unknown";
          "Occupation: Engineer";
          "## Investment Profile";
          "Annual Income: $Unknown";
          "Education: Unknown";
          "Location: Unknown, Unknown" ]
    ∧ In "## Investment Profile" (lines out)
    ∧ header_lines out = ["## Demographic Profile"; "## Investment Profile"].
Proof.
  eexists. split; [by vm_compute|].
  split; [done|]. split; [by vm_compute|]. split; [by vm_compute|].
  split; [vm_compute; tauto | by vm_compute].
Qed.

(** C4, as the code has it.  When the renderer returns, its text is the
    layout in which every field of a rendered section has its line.  In the
    demographic, financial and investment sections an absent key shows the
    placeholder [Unknown] in place of the value (the [$] or [%] marker of the
    line stays), so a credit record without a score gives the line
    [Credit Score: Unknown].  In the spending and social sections the monthly
    figure, the categories, the sentiment and the interests fall back to
    [Unknown], but the large transactions and the concerns fall back to
    [None], and the recurring payments have a line only when they are present
    and true as a condition. *)
Theorem render_field_lines (x : inputs) (out : string) :
  render x = Ok out →
  out = join_sections (expected_section x <$> present_sections x)
  ∧ (∀ k d line,
       In (d, line)
          (match k with
           | Demographic => (fun l => (demographics x, l)) <$> demographic_fields
           | Financial =>
               (if dict_truthy (account x)
                then (fun l => (account x, l)) <$> account_fields else [])
               ++ (if dict_truthy (credit x)
                   then (fun l => (credit x, l)) <$> credit_fields else [])
           | Investment => (fun l => (investments x, l)) <$> investment_fields
           | Spending =>
               (fun l => (transaction_insights x, l))
                 <$> spending_fields (transaction_insights x)
           | Social => (fun l => (sentiment_insights x, l)) <$> social_fields
           end) →
       In (fill d line) (expected_section x k))
  ∧ (∀ d key placeholder, d !! key = None → shown d key placeholder = placeholder)
  ∧ (∀ d key placeholder v, d !! key = Some v → shown d key placeholder = py_str v)
  ∧ (dict_truthy (credit x) = true → credit x !! "credit_score" = None →
     In "Credit Score: Unknown" (expected_section x Financial))
  ∧ (transaction_insights x !! "large_transactions" = None →
     In "Recent Large Transactions: None" (expected_section x Spending))
  ∧ (sentiment_insights x !! "financial_concerns" = None →
     In "Recent Concerns: None" (expected_section x Social))
  ∧ (has_recurring (transaction_insights x) = false →
     Forall (fun l => String.prefix "Recurring Payments" l = false)
       (expected_section x Spending)).
Proof.
  rewrite render_layout. destruct (render_error x); [discriminate|].
  intros [= <-]. split; [done|]. split.
  { intros k d line Hin. unfold expected_section. right.
    destruct k.
    - apply in_map_iff in Hin as (l & [= <- <-] & Hl). by apply in_map.
    - apply in_app_iff in Hin. apply in_app_iff.
      destruct Hin as [Hin|Hin]; [left|right].
      + destruct (dict_truthy (account x)); [|done].
        apply in_map_iff in Hin as (l & [= <- <-] & Hl). by apply in_map.
      + destruct (dict_truthy (credit x)); [|done].
        apply in_map_iff in Hin as (l & [= <- <-] & Hl). by apply in_map.
    - apply in_map_iff in Hin as (l & [= <- <-] & Hl). by apply in_map.
    - apply in_map_iff in Hin as (l & [= <- <-] & Hl). by apply in_map.
    - apply in_map_iff in Hin as (l & [= <- <-] & Hl). by apply in_map. }
  split; [apply shown_absent|]. split; [apply shown_present|].
  split.
  { intros Hc Hk. unfold expected_section. rewrite Hc. right.
    apply in_app_iff. right. left. simpl. by rewrite (shown_absent _ _ _ Hk). }
  split.
  { intros Hk. unfold expected_section, spending_fields. right.
    rewrite fmap_app. apply in_app_iff. left. right. right. left.
    simpl. by rewrite (shown_absent _ _ _ Hk). }
  split.
  { intros Hk. unfold expected_section. right. right. right. left.
    simpl. by rewrite (shown_absent _ _ _ Hk). }
  intros Hrec. unfold expected_section, spending_fields. rewrite Hrec.
  by repeat constructor.
Qed.

Lemma render_field_lines_witness :
  "## Financial Profile
Credit Score: Unknown
Outstanding Debt: $Unknown
Credit Utilization: Unknown%
Payment History: Good"
  = join_sections (expected_section Examples.credit_only
                     <$> present_sections Examples.credit_only)
  ∧ In "Credit Score: Unknown" (expected_section Examples.credit_only Financial).
Proof.
  destruct (render_field_lines Examples.credit_only _ eq_refl)
    as (Hout & _ & _ & _ & Hscore & _).
  split; [exact Hout | exact (Hscore eq_refl eq_refl)].
Defined.

(** C4, as it is stated, fails on insights that hold a monthly figure only:
    the section is rendered, the large transactions are absent and their
    line shows [None], not [Unknown]; the recurring payments are absent and
    have no line at all. *)
Lemma render_unknown_counterexample :
  ∃ out,
    render Examples.spending_only = Ok out
    ∧ dict_truthy (transaction_insights Examples.spending_only) = true
    ∧ transaction_insights Examples.spending_only !! "large_transactions" = None
    ∧ transaction_insights Examples.spending_only !! "recurring_payments" = None
    ∧ lines out
      = [ "## Spending Patterns";
          "Monthly Spending: $100";
          "Top Spending Categories: Unknown";
          "Recent Large Transactions: None" ]
    ∧ ¬ In "Recent Large Transactions: Unknown" (lines out)
    ∧ ¬ In "Recurring Payments: Unknown" (lines out).
Proof.
  exists (String.concat nl
            [ "## Spending Patterns";
              "Monthly Spending: $100";
              "Top Spending Categories: Unknown";
              "Recent Large Transactions: None" ]).
  split; [by vm_compute|]. split; [by vm_compute|].
  split; [by vm_compute|]. split; [by vm_compute|].
  split; [by vm_compute|].
  split; intros H; vm_compute in H;
    repeat (destruct H as [H|H]; [discriminate H|]); exact H.
Qed.

End RendererClaims.

(** ** Tables *)

Module FrameFacts.
Import Frame.

Lemma select_fmap (f : list value → bool) (rs : list (list value)) :
  select (f <$> rs) rs = List.filter f rs.
Proof.
  induction rs as [|r rs IH]; csimpl; [done|].
  destruct (f r); by rewrite IH.
Qed.

Lemma row_of_user_at df user_id i row :
  index_of "user_id" (columns df) = Some i →
  row_of_user df user_id row = eq_str user_id (cell i row).
Proof. intros Hi. unfold row_of_user. by rewrite Hi. Qed.

Lemma row_of_user_column df user_id row :
  row_of_user df user_id row = true → is_Some (index_of "user_id" (columns df)).
Proof.
  unfold row_of_user. destruct (index_of _ _); [eauto | discriminate].
Qed.

(** The rows selected for a user are the rows of the user, in source order. *)
Lemma of_user_filter df user_id :
  is_Some (index_of "user_id" (columns df)) →
  of_user df user_id
  = Ok (mk_frame (columns df) (List.filter (row_of_user df user_id) (rows df))).
Proof.
  intros [i Hi]. unfold of_user, column. rewrite Hi. simpl.
  do 2 f_equal. rewrite <- list_fmap_compose, select_fmap.
  apply filter_ext. intros row. simpl. by rewrite (row_of_user_at _ _ i).
Qed.

Lemma of_user_no_column df user_id :
  index_of "user_id" (columns df) = None →
  of_user df user_id = Raise (mk_exn KeyError "'user_id'").
Proof. intros Hi. unfold of_user, column. by rewrite Hi. Qed.

Lemma filter_no_match {A} (f : A → bool) (l : list A) :
  existsb f l = false → List.filter f l = [].
Proof.
  induction l as [|x l IH]; simpl; [done|].
  destruct (f x); simpl; [discriminate | exact IH].
Qed.

Lemma empty_false df c cs r rs :
  columns df = c :: cs → rows df = r :: rs → empty df = false.
Proof. intros Hc Hr. unfold empty. by rewrite Hc, Hr. Qed.

Lemma index_of_some_cons name cols i :
  index_of name cols = Some i → ∃ c cs, cols = c :: cs.
Proof. destruct cols; [discriminate | eauto]. Qed.

End FrameFacts.

(** ** The lookup and the orchestrator *)

Module GeneratorFacts.
Import Frame Generator FrameFacts.

Definition no_user_id : exn := mk_exn KeyError "'user_id'".

Definition no_records : user_data := mk_user_data ∅ ∅ ∅ ∅ [] [].

Lemma queryable_false df :
  queryable df = false →
  empty df = false ∧ index_of "user_id" (columns df) = None.
Proof.
  unfold queryable. intros H. apply orb_false_iff in H as [He Hi].
  split; [done|]. apply bool_decide_eq_false in Hi.
  destruct (index_of _ _); [|done]. destruct Hi; eauto.
Qed.

Lemma queryable_true df :
  queryable df = true →
  empty df = true ∨ is_Some (index_of "user_id" (columns df)).
Proof.
  unfold queryable. intros H. apply orb_true_iff in H as [He|Hi]; [by left|].
  right. by apply bool_decide_eq_true in Hi.
Qed.

(** A table with a row of the user is searched and its first such row is
    taken. *)
Lemma first_record_first df user_id set res pre r post :
  rows df = pre ++ r :: post →
  existsb (row_of_user df user_id) pre = false →
  row_of_user df user_id r = true →
  first_record df user_id set res = Ok (set (to_dict (columns df) r) res).
Proof.
  intros Hrows Hpre Hr.
  pose proof (row_of_user_column _ _ _ Hr) as Hcol.
  destruct Hcol as [i Hi].
  destruct (index_of_some_cons _ _ _ Hi) as (c & cs & Hc).
  unfold first_record.
  assert (empty df = false) as ->.
  { unfold empty. rewrite Hc, Hrows. by destruct pre. }
  simpl. rewrite of_user_filter by eauto. simpl.
  rewrite Hrows, List.filter_app, (filter_no_match _ _ Hpre). simpl. rewrite Hr. simpl.
  unfold empty, iloc0_to_dict. simpl. by rewrite Hc.
Qed.

Lemma first_record_no_row df user_id set res :
  has_row_of df user_id = false →
  first_record df user_id set res
  = if queryable df then Ok res else Raise no_user_id.
Proof.
  intros Hno. unfold first_record.
  destruct (queryable df) eqn:Hq.
  - destruct (queryable_true _ Hq) as [He|Hi].
    + by rewrite He.
    + destruct (empty df); [done|]. simpl.
      rewrite of_user_filter by done. simpl.
      rewrite (filter_no_match _ _ Hno).
      assert (empty (mk_frame (columns df) []) = true) as ->; [|done].
      unfold empty. simpl. by destruct (columns df).
  - destruct (queryable_false _ Hq) as [He Hi].
    rewrite He. simpl. by rewrite of_user_no_column.
Qed.

Lemma all_records_no_row df user_id set res :
  has_row_of df user_id = false →
  all_records df user_id set res
  = if queryable df then Ok res else Raise no_user_id.
Proof.
  intros Hno. unfold all_records.
  destruct (queryable df) eqn:Hq.
  - destruct (queryable_true _ Hq) as [He|Hi].
    + by rewrite He.
    + destruct (empty df); [done|]. simpl.
      rewrite of_user_filter by done. simpl.
      rewrite (filter_no_match _ _ Hno).
      assert (empty (mk_frame (columns df) []) = true) as ->; [|done].
      unfold empty. simpl. by destruct (columns df).
  - destruct (queryable_false _ Hq) as [He Hi].
    rewrite He. simpl. by rewrite of_user_no_column.
Qed.

(** A searchable table never makes the lookup fail. *)
Lemma first_record_queryable df user_id set res :
  queryable df = true →
  ∃ res', first_record df user_id set res = Ok res'.
Proof.
  intros Hq. unfold first_record.
  destruct (queryable_true _ Hq) as [He|Hi].
  - rewrite He. simpl. eauto.
  - destruct (empty df); simpl; [eauto|].
    rewrite of_user_filter by done. simpl.
    destruct (empty _) eqn:Hu; simpl; [eauto|].
    unfold iloc0_to_dict. simpl.
    destruct (List.filter _ _) eqn:Hf; simpl; [|eauto].
    unfold empty in Hu. simpl in Hu. by destruct (columns df).
Qed.

Lemma all_records_queryable df user_id set res :
  queryable df = true →
  ∃ res', all_records df user_id set res = Ok res'.
Proof.
  intros Hq. unfold all_records.
  destruct (queryable_true _ Hq) as [He|Hi].
  - rewrite He. simpl. eauto.
  - destruct (empty df); simpl; [eauto|].
    rewrite of_user_filter by done. simpl.
    destruct (empty _); simpl; eauto.
Qed.

(** The lookup reads the generator object and leaves the world as it is. *)
Lemma get_user_data_run user_id w :
  _get_user_data user_id w = (lookup_all (self w) user_id, w).
Proof.
  unfold _get_user_data, lookup_all, get_self, lift, mbind, M_bind, result_bind, mret, M_ret.
  repeat (match goal with
          | |- context [first_record ?d ?u ?s ?r] => destruct (first_record d u s r)
          | |- context [all_records ?d ?u ?s ?r] => destruct (all_records d u s r)
          end; try reflexivity).
Qed.

Lemma pipeline_run user_id w :
  pipeline user_id w
  = (lookup_all (self w) user_id ≫= insights_and_render (self w), w).
Proof.
  unfold pipeline. unfold mbind at 1. unfold M_bind at 1.
  rewrite get_user_data_run.
  destruct (lookup_all (self w) user_id) as [ud|e]; [|done].
  unfold insights_and_render, get_self, lift, mbind, M_bind, result_bind, mret, M_ret.
  destruct (extract_transaction_insights _ _); [|done].
  destruct (extract_sentiment_insights _ _); [|done].
  by destruct (Renderer._format_meta_prompt _ _ _ _ _ _).
Qed.

(** The log after the call, when the body of the [try] block raised [e]. *)
Definition log_on_error (user_id : string) (e : exn) (l : list log_record) : list log_record :=
  (l ++ [LogInfo ("Generating meta-prompt for user " ++ user_id)%string])
    ++ [LogError ("Error generating meta-prompt: " ++ exn_str e)%string].

Lemma generate_meta_prompt_run user_id w :
  generate_meta_prompt user_id w
  = match lookup_all (self w) user_id ≫= insights_and_render (self w) with
    | Ok text =>
        (Ok text,
         mk_world (self w)
           (logged w ++ [LogInfo ("Generating meta-prompt for user " ++ user_id)%string]))
    | Raise e =>
        (Ok error_fallback, mk_world (self w) (log_on_error user_id e (logged w)))
    end.
Proof.
  unfold generate_meta_prompt. unfold mbind at 1. unfold M_bind at 1.
  unfold log at 1. unfold try_except. rewrite pipeline_run. simpl.
  by destruct (lookup_all (self w) user_id ≫= insights_and_render (self w)).
Qed.

(** A step of the lookup keeps what its setter keeps. *)
Lemma first_record_keeps (P : user_data → Prop) df user_id set res res' :
  (∀ d r, P r → P (set d r)) →
  P res →
  first_record df user_id set res = Ok res' →
  P res'.
Proof.
  intros Hset HP. unfold first_record.
  destruct (empty df); simpl; [intros Heq; by simplify_eq|].
  destruct (of_user df user_id) as [u|]; simpl; [|discriminate].
  destruct (empty u); simpl; [intros Heq; by simplify_eq|].
  destruct (iloc0_to_dict u); simpl; [|discriminate].
  intros Heq. simplify_eq. by apply Hset.
Qed.

Lemma all_records_keeps (P : user_data → Prop) df user_id set res res' :
  (∀ l r, P r → P (set l r)) →
  P res →
  all_records df user_id set res = Ok res' →
  P res'.
Proof.
  intros Hset HP. unfold all_records.
  destruct (empty df); simpl; [intros Heq; by simplify_eq|].
  destruct (of_user df user_id) as [u|]; simpl; [|discriminate].
  destruct (empty u); simpl; [intros Heq; by simplify_eq|].
  intros Heq. simplify_eq. by apply Hset.
Qed.

Lemma all_queryable_true g :
  all_queryable g = true →
  queryable (demographic_df g) = true ∧ queryable (account_df g) = true
  ∧ queryable (credit_df g) = true ∧ queryable (investment_df g) = true
  ∧ queryable (transaction_df g) = true ∧ queryable (sentiment_df g) = true.
Proof.
  unfold all_queryable. intros H.
  repeat (apply andb_true_iff in H as [H ?]). by repeat split.
Qed.

Lemma no_data_for_true g user_id :
  no_data_for g user_id = true →
  has_row_of (demographic_df g) user_id = false
  ∧ has_row_of (account_df g) user_id = false
  ∧ has_row_of (credit_df g) user_id = false
  ∧ has_row_of (investment_df g) user_id = false
  ∧ has_row_of (transaction_df g) user_id = false
  ∧ has_row_of (sentiment_df g) user_id = false.
Proof.
  unfold no_data_for. intros H.
  repeat (apply andb_true_iff in H as [H ?]).
  repeat split; by apply negb_true_iff.
Qed.

(** Without a row of the user anywhere, the lookup returns the six empty
    entries, unless a table that is searched has no [user_id] column. *)
Lemma lookup_all_no_data g user_id :
  no_data_for g user_id = true →
  lookup_all g user_id = Ok no_records ∨ lookup_all g user_id = Raise no_user_id.
Proof.
  intros H. apply no_data_for_true in H as (H1 & H2 & H3 & H4 & H5 & H6).
  unfold lookup_all.
  rewrite (first_record_no_row _ _ _ _ H1).
  destruct (queryable (demographic_df g)); simpl; [|by right].
  rewrite (first_record_no_row _ _ _ _ H2).
  destruct (queryable (account_df g)); simpl; [|by right].
  rewrite (first_record_no_row _ _ _ _ H3).
  destruct (queryable (credit_df g)); simpl; [|by right].
  rewrite (first_record_no_row _ _ _ _ H4).
  destruct (queryable (investment_df g)); simpl; [|by right].
  rewrite (all_records_no_row _ _ _ _ H5).
  destruct (queryable (transaction_df g)); simpl; [|by right].
  rewrite (all_records_no_row _ _ _ _ H6).
  destruct (queryable (sentiment_df g)); simpl; [by left | by right].
Qed.

Lemma format_nothing :
  Renderer._format_meta_prompt ∅ ∅ ∅ ∅ ∅ ∅ = Ok Renderer.empty_fallback.
Proof. vm_compute. reflexivity. Qed.

End GeneratorFacts.

Module GeneratorClaims.
Import Frame Generator FrameFacts GeneratorFacts.

(** Which of the two sentences: the renderer's, when every table can be
    searched and the extractors return; the orchestrator's otherwise. *)
Lemma no_data_searchable_fallback (w : world) (user_id : string) :
  no_data_for (self w) user_id = true →
  all_queryable (self w) = true →
  extract_transaction_insights (data_processor (self w)) [] = Ok ∅ →
  extract_sentiment_insights (data_processor (self w)) [] = Ok ∅ →
  (generate_meta_prompt user_id w).1 = Ok Renderer.empty_fallback.
Proof.
  intros Hno Hq Ht Hs. rewrite generate_meta_prompt_run.
  apply no_data_for_true in Hno as (H1 & H2 & H3 & H4 & H5 & H6).
  apply all_queryable_true in Hq as (Q1 & Q2 & Q3 & Q4 & Q5 & Q6).
  unfold lookup_all.
  rewrite (first_record_no_row _ _ _ _ H1), Q1. simpl.
  rewrite (first_record_no_row _ _ _ _ H2), Q2. simpl.
  rewrite (first_record_no_row _ _ _ _ H3), Q3. simpl.
  rewrite (first_record_no_row _ _ _ _ H4), Q4. simpl.
  rewrite (all_records_no_row _ _ _ _ H5), Q5. simpl.
  rewrite (all_records_no_row _ _ _ _ H6), Q6. simpl.
  unfold insights_and_render. simpl. rewrite Ht, Hs. simpl.
  by rewrite format_nothing.
Qed.

(** C1.  When none of the six tables has a row of the user,
    [generate_meta_prompt] returns a text, never an exception, and the text
    is one of the two fallback sentences.  The insight extractors, whose
    source is missing, are taken as the specification describes them on an
    empty sequence: they return an empty insight structure (they may also
    raise, which the orchestrator catches). *)
Theorem generate_meta_prompt_no_data (w : world) (user_id : string) :
  no_data_for (self w) user_id = true →
  (∀ d, extract_transaction_insights (data_processor (self w)) [] = Ok d → d = ∅) →
  (∀ d, extract_sentiment_insights (data_processor (self w)) [] = Ok d → d = ∅) →
  ∃ text,
    (generate_meta_prompt user_id w).1 = Ok text
    ∧ (text = error_fallback ∨ text = Renderer.empty_fallback).
Proof.
  intros Hno Ht Hs. rewrite generate_meta_prompt_run.
  destruct (lookup_all_no_data _ _ Hno) as [-> | ->]; simpl.
  2: { exists error_fallback. by split; [|left]. }
  unfold insights_and_render. simpl.
  destruct (extract_transaction_insights _ _) as [ti|] eqn:Eti; simpl.
  2: { exists error_fallback. by split; [|left]. }
  destruct (extract_sentiment_insights _ _) as [si|] eqn:Esi; simpl.
  2: { exists error_fallback. by split; [|left]. }
  rewrite (Ht ti eq_refl), (Hs si eq_refl), format_nothing. simpl.
  exists Renderer.empty_fallback. by split; [|right].
Qed.

Lemma generate_meta_prompt_no_data_witness :
  ∃ text,
    (generate_meta_prompt "u1" Examples.bare_world).1 = Ok text
    ∧ (text = error_fallback ∨ text = Renderer.empty_fallback).
Proof.
  apply generate_meta_prompt_no_data.
  - reflexivity.
  - intros d Hd. injection Hd as <-. reflexivity.
  - intros d Hd. injection Hd as <-. reflexivity.
Defined.

(** C2.  Whichever stage of the [try] block raises (the lookup, the
    transaction insights, the sentiment insights or the renderer),
    [generate_meta_prompt] returns the orchestrator's fallback sentence and
    does not raise. *)
Theorem generate_meta_prompt_catches (w : world) (user_id : string) :
  ((∃ e, (_get_user_data user_id w).1 = Raise e)
   ∨ (∃ ud, (_get_user_data user_id w).1 = Ok ud
        ∧ ((∃ e, extract_transaction_insights (data_processor (self w)) (transactions ud)
                 = Raise e)
           ∨ (∃ ti, extract_transaction_insights (data_processor (self w)) (transactions ud)
                    = Ok ti
                ∧ ((∃ e, extract_sentiment_insights (data_processor (self w)) (sentiment ud)
                         = Raise e)
                   ∨ (∃ si e,
                         extract_sentiment_insights (data_processor (self w)) (sentiment ud)
                         = Ok si
                         ∧ Renderer._format_meta_prompt
                             (demographics ud) (account ud) (credit ud) (investments ud)
                             ti si = Raise e))))))
  → (generate_meta_prompt user_id w).1 = Ok error_fallback.
Proof.
  rewrite generate_meta_prompt_run, get_user_data_run. simpl.
  intros [[e He] | (ud & Hud & Hstage)].
  - by rewrite He.
  - rewrite Hud. simpl. unfold insights_and_render.
    destruct Hstage as [[e He] | (ti & Hti & Hrest)].
    + by rewrite He.
    + rewrite Hti. simpl. destruct Hrest as [[e He] | (si & e & Hsi & He)].
      * by rewrite He.
      * rewrite Hsi. simpl. by rewrite He.
Qed.

Lemma generate_meta_prompt_catches_witness :
  (generate_meta_prompt "u1" Examples.headless_world).1 = Ok error_fallback.
Proof.
  apply generate_meta_prompt_catches.
  left. exists (mk_exn KeyError "'user_id'"). reflexivity.
Defined.

(** C6.  For each of the four record types with one record per user: when
    the table has a row of the user, the row that precedes every other row
    of the user in source order is the one the lookup step takes, and the
    one [_get_user_data] returns under that record's key when the six tables
    can be searched. *)
Theorem get_user_data_first_match
    (k : singular) (w : world) (user_id : string)
    (pre : list (list value)) (r : list value) (post : list (list value)) :
  rows (table_of k (self w)) = pre ++ r :: post →
  existsb (row_of_user (table_of k (self w)) user_id) pre = false →
  row_of_user (table_of k (self w)) user_id r = true →
  (∀ res, first_record (table_of k (self w)) user_id (setter_of k) res
          = Ok (setter_of k (to_dict (columns (table_of k (self w))) r) res))
  ∧ (all_queryable (self w) = true →
     ∃ ud, (_get_user_data user_id w).1 = Ok ud
           ∧ record_of k ud = to_dict (columns (table_of k (self w))) r).
Proof.
  intros Hrows Hpre Hr.
  assert (∀ res, first_record (table_of k (self w)) user_id (setter_of k) res
          = Ok (setter_of k (to_dict (columns (table_of k (self w))) r) res)) as Hstep.
  { intros res. by eapply first_record_first. }
  split; [exact Hstep|].
  intros Hq. apply all_queryable_true in Hq as (Q1 & Q2 & Q3 & Q4 & Q5 & Q6).
  rewrite get_user_data_run. simpl. unfold lookup_all.
  set (d := to_dict (columns (table_of k (self w))) r) in *.
  destruct (first_record_queryable (demographic_df (self w)) user_id
              set_demographics no_records Q1) as [r1 E1].
  fold no_records. rewrite E1. simpl.
  destruct (first_record_queryable (account_df (self w)) user_id set_account r1 Q2)
    as [r2 E2].
  rewrite E2. simpl.
  destruct (first_record_queryable (credit_df (self w)) user_id set_credit r2 Q3)
    as [r3 E3].
  rewrite E3. simpl.
  destruct (first_record_queryable (investment_df (self w)) user_id set_investments r3 Q4)
    as [r4 E4].
  rewrite E4. simpl.
  destruct (all_records_queryable (transaction_df (self w)) user_id set_transactions r4 Q5)
    as [r5 E5].
  rewrite E5. simpl.
  destruct (all_records_queryable (sentiment_df (self w)) user_id set_sentiment r5 Q6)
    as [r6 E6].
  rewrite E6. simpl.
  exists r6. split; [done|].
  eapply (all_records_keeps (fun x => record_of k x = d)); [| |exact E6]; [by destruct k|].
  eapply (all_records_keeps (fun x => record_of k x = d)); [| |exact E5]; [by destruct k|].
  destruct k; simpl in *.
  - rewrite Hstep in E1. simplify_eq.
    eapply (first_record_keeps (fun x => demographics x = d)); [| |exact E4]; [done|].
    eapply (first_record_keeps (fun x => demographics x = d)); [| |exact E3]; [done|].
    eapply (first_record_keeps (fun x => demographics x = d)); [| |exact E2]; done.
  - rewrite Hstep in E2. simplify_eq.
    eapply (first_record_keeps (fun x => account x = d)); [| |exact E4]; [done|].
    eapply (first_record_keeps (fun x => account x = d)); [| |exact E3]; done.
  - rewrite Hstep in E3. simplify_eq.
    eapply (first_record_keeps (fun x => credit x = d)); [| |exact E4]; done.
  - rewrite Hstep in E4. by simplify_eq.
Qed.

Lemma get_user_data_first_match_witness :
  (∀ res, first_record Examples.account_table "u1" set_account res
          = Ok (set_account
                  (to_dict ["user_id"; "account_type"] [VStr "u1"; VStr "checking"]) res))
  ∧ (all_queryable (self Examples.two_accounts_world) = true →
     ∃ ud, (_get_user_data "u1" Examples.two_accounts_world).1 = Ok ud
           ∧ account ud
             = to_dict ["user_id"; "account_type"] [VStr "u1"; VStr "checking"]).
Proof.
  apply (get_user_data_first_match Account Examples.two_accounts_world "u1"
           [[VStr "u2"; VStr "savings"]]
           [VStr "u1"; VStr "checking"]
           [[VStr "u1"; VStr "brokerage"]]); reflexivity.
Defined.

(** C5.  For the user whose only row is the demographic row with age 34,
    occupation Engineer, annual income 95000, city Austin and state TX, and
    with extractors that find nothing in no rows, the generated text is the
    demographic section alone: its lines include [Age: 34],
    [Occupation: Engineer], [Annual Income: $95000] and
    [Location: Austin, TX], and its only header line is
    [## Demographic Profile].  The renderer gives the same text on the
    record itself. *)
Theorem engineer_meta_prompt (p : DataProcessor) :
  extract_transaction_insights p [] = Ok ∅ →
  extract_sentiment_insights p [] = Ok ∅ →
  ∃ text,
    (generate_meta_prompt "u1" (Examples.engineer_world p)).1 = Ok text
    ∧ Layout.render (Layout.mk_inputs Examples.engineer ∅ ∅ ∅ ∅ ∅) = Ok text
    ∧ lines text
      = [ "## Demographic Profile";
          "Age: 34";
          "Gender: Unknown";
          "Occupation: Engineer";
          "Annual Income: $95000";
          "Education: Unknown";
          "Location: Austin, TX" ]
    ∧ In "Age: 34" (lines text)
    ∧ In "Occupation: Engineer" (lines text)
    ∧ In "Annual Income: $95000" (lines text)
    ∧ In "Location: Austin, TX" (lines text)
    ∧ header_lines text = ["## Demographic Profile"].
Proof.
  intros Ht Hs.
  exists (String.concat nl
            [ "## Demographic Profile";
              "Age: 34";
              "Gender: Unknown";
              "Occupation: Engineer";
              "Annual Income: $95000";
              "Education: Unknown";
              "Location: Austin, TX" ]).
  split.
  { rewrite generate_meta_prompt_run.
    assert (lookup_all (self (Examples.engineer_world p)) "u1"
            = Ok (mk_user_data (<["user_id" := VStr "u1"]> Examples.engineer)
                    ∅ ∅ ∅ [] [])) as ->.
    { by vm_compute. }
    unfold mbind, result_bind, insights_and_render. simpl.
    rewrite Ht, Hs. by vm_compute. }
  split; [by vm_compute|]. split; [by vm_compute|].
  repeat split; vm_compute; tauto.
Qed.

Lemma engineer_meta_prompt_witness :
  ∃ text,
    (generate_meta_prompt "u1" (Examples.engineer_world Examples.quiet_processor)).1
    = Ok text
    ∧ Layout.render (Layout.mk_inputs Examples.engineer ∅ ∅ ∅ ∅ ∅) = Ok text
    ∧ lines text
      = [ "## Demographic Profile";
          "Age: 34";
          "Gender: Unknown";
          "Occupation: Engineer";
          "Annual Income: $95000";
          "Education: Unknown";
          "Location: Austin, TX" ]
    ∧ In "Age: 34" (lines text)
    ∧ In "Occupation: Engineer" (lines text)
    ∧ In "Annual Income: $95000" (lines text)
    ∧ In "Location: Austin, TX" (lines text)
    ∧ header_lines text = ["## Demographic Profile"].
Proof.
  apply (engineer_meta_prompt Examples.quiet_processor); reflexivity.
Defined.

(** C8.  A call of [generate_meta_prompt] leaves the generator object, and
    with it each of its six tables, as it was; only the log grows.  The
    lookup [_get_user_data] changes nothing at all. *)
Theorem generate_meta_prompt_read_only (w : world) (user_id : string) :
  self (generate_meta_prompt user_id w).2 = self w
  ∧ demographic_df (self (generate_meta_prompt user_id w).2) = demographic_df (self w)
  ∧ account_df (self (generate_meta_prompt user_id w).2) = account_df (self w)
  ∧ transaction_df (self (generate_meta_prompt user_id w).2) = transaction_df (self w)
  ∧ credit_df (self (generate_meta_prompt user_id w).2) = credit_df (self w)
  ∧ investment_df (self (generate_meta_prompt user_id w).2) = investment_df (self w)
  ∧ sentiment_df (self (generate_meta_prompt user_id w).2) = sentiment_df (self w)
  ∧ (_get_user_data user_id w).2 = w.
Proof.
  assert (self (generate_meta_prompt user_id w).2 = self w) as Hself.
  { rewrite generate_meta_prompt_run.
    by destruct (lookup_all (self w) user_id ≫= insights_and_render (self w)). }
  rewrite Hself, get_user_data_run. by repeat split.
Qed.

End GeneratorClaims.

(** ** The in-memory collection *)

Module MongoClaims.
Import Mongo.

Lemma update_one_unmatched query update upsert c :
  find_one query c = None →
  update_one query update upsert c = not_matched query update upsert c.
Proof.
  unfold find_one, update_one.
  destruct (find_one_index query c) as [i|]; simpl; [|done].
  by intros ->.
Qed.

Lemma upsert_doc_plain query update :
  update !! "$set" = None → upsert_doc query update = Ok (update ∪ query).
Proof. unfold upsert_doc. by intros ->. Qed.

Lemma upsert_doc_set query update d :
  update !! "$set" = Some (Doc d) →
  upsert_doc query update = Ok ((Atom <$> d) ∪ query).
Proof. unfold upsert_doc. by intros ->. Qed.

(** C10, as the code has it.  When no document matches the query,
    [update_one] returns no result.  Without [upsert] it fails on the
    unbound name [MockUpdateResult] and leaves the collection as it was.
    With [upsert], when the update has no [$set] entry or one that is a
    dictionary, the merged document (the entries of the update, or of its
    [$set] operand, over those of the query) is appended to the collection
    and the call then fails on the unbound name; when the [$set] operand
    cannot be merged, the call fails with the error of [dict.update] and
    nothing is inserted. *)
Theorem update_one_no_match (query update : document) (upsert : bool) (c : MockCollection) :
  find_one query c = None →
  (∀ r c', update_one query update upsert c ≠ (Ok r, c'))
  ∧ (upsert = false →
     update_one query update upsert c = (Raise unbound_MockUpdateResult, c))
  ∧ (upsert = true → update !! "$set" = None →
     update_one query update upsert c
     = (Raise unbound_MockUpdateResult,
        mk_collection (name c) (data c ++ [update ∪ query])))
  ∧ (upsert = true → ∀ d, update !! "$set" = Some (Doc d) →
     update_one query update upsert c
     = (Raise unbound_MockUpdateResult,
        mk_collection (name c) (data c ++ [(Atom <$> d) ∪ query])))
  ∧ (upsert = true → ∀ a e, update !! "$set" = Some (Atom a) →
     update_entries (Atom a) = Raise e →
     update_one query update upsert c = (Raise e, c)).
Proof.
  intros Hnone. rewrite (update_one_unmatched _ _ _ _ Hnone).
  unfold not_matched, insert_one. split.
  { intros r c'. destruct upsert; [|done]. by destruct (upsert_doc query update). }
  split; [by intros ->|]. split.
  { intros -> Hset. by rewrite (upsert_doc_plain _ _ Hset). }
  split.
  { intros -> d Hset. by rewrite (upsert_doc_set _ _ _ Hset). }
  intros -> a e Hset He. unfold upsert_doc. rewrite Hset.
  unfold mbind, result_bind. by rewrite He.
Qed.

Lemma update_one_no_match_witness :
  update_one Examples.query_u1 Examples.set_name true Examples.users
  = (Raise unbound_MockUpdateResult,
     mk_collection "users"
       [ <["user_id" := Atom (SStr "testuser")]> ∅;
         <["full_name" := Atom (SStr "User One")]>
           (<["user_id" := Atom (SStr "u1")]> ∅) ]).
Proof.
  destruct (update_one_no_match Examples.query_u1 Examples.set_name true Examples.users
              eq_refl) as (_ & _ & _ & Hset & _).
  rewrite (Hset eq_refl (<["full_name" := SStr "User One"]> ∅) eq_refl).
  reflexivity.
Defined.

(** C10, as it is stated, fails for an upsert whose [$set] operand is a
    number: no document matches, the call fails in [dict.update] with a
    [TypeError], not on the unbound name, and nothing has been inserted. *)
Lemma update_one_counterexample :
  find_one Examples.query_u1 Examples.users = None
  ∧ update_one Examples.query_u1 Examples.set_number true Examples.users
    = (Raise (mk_exn TypeError "'int' object is not iterable"), Examples.users)
  ∧ exn_kind (mk_exn TypeError "'int' object is not iterable") ≠ UnboundLocalError.
Proof. split; [by vm_compute|]. split; [by vm_compute|]. discriminate. Qed.

End MongoClaims.

(** ** The monthly spending aggregate *)

Module DataProcessorClaims.
Import DataProcessor.
Local Open Scope Q_scope.

Lemma Qsum_nil : Qsum [] = 0.
Proof. reflexivity. Qed.

Lemma Qsum_cons (a : Q) (l : list Q) : Qsum (a :: l) = a + Qsum l.
Proof. reflexivity. Qed.

Local Arguments Qsum : simpl never.

(** Adding an amount to a month adds it to the sum of the totals. *)
Lemma add_to_month_sum m a totals :
  Qsum (snd <$> add_to_month m a totals) == Qsum (snd <$> totals) + a.
Proof.
  induction totals as [|[m' t] rest IH]; csimpl.
  - rewrite Qsum_cons, Qsum_nil. ring.
  - destruct (decide (m' = m)); csimpl; rewrite !Qsum_cons.
    + ring.
    + rewrite IH. ring.
Qed.

(** Grouping loses nothing: the totals add up to the raw sum. *)
Lemma month_totals_sum txs :
  Qsum (snd <$> month_totals txs) == raw_sum txs.
Proof.
  induction txs as [|t rest IH]; simpl.
  - reflexivity.
  - rewrite add_to_month_sum, IH. unfold raw_sum. csimpl. rewrite Qsum_cons. ring.
Qed.

Lemma add_to_month_keys m a totals m' :
  In m' (fst <$> add_to_month m a totals) ↔ m' = m ∨ In m' (fst <$> totals).
Proof.
  induction totals as [|[k t] rest IH]; csimpl.
  - intuition.
  - destruct (decide (k = m)) as [->|Hne]; csimpl.
    + intuition.
    + rewrite IH. intuition.
Qed.

Lemma add_to_month_nodup m a totals :
  NoDup (fst <$> totals) → NoDup (fst <$> add_to_month m a totals).
Proof.
  induction totals as [|[k t] rest IH]; csimpl.
  - intros _. apply NoDup_cons. split; [apply not_elem_of_nil | constructor].
  - intros [Hk Hrest]%NoDup_cons.
    destruct (decide (k = m)) as [->|Hne]; csimpl.
    + by apply NoDup_cons.
    + apply NoDup_cons. split; [|by apply IH].
      rewrite list_elem_of_In, add_to_month_keys, <- list_elem_of_In.
      intros [->|Hin]; [done | by apply Hk].
Qed.

(** An entry after the addition is an entry of another month from before,
    or the entry of the month itself: its old total plus the amount, or the
    amount alone when the month is new. *)
Lemma add_to_month_entry m a totals m' q :
  NoDup (fst <$> totals) →
  In (m', q) (add_to_month m a totals) →
  (m' ≠ m ∧ In (m', q) totals)
  ∨ (m' = m ∧ ((∃ q0, In (m, q0) totals ∧ q = q0 + a)
               ∨ (¬ In m (fst <$> totals) ∧ q = a))).
Proof.
  induction totals as [|[k t] rest IH]; csimpl.
  - intros _ [[= <- <-]|[]]. right. split; [done|]. right.
    split; [intros [] | reflexivity].
  - intros [Hk Hrest]%NoDup_cons.
    destruct (decide (k = m)) as [->|Hne]; csimpl.
    + intros [[= <- <-]|Hin].
      * right. split; [done|]. left. exists t. by split; [left|].
      * left. split; [|by right]. intros ->. apply Hk.
        apply list_elem_of_In. apply in_map_iff. by exists (m, q).
    + intros [[= <- <-]|Hin].
      * left. split; [done | by left].
      * destruct (IH Hrest Hin) as [[Hm Hq] | [-> [(q0 & Hq0 & ->) | [Hnew ->]]]].
        -- left. split; [done | by right].
        -- right. split; [done|]. left. exists q0. by split; [right|].
        -- right. split; [done|]. right. split; [|done].
           intros [Heq|Hin']; [by apply Hne | by apply Hnew].
Qed.

Lemma month_totals_nodup txs : NoDup (fst <$> month_totals txs).
Proof.
  induction txs as [|t rest IH]; simpl; [constructor|].
  by apply add_to_month_nodup.
Qed.

(** The months that have a total are the months of the transactions. *)
Lemma month_totals_keys txs m :
  In m (fst <$> month_totals txs) ↔ ∃ t, In t txs ∧ calendar_month t = m.
Proof.
  induction txs as [|t rest IH]; simpl.
  - split; [done | by intros (t & [] & _)].
  - rewrite add_to_month_keys, IH. split.
    + intros [->|(t' & Hin & Hm)]; [exists t; by split; [left|] |].
      exists t'. by split; [right|].
    + intros (t' & [->|Hin] & Hm); [by left|]. right. by exists t'.
Qed.

Lemma total_of_month_cons t rest m :
  total_of_month (t :: rest) m
  = if bool_decide (calendar_month t = m)
    then amount t + total_of_month rest m
    else total_of_month rest m.
Proof.
  unfold total_of_month. simpl. by destruct (bool_decide (calendar_month t = m)).
Qed.

Lemma total_of_month_absent txs m :
  (¬ ∃ t, In t txs ∧ calendar_month t = m) → total_of_month txs m = 0.
Proof.
  induction txs as [|t rest IH]; [done|]. intros Hno.
  rewrite total_of_month_cons. rewrite bool_decide_eq_false_2.
  - apply IH. intros (t' & Hin & Hm). apply Hno. exists t'. by split; [right|].
  - intros Hm. apply Hno. exists t. by split; [left|].
Qed.

(** Each running total is the total of its month. *)
Lemma month_totals_entry txs m q :
  In (m, q) (month_totals txs) → q == total_of_month txs m.
Proof.
  revert m q. induction txs as [|t rest IH]; simpl; [done|].
  intros m q Hin.
  apply add_to_month_entry in Hin; [|apply month_totals_nodup].
  rewrite total_of_month_cons.
  destruct Hin as [[Hm Hq] | [-> [(q0 & Hq0 & ->) | [Hnew ->]]]].
  - rewrite bool_decide_eq_false_2 by done. by apply IH.
  - rewrite bool_decide_eq_true_2 by done. rewrite (IH _ _ Hq0). ring.
  - rewrite bool_decide_eq_true_2 by done.
    rewrite total_of_month_absent; [ring|].
    intros Hex. by apply Hnew, month_totals_keys.
Qed.

(** Transactions of one month have one total, their raw sum. *)
Lemma month_totals_one_month t rest :
  one_month (t :: rest) →
  ∃ q, month_totals (t :: rest) = [(calendar_month t, q)] ∧ q == raw_sum (t :: rest).
Proof.
  revert t. induction rest as [|t' rest IH]; intros t Hone.
  - exists (amount t). split; [done|]. unfold raw_sum. csimpl.
    rewrite Qsum_cons, Qsum_nil. ring.
  - destruct (IH t') as (q & Hq & Hsum).
    { intros a b Ha Hb. apply Hone; by right. }
    exists (q + amount t). split.
    + change (month_totals (t :: t' :: rest))
        with (add_to_month (calendar_month t) (amount t) (month_totals (t' :: rest))).
      rewrite Hq. simpl.
      rewrite (Hone t' t) by (simpl; auto).
      by rewrite decide_True.
    + rewrite Hsum. unfold raw_sum. csimpl. rewrite !Qsum_cons. ring.
Qed.

Lemma monthly_spending_one_month txs :
  one_month txs → monthly_spending txs == raw_sum txs.
Proof.
  destruct txs as [|t rest]; [reflexivity|]. intros Hone.
  destruct (month_totals_one_month _ _ Hone) as (q & Hq & Hsum).
  unfold monthly_spending. rewrite Hq. unfold mean. csimpl.
  rewrite Qsum_cons, Qsum_nil, <- Hsum. field.
Qed.

(** C9, as the specification's own definition gives it.  For every sequence
    of transactions the amounts are grouped by calendar month (one total per
    month that occurs, each the sum of the amounts of its transactions, and
    together the raw sum) and [monthly_spending] is the average of these
    totals; when the data spans at most one month it is the raw sum.  On the
    three transactions of the example the totals are 150 and 300 and the
    average is 225. *)
Theorem monthly_spending_average (txs : list transaction) :
  NoDup (fst <$> month_totals txs)
  ∧ (∀ m, In m (fst <$> month_totals txs) ↔ ∃ t, In t txs ∧ calendar_month t = m)
  ∧ (∀ m q, In (m, q) (month_totals txs) → q == total_of_month txs m)
  ∧ Qsum (snd <$> month_totals txs) == raw_sum txs
  ∧ monthly_spending txs = mean (snd <$> month_totals txs)
  ∧ (one_month txs → monthly_spending txs == raw_sum txs)
  ∧ month_totals example_transactions = [(2024%Z, 1%Z, 50 + 100); (2024%Z, 2%Z, 300)]
  ∧ monthly_spending example_transactions == 225.
Proof.
  split; [apply month_totals_nodup|].
  split; [apply month_totals_keys|].
  split; [apply month_totals_entry|].
  split; [apply month_totals_sum|].
  split; [done|].
  split; [apply monthly_spending_one_month|].
  split; [done|]. by vm_compute.
Qed.

Lemma monthly_spending_average_witness :
  monthly_spending [mk_transaction 100 "Food" 2024 1; mk_transaction 50 "Travel" 2024 1]
  == raw_sum [mk_transaction 100 "Food" 2024 1; mk_transaction 50 "Travel" 2024 1].
Proof.
  destruct (monthly_spending_average
              [mk_transaction 100 "Food" 2024 1; mk_transaction 50 "Travel" 2024 1])
    as (_ & _ & _ & _ & _ & Hone & _).
  apply Hone. intros t t' Ht Ht'. simpl in Ht, Ht'.
  destruct Ht as [<-|[<-|[]]], Ht' as [<-|[<-|[]]]; reflexivity.
Defined.

(** C9, as it is stated, gives 100 for the example; the average of the
    per-month totals 150 and 300 is 225. *)
Lemma monthly_spending_counterexample :
  monthly_spending example_transactions == 225
  ∧ ¬ monthly_spending example_transactions == 100.
Proof. split; [by vm_compute|]. by vm_compute. Qed.

End DataProcessorClaims.

(** ** More on the collection: queries, cursors, round trips *)

Module CollectionFacts.
Import Mongo.

Lemma norm_idemp a : norm (norm a) = norm a.
Proof. by destruct a. Qed.

Lemma py_eq_refl x : py_eq x x = true.
Proof. destruct x; simpl; by apply bool_decide_eq_true. Qed.

(** The match test, key by key. *)
Lemma matches_spec (query item : document) :
  matches query item = true
  ↔ ∀ k v, query !! k = Some v → ∃ x, item !! k = Some x ∧ py_eq x v = true.
Proof.
  unfold matches. rewrite forallb_forall. split.
  - intros H k v Hk.
    specialize (H (k, v)). simpl in H.
    destruct (item !! k) as [x|]; [|discriminate H].
    + exists x. split; [done|]. apply H.
      apply list_elem_of_In. by apply elem_of_map_to_list.
    + apply list_elem_of_In. by apply elem_of_map_to_list.
  - intros H [k v] Hin. simpl.
    apply list_elem_of_In, elem_of_map_to_list in Hin.
    destruct (H k v Hin) as (x & -> & Hx). exact Hx.
Qed.

Lemma matches_empty_query item : matches ∅ item = true.
Proof. unfold matches. by rewrite map_to_list_empty. Qed.

(** Nothing but the empty query matches the empty document. *)
Lemma matches_empty_item query : matches query ∅ = true → query = ∅.
Proof.
  intros H. apply map_empty. intros k.
  destruct (query !! k) as [v|] eqn:Hk; [|done].
  destruct (proj1 (matches_spec _ _) H k v Hk) as (x & Hx & _).
  by rewrite lookup_empty in Hx.
Qed.

Lemma first_match_some query l i :
  first_match query l = Some i
  ↔ ∃ item, l !! i = Some item ∧ matches query item = true
            ∧ ∀ j it, (j < i)%nat → l !! j = Some it → matches query it = false.
Proof.
  revert i. induction l as [|x l IH]; intros i; simpl.
  - split; [done | by intros (item & ? & _)].
  - destruct (matches query x) eqn:Hx.
    + split.
      * intros [= <-]. exists x. repeat split; [done|]. intros j it Hj. lia.
      * intros (item & Hi & Hm & Hfirst). destruct i as [|i]; [done|].
        specialize (Hfirst O x ltac:(lia) eq_refl). congruence.
    + split.
      * intros (i' & Hl & ->)%fmap_Some.
        apply IH in Hl as (item & Hi & Hm & Hfirst).
        exists item. repeat split; [done..|].
        intros [|j] it Hj Hit; simpl in Hit; [congruence|].
        apply (Hfirst j); [lia | done].
      * intros (item & Hi & Hm & Hfirst). destruct i as [|i]; simpl in Hi.
        { congruence. }
        apply fmap_Some. exists i. split; [|done].
        apply IH. exists item. repeat split; [done..|].
        intros j it Hj Hit. apply (Hfirst (S j)); [lia | done].
Qed.

Lemma first_match_none query l :
  first_match query l = None ↔ ∀ item, In item l → matches query item = false.
Proof.
  induction l as [|x l IH]; simpl.
  - split; [by intros _ item [] | done].
  - destruct (matches query x) eqn:Hx.
    + split; [done|]. intros H. specialize (H x (or_introl eq_refl)). congruence.
    + rewrite fmap_None, IH. split.
      * intros H item [<-|Hin]; [done | by apply H].
      * intros H item Hin. apply H. by right.
Qed.

(** The shortcut of [find_one] for an empty query gives what the scan would
    give. *)
Lemma find_one_index_scan query c :
  find_one_index query c = first_match query (data c).
Proof.
  unfold find_one_index, dict_truthy.
  destruct (bool_decide (query = ∅)) eqn:Hq; simpl; [|done].
  apply bool_decide_eq_true in Hq as ->.
  destruct (data c) as [|x l]; simpl; [done|].
  by rewrite matches_empty_query.
Qed.

Lemma first_match_lt query l i :
  first_match query l = Some i → (i < List.length l)%nat.
Proof.
  intros (item & Hi & _)%first_match_some. by apply lookup_lt_Some in Hi.
Qed.

Lemma find_one_none_scan query c :
  find_one query c = None ↔ first_match query (data c) = None.
Proof.
  unfold find_one. rewrite find_one_index_scan.
  destruct (first_match query (data c)) as [i|] eqn:Hi; simpl; [|done].
  split; [|done]. intros Hnone.
  apply first_match_lt, lookup_lt_is_Some in Hi as [x Hx]. congruence.
Qed.

Lemma matches_submap (query item : document) :
  query ⊆ item → matches query item = true.
Proof.
  intros Hsub. apply matches_spec. intros k v Hk.
  exists v. split; [by eapply lookup_weaken | apply py_eq_refl].
Qed.

Lemma results_from query l acc :
  fold_left (fun results item =>
               if matches query item then results ++ [item] else results) l acc
  = acc ++ List.filter (matches query) l.
Proof.
  revert acc. induction l as [|x l IH]; intros acc; simpl.
  - by rewrite app_nil_r.
  - rewrite IH. destruct (matches query x); [|done].
    by rewrite <- app_assoc.
Qed.

Lemma filter_all {A} (f : A → bool) (l : list A) :
  (∀ x, f x = true) → List.filter f l = l.
Proof.
  intros Hf. induction l as [|x l IH]; simpl; [done|]. by rewrite Hf, IH.
Qed.

Lemma head_filter_first_match query l :
  head (List.filter (matches query) l) = (i ← first_match query l; l !! i).
Proof.
  induction l as [|x l IH]; simpl; [done|].
  destruct (matches query x); simpl; [done|].
  rewrite IH. by destruct (first_match query l).
Qed.

Lemma first_match_app query l doc :
  first_match query (l ++ [doc])
  = match first_match query l with
    | Some i => Some i
    | None => if matches query doc then Some (List.length l) else None
    end.
Proof.
  induction l as [|x l IH]; simpl.
  - by destruct (matches query doc).
  - destruct (matches query x); [done|]. rewrite IH.
    destruct (first_match query l); simpl; [done|].
    by destruct (matches query doc).
Qed.

Lemma find_one_scan query c :
  find_one query c = (i ← first_match query (data c); data c !! i).
Proof. unfold find_one. by rewrite find_one_index_scan. Qed.

Lemma find_one_appended query doc c :
  find_one query (mk_collection (name c) (data c ++ [doc]))
  = match find_one query c with
    | Some d => Some d
    | None => if matches query doc then Some doc else None
    end.
Proof.
  rewrite !find_one_scan. simpl. rewrite first_match_app.
  destruct (first_match query (data c)) as [i|] eqn:Hi; simpl.
  - pose proof (first_match_lt _ _ _ Hi) as Hlt.
    rewrite lookup_app_l by done.
    apply lookup_lt_is_Some in Hlt as [x Hx]. by rewrite Hx.
  - destruct (matches query doc); simpl; [|done].
    by rewrite list_lookup_middle.
Qed.

End CollectionFacts.

Module CollectionExtras.
Import Mongo CollectionFacts.

(** X1.  [find_one] returns a document exactly when it is the first
    document of the collection, in insertion order, that matches the query
    (every key of the query is in the document with an equal value); this
    also holds for the empty query, which every document matches. *)
Theorem find_one_first (query : document) (c : MockCollection) (item : document) :
  find_one query c = Some item
  ↔ ∃ i, data c !! i = Some item
         ∧ matches query item = true
         ∧ ∀ j it, (j < i)%nat → data c !! j = Some it → matches query it = false.
Proof.
  rewrite find_one_scan. split.
  - destruct (first_match query (data c)) as [i|] eqn:Hi; simpl; [|done].
    intros Hitem. exists i.
    apply first_match_some in Hi as (item' & Hi & Hm & Hfirst).
    assert (item' = item) as -> by congruence. done.
  - intros (i & Hi & Hm & Hfirst).
    assert (first_match query (data c) = Some i) as ->; [|done].
    apply first_match_some. by exists item.
Qed.

(** X2.  [find_one] returns [None] exactly when no document of the
    collection matches the query; it returns a document whenever some
    document holds all the entries of the query. *)
Theorem find_one_none_iff (query : document) (c : MockCollection) :
  (find_one query c = None
   ↔ ∀ item, In item (data c) → matches query item = false)
  ∧ (∀ item, In item (data c) → query ⊆ item → is_Some (find_one query c)).
Proof.
  split.
  - by rewrite find_one_none_scan, first_match_none.
  - intros item Hin Hsub.
    destruct (find_one query c) as [d|] eqn:Hfind; [eauto|].
    apply find_one_none_scan in Hfind.
    pose proof (proj1 (first_match_none _ _) Hfind item Hin) as Hno.
    by rewrite (matches_submap _ _ Hsub) in Hno.
Qed.

(** X3.  For every query, the documents that [find] answers with (the list
    itself for an empty query, the items of the cursor otherwise) are the
    matching documents of the collection in insertion order, and [find_one]
    returns the first of them; [sort] does not reorder them. *)
Theorem find_documents (query : document) (c : MockCollection) :
  Cursor.documents (Cursor.find query c) = List.filter (matches query) (data c)
  ∧ find_one query c = head (Cursor.documents (Cursor.find query c))
  ∧ (∀ cur (A : Type) (args : A) length,
       Cursor.find query c = Cursor.Cursor cur →
       Cursor.to_list length (Cursor.sort args cur)
       = Cursor.to_list length
           (Cursor.mk_cursor (List.filter (matches query) (data c)))).
Proof.
  assert (Cursor.documents (Cursor.find query c)
          = List.filter (matches query) (data c)) as Hdocs.
  { unfold Cursor.find, dict_truthy.
    destruct (bool_decide (query = ∅)) eqn:Hq; simpl.
    - apply bool_decide_eq_true in Hq as ->.
      symmetry. apply filter_all, matches_empty_query.
    - unfold Cursor.results. by rewrite results_from. }
  split; [done|]. split.
  - by rewrite Hdocs, head_filter_first_match, find_one_scan.
  - intros cur A args length Hfind. unfold Cursor.sort.
    rewrite Hfind in Hdocs. simpl in Hdocs. rewrite <- Hdocs. by destruct cur.
Qed.

(** X4.  [to_list] returns a prefix of the items of the cursor: all of them
    for no length and for the length 0, the first [n] (or all, when there are
    fewer) for a positive [n]. *)
Theorem to_list_prefix (length : option Z) (cur : Cursor.MockCursor) :
  (∃ rest, Cursor.items cur = Cursor.to_list length cur ++ rest)
  ∧ (length = None ∨ length = Some 0 → Cursor.to_list length cur = Cursor.items cur)
  ∧ (∀ n, length = Some n → 0 < n →
       List.length (Cursor.to_list length cur)
       = min (Z.to_nat n) (List.length (Cursor.items cur))).
Proof.
  split; [|split].
  - unfold Cursor.to_list, Cursor.slice_to.
    destruct length as [n|]; [|exists []; by rewrite app_nil_r].
    destruct (n =? 0); [exists []; by rewrite app_nil_r|].
    destruct (0 <=? n); eexists; symmetry; apply take_drop.
  - by intros [-> | ->].
  - intros n -> Hn. unfold Cursor.to_list, Cursor.slice_to.
    destruct (Z.eqb_spec n 0); [lia|].
    destruct (Z.leb_spec 0 n); [|lia].
    apply length_take.
Qed.

(** X5.  After [insert_one], [find_one] answers as before when it had an
    answer; when it had none, it returns the inserted document if that
    matches the query and still [None] if it does not. *)
Theorem insert_then_find (query doc : document) (c : MockCollection) :
  find_one query (insert_one doc c).2
  = match find_one query c with
    | Some d => Some d
    | None => if matches query doc then Some doc else None
    end.
Proof. unfold insert_one. simpl. apply find_one_appended. Qed.

Lemma find_one_position query c item :
  find_one query c = Some item →
  ∃ i, find_one_index query c = Some i ∧ data c !! i = Some item.
Proof.
  unfold find_one. destruct (find_one_index query c) as [i|]; simpl; [|done].
  intros Hi. by exists i.
Qed.

(** X6.  [update_one] with a [$set] operand on a document that is found (and
    is not the empty dictionary) returns the result with both counts 1 and
    changes that document in place: the keys of the operand get its values,
    the other keys of the document keep theirs, and the other documents of
    the collection, its name and its size are as before, with or without
    [upsert]. *)
Theorem update_one_set (query update : document) (upsert : bool) (c : MockCollection)
    (item : document) (d : gmap string scalar) :
  find_one query c = Some item →
  item ≠ ∅ →
  update !! "$set" = Some (Doc d) →
  ∃ i item',
    data c !! i = Some item
    ∧ update_one query update upsert c
      = (Ok (mk_update_result 1 1 None), mk_collection (name c) (<[i := item']> (data c)))
    ∧ (∀ k v, d !! k = Some v → item' !! k = Some (Atom v))
    ∧ (∀ k, d !! k = None → item' !! k = item !! k)
    ∧ List.length (<[i := item']> (data c)) = List.length (data c)
    ∧ (∀ j, j ≠ i → <[i := item']> (data c) !! j = data c !! j).
Proof.
  intros Hfind Hne Hset.
  destruct (find_one_position _ _ _ Hfind) as (i & Hi & Hitem).
  exists i, ((Atom <$> d) ∪ item).
  split; [done|]. split.
  { unfold update_one. rewrite Hi, Hitem.
    unfold dict_truthy. rewrite bool_decide_eq_false_2 by done. simpl.
    unfold updated_item. by rewrite Hset. }
  split.
  { intros k v Hk. apply lookup_union_Some_l. by rewrite lookup_fmap, Hk. }
  split.
  { intros k Hk. apply lookup_union_r. by rewrite lookup_fmap, Hk. }
  split; [apply length_insert|].
  intros j Hj. by apply list_lookup_insert_ne.
Qed.

Lemma update_one_set_witness :
  ∃ i item',
    data Examples.users !! i = Some (<["user_id" := Atom (SStr "testuser")]> ∅)
    ∧ update_one (<["user_id" := Atom (SStr "testuser")]> ∅) Examples.set_name false
        Examples.users
      = (Ok (mk_update_result 1 1 None),
         mk_collection (name Examples.users) (<[i := item']> (data Examples.users)))
    ∧ (∀ k v, (<["full_name" := SStr "User One"]> ∅ : gmap string scalar) !! k = Some v →
              item' !! k = Some (Atom v))
    ∧ (∀ k, (<["full_name" := SStr "User One"]> ∅ : gmap string scalar) !! k = None →
            item' !! k = (<["user_id" := Atom (SStr "testuser")]> ∅ : document) !! k)
    ∧ List.length (<[i := item']> (data Examples.users)) = List.length (data Examples.users)
    ∧ (∀ j, j ≠ i → <[i := item']> (data Examples.users) !! j = data Examples.users !! j).
Proof.
  apply (update_one_set (<["user_id" := Atom (SStr "testuser")]> ∅) Examples.set_name false
           Examples.users (<["user_id" := Atom (SStr "testuser")]> ∅)
           (<["full_name" := SStr "User One"]> ∅)).
  - reflexivity.
  - intros H. apply (f_equal (fun m => m !! "user_id")) in H. vm_compute in H. discriminate.
  - reflexivity.
Defined.

(** X7.  [update_one] with an update that has no [$set] key, on a document
    that is found (and is not the empty dictionary), merges the update into
    the document: the keys of the update get its values, and the keys of the
    document that the update does not mention are kept, so the document is
    not replaced by the update. *)
Theorem update_one_merges (query update : document) (upsert : bool) (c : MockCollection)
    (item : document) :
  find_one query c = Some item →
  item ≠ ∅ →
  update !! "$set" = None →
  ∃ i item',
    data c !! i = Some item
    ∧ update_one query update upsert c
      = (Ok (mk_update_result 1 1 None), mk_collection (name c) (<[i := item']> (data c)))
    ∧ (∀ k v, update !! k = Some v → item' !! k = Some v)
    ∧ (∀ k, update !! k = None → item' !! k = item !! k)
    ∧ (∀ j, j ≠ i → <[i := item']> (data c) !! j = data c !! j).
Proof.
  intros Hfind Hne Hset.
  destruct (find_one_position _ _ _ Hfind) as (i & Hi & Hitem).
  exists i, (update ∪ item).
  split; [done|]. split.
  { unfold update_one. rewrite Hi, Hitem.
    unfold dict_truthy. rewrite bool_decide_eq_false_2 by done. simpl.
    unfold updated_item. by rewrite Hset. }
  split; [intros k v Hk; by apply lookup_union_Some_l|].
  split; [intros k Hk; by apply lookup_union_r|].
  intros j Hj. by apply list_lookup_insert_ne.
Qed.

Lemma update_one_merges_witness :
  ∃ i item',
    data Examples.users !! i = Some (<["user_id" := Atom (SStr "testuser")]> ∅)
    ∧ update_one ∅ (<["email" := Atom (SStr "t@example.com")]> ∅) false Examples.users
      = (Ok (mk_update_result 1 1 None),
         mk_collection (name Examples.users) (<[i := item']> (data Examples.users)))
    ∧ (∀ k v, (<["email" := Atom (SStr "t@example.com")]> ∅ : document) !! k = Some v →
              item' !! k = Some v)
    ∧ (∀ k, (<["email" := Atom (SStr "t@example.com")]> ∅ : document) !! k = None →
            item' !! k = (<["user_id" := Atom (SStr "testuser")]> ∅ : document) !! k)
    ∧ (∀ j, j ≠ i → <[i := item']> (data Examples.users) !! j = data Examples.users !! j).
Proof.
  apply (update_one_merges ∅ (<["email" := Atom (SStr "t@example.com")]> ∅) false
           Examples.users (<["user_id" := Atom (SStr "testuser")]> ∅)).
  - reflexivity.
  - intros H. apply (f_equal (fun m => m !! "user_id")) in H. vm_compute in H. discriminate.
  - reflexivity.
Defined.

(** X8.  When the document that [find_one] returns is the empty dictionary
    (which only the empty query finds), [update_one] treats it as no match:
    the document is not updated, and the call ends as it does for a query
    without a match. *)
Theorem update_one_empty_item (query update : document) (upsert : bool) (c : MockCollection) :
  find_one query c = Some ∅ →
  query = ∅
  ∧ update_one query update upsert c = not_matched query update upsert c
  ∧ (upsert = false →
     update_one query update upsert c = (Raise unbound_MockUpdateResult, c)).
Proof.
  intros Hfind.
  assert (update_one query update upsert c = not_matched query update upsert c) as Hrun.
  { destruct (find_one_position _ _ _ Hfind) as (i & Hi & Hitem).
    unfold update_one. by rewrite Hi, Hitem. }
  split; [|split; [done|]].
  - apply find_one_first in Hfind as (i & _ & Hm & _). by apply matches_empty_item.
  - intros ->. by rewrite Hrun.
Qed.

Lemma update_one_empty_item_witness :
  (∅ : document) = ∅
  ∧ update_one ∅ Examples.set_name false (mk_collection "notes" [∅])
    = not_matched ∅ Examples.set_name false (mk_collection "notes" [∅])
  ∧ (false = false →
     update_one ∅ Examples.set_name false (mk_collection "notes" [∅])
     = (Raise unbound_MockUpdateResult, mk_collection "notes" [∅])).
Proof.
  apply (update_one_empty_item ∅ Examples.set_name false (mk_collection "notes" [∅])).
  reflexivity.
Defined.

(** X9.  An upsert for a query without a match fails on the unbound name
    but leaves the merged document in the collection; the same call made
    again finds that document, returns the result with both counts 1 and
    changes nothing.  (The query is not empty and the [$set] operand sets
    none of its keys.) *)
Theorem upsert_then_retry (query update : document) (c : MockCollection)
    (d : gmap string scalar) :
  find_one query c = None →
  query ≠ ∅ →
  update !! "$set" = Some (Doc d) →
  (∀ k, is_Some (query !! k) → d !! k = None) →
  update_one query update true c
  = (Raise unbound_MockUpdateResult,
     mk_collection (name c) (data c ++ [(Atom <$> d) ∪ query]))
  ∧ find_one query (mk_collection (name c) (data c ++ [(Atom <$> d) ∪ query]))
    = Some ((Atom <$> d) ∪ query)
  ∧ update_one query update true
      (mk_collection (name c) (data c ++ [(Atom <$> d) ∪ query]))
    = (Ok (mk_update_result 1 1 None),
       mk_collection (name c) (data c ++ [(Atom <$> d) ∪ query])).
Proof.
  intros Hnone Hne Hset Hfresh.
  set (new_doc := (Atom <$> d) ∪ query).
  assert (matches query new_doc = true) as Hm.
  { apply matches_spec. intros k v Hk. exists v. split; [|apply py_eq_refl].
    unfold new_doc. rewrite lookup_union_r; [done|].
    rewrite lookup_fmap, Hfresh; [done | eauto]. }
  assert (find_one query (mk_collection (name c) (data c ++ [new_doc])) = Some new_doc)
    as Hfound.
  { by rewrite find_one_appended, Hnone, Hm. }
  split; [|split; [done|]].
  - rewrite (MongoClaims.update_one_unmatched _ _ _ _ Hnone).
    unfold not_matched. by rewrite (MongoClaims.upsert_doc_set _ _ _ Hset).
  - destruct (find_one_position _ _ _ Hfound) as (i & Hi & Hitem).
    unfold update_one. rewrite Hi, Hitem.
    assert (new_doc ≠ ∅) as Hdoc.
    { intros Hempty. apply Hne. apply map_empty. intros k.
      destruct (query !! k) as [v|] eqn:Hk; [|done].
      assert (new_doc !! k = Some v) as Hv.
      { unfold new_doc. rewrite lookup_union_r; [done|].
        rewrite lookup_fmap, Hfresh; [done | eauto]. }
      by rewrite Hempty, lookup_empty in Hv. }
    unfold dict_truthy. rewrite bool_decide_eq_false_2 by done. simpl.
    unfold updated_item. rewrite Hset. simpl.
    assert ((Atom <$> d) ∪ new_doc = new_doc) as ->.
    { unfold new_doc. by rewrite (assoc_L (∪)), (idemp_L (∪)). }
    simpl in Hitem. by rewrite (list_insert_id _ _ _ Hitem).
Qed.

Lemma upsert_then_retry_witness :
  update_one Examples.query_u1 Examples.set_name true Examples.users
  = (Raise unbound_MockUpdateResult,
     mk_collection (name Examples.users)
       (data Examples.users
          ++ [(Atom <$> <["full_name" := SStr "User One"]> ∅) ∪ Examples.query_u1]))
  ∧ find_one Examples.query_u1
      (mk_collection (name Examples.users)
         (data Examples.users
            ++ [(Atom <$> <["full_name" := SStr "User One"]> ∅) ∪ Examples.query_u1]))
    = Some ((Atom <$> <["full_name" := SStr "User One"]> ∅) ∪ Examples.query_u1)
  ∧ update_one Examples.query_u1 Examples.set_name true
      (mk_collection (name Examples.users)
         (data Examples.users
            ++ [(Atom <$> <["full_name" := SStr "User One"]> ∅) ∪ Examples.query_u1]))
    = (Ok (mk_update_result 1 1 None),
       mk_collection (name Examples.users)
         (data Examples.users
            ++ [(Atom <$> <["full_name" := SStr "User One"]> ∅) ∪ Examples.query_u1])).
Proof.
  apply (upsert_then_retry Examples.query_u1 Examples.set_name Examples.users
           (<["full_name" := SStr "User One"]> ∅)).
  - reflexivity.
  - intros H. apply (f_equal (fun m => m !! "user_id")) in H. vm_compute in H. discriminate.
  - reflexivity.
  - intros k [v Hk]. unfold Examples.query_u1 in Hk.
    apply lookup_insert_Some in Hk as [[<- _]|[_ Hk]]; [reflexivity|].
    by rewrite lookup_empty in Hk.
Defined.

(** X10.  [update_one] never removes a document and never renames the
    collection: the collection has as many documents after the call as
    before, or one more, and it can only have one more when [upsert] is
    set. *)
Theorem update_one_size (query update : document) (upsert : bool) (c : MockCollection) :
  name (update_one query update upsert c).2 = name c
  ∧ (List.length (data (update_one query update upsert c).2) = List.length (data c)
     ∨ (upsert = true
        ∧ ∃ new_doc,
            data (update_one query update upsert c).2 = data c ++ [new_doc]))
  ∧ (upsert = false →
     List.length (data (update_one query update upsert c).2) = List.length (data c)).
Proof.
  assert (name (not_matched query update upsert c).2 = name c
          ∧ (List.length (data (not_matched query update upsert c).2)
             = List.length (data c)
             ∨ (upsert = true
                ∧ ∃ new_doc,
                    data (not_matched query update upsert c).2 = data c ++ [new_doc]))
          ∧ (upsert = false →
             List.length (data (not_matched query update upsert c).2)
             = List.length (data c))) as Hnot.
  { unfold not_matched, insert_one. destruct upsert; [|by repeat split; auto].
    destruct (upsert_doc query update) as [new_doc|e]; simpl.
    - split; [done|]. split; [|done]. right. split; [done|]. by exists new_doc.
    - split; [done|]. split; [by left | done]. }
  unfold update_one.
  destruct (find_one_index query c) as [i|]; [|exact Hnot].
  destruct (data c !! i) as [item|]; [|exact Hnot].
  destruct (dict_truthy item); [|exact Hnot].
  destruct (updated_item update item) as [item'|e]; simpl.
  - rewrite length_insert. split; [done|]. split; [by left | done].
  - split; [done|]. split; [by left | done].
Qed.

End CollectionExtras.

(** ** The in-memory database *)

Module DatabaseFacts.
Import Mongo Database.

Lemma lookup_app_one name l n c :
  lookup name (l ++ [(n, c)])
  = match lookup name l with
    | Some x => Some x
    | None => if String.eqb n name then Some c else None
    end.
Proof.
  induction l as [|[n0 c0] l IH]; simpl; [done|].
  by destruct (String.eqb n0 name).
Qed.

Lemma lookup_store_same name c l :
  is_Some (lookup name l) → lookup name (store name c l) = Some c.
Proof.
  induction l as [|[n0 c0] l IH]; simpl; [by intros [? ?]|].
  destruct (String.eqb n0 name) eqn:Hn; simpl; rewrite Hn; [done|]. exact IH.
Qed.

Lemma lookup_store_other name other c l :
  other ≠ name → lookup other (store name c l) = lookup other l.
Proof.
  intros Hne. induction l as [|[n0 c0] l IH]; simpl; [done|].
  destruct (String.eqb n0 name) eqn:Hn; simpl.
  - apply String.eqb_eq in Hn as ->.
    by rewrite (proj2 (String.eqb_neq name other)).
  - by rewrite IH.
Qed.

Lemma store_names name c l : fst <$> store name c l = fst <$> l.
Proof.
  induction l as [|[n0 c0] l IH]; csimpl; [done|].
  destruct (String.eqb n0 name); csimpl; [done|]. by rewrite IH.
Qed.

(** After [db[name]] the name is a key, bound to the collection returned. *)
Lemma lookup_getitem name db :
  lookup name (collections (getitem name db).2) = Some (getitem name db).1.
Proof.
  unfold getitem. destruct (lookup name (collections db)) as [c|] eqn:Hl; simpl.
  - done.
  - by rewrite lookup_app_one, Hl, String.eqb_refl.
Qed.

Lemma lookup_getitem_other name other db :
  other ≠ name →
  lookup other (collections (getitem name db).2) = lookup other (collections db).
Proof.
  intros Hne. unfold getitem.
  destruct (lookup name (collections db)) as [c|] eqn:Hl; simpl; [done|].
  rewrite lookup_app_one. destruct (lookup other (collections db)); [done|].
  by rewrite (proj2 (String.eqb_neq name other)).
Qed.

End DatabaseFacts.

Module DatabaseExtras.
Import Mongo Database DatabaseFacts.

(** X11.  [db[name]] never fails.  For a name that is not yet a collection it
    returns a new, empty collection of that name and enters it after the
    existing ones; for a name that is one it returns that collection and
    leaves the database as it is.  Either way a second [db[name]] returns
    the same collection without a further change, and the collections under
    other names are untouched. *)
Theorem getitem_creates (name : string) (db : MockDatabase) :
  (lookup name (collections db) = None →
   (getitem name db).1 = mk_collection name []
   ∧ list_collection_names (getitem name db).2 = list_collection_names db ++ [name])
  ∧ (∀ c, lookup name (collections db) = Some c →
          getitem name db = (c, db))
  ∧ getitem name (getitem name db).2 = getitem name db
  ∧ (∀ other, other ≠ name →
       lookup other (collections (getitem name db).2) = lookup other (collections db)).
Proof.
  split; [|split; [|split]].
  - intros Hl. unfold getitem, list_collection_names. rewrite Hl. simpl.
    by rewrite fmap_app.
  - intros c Hl. unfold getitem. by rewrite Hl.
  - pose proof (lookup_getitem name db) as Hl.
    unfold getitem at 1. rewrite Hl. by destruct (getitem name db).
  - intros other Hne. by apply lookup_getitem_other.
Qed.

(** X12.  What a method does to [db[name]] is what the database then holds
    under that name, and it touches no other collection.  In particular, a
    document inserted into a collection that did not exist before is found
    there by a query it matches. *)
Theorem on_collection_effect {A : Type} (name : string)
    (op : MockCollection → A * MockCollection) (db : MockDatabase) :
  (on_collection name op db).1 = (op (getitem name db).1).1
  ∧ lookup name (collections (on_collection name op db).2)
    = Some (op (getitem name db).1).2
  ∧ (∀ other, other ≠ name →
       lookup other (collections (on_collection name op db).2)
       = lookup other (collections db))
  ∧ (∀ query doc,
       lookup name (collections db) = None →
       matches query doc = true →
       (on_collection name (fun c => (find_one query c, c))
          (on_collection name (insert_one doc) db).2).1 = Some doc).
Proof.
  assert (∀ B (f : MockCollection → B * MockCollection) d,
            (on_collection name f d).1 = (f (getitem name d).1).1
            ∧ lookup name (collections (on_collection name f d).2)
              = Some (f (getitem name d).1).2) as Hon.
  { intros B f d. unfold on_collection.
    pose proof (lookup_getitem name d) as Hl.
    destruct (getitem name d) as [c d1]. simpl in *.
    destruct (f c) as [a c']. simpl. split; [done|].
    apply lookup_store_same. eauto. }
  split; [apply Hon|]. split; [apply Hon|]. split.
  - intros other Hne. unfold on_collection.
    pose proof (lookup_getitem_other name other db Hne) as Hl.
    destruct (getitem name db) as [c d1]. simpl in *.
    destruct (op c) as [a c']. simpl.
    by rewrite lookup_store_other.
  - intros query doc Hnew Hm.
    destruct (Hon _ (insert_one doc) db) as [_ Hstored].
    destruct (Hon _ (fun c => (find_one query c, c))
                (on_collection name (insert_one doc) db).2) as [-> _].
    assert ((getitem name (on_collection name (insert_one doc) db).2).1
            = (insert_one doc (getitem name db).1).2) as ->.
    { unfold getitem at 1. by rewrite Hstored. }
    simpl. unfold getitem. rewrite Hnew. simpl.
    rewrite CollectionFacts.find_one_scan. simpl. by rewrite Hm.
Qed.

End DatabaseExtras.

(** ** More on the lookup, the orchestrator and the renderer *)

Module GeneratorMoreFacts.
Import Frame Generator FrameFacts GeneratorFacts Views.

Lemma no_column_no_row df user_id :
  index_of "user_id" (columns df) = None → has_row_of df user_id = false.
Proof.
  intros Hi. unfold has_row_of, row_of_user. rewrite Hi.
  by induction (rows df).
Qed.

Lemma records_of_empty df user_id :
  empty df = true → records_of df user_id = [].
Proof.
  unfold empty, records_of. destruct (columns df) as [|c cs] eqn:Hc.
  - intros _. rewrite filter_no_match; [done|].
    apply (no_column_no_row df user_id). by rewrite Hc.
  - destruct (rows df); [done | discriminate].
Qed.

(** The lookup step of a table that can be searched, in one formula. *)
Lemma first_record_closed df user_id set res :
  queryable df = true →
  first_record df user_id set res
  = Ok (match records_of df user_id with
        | d :: _ => set d res
        | [] => res
        end).
Proof.
  intros Hq. unfold first_record.
  destruct (empty df) eqn:He; simpl.
  { by rewrite (records_of_empty _ _ He). }
  destruct (queryable_true _ Hq) as [Hemp|Hi]; [congruence|].
  rewrite of_user_filter by done. simpl. unfold records_of.
  destruct Hi as [i Hi]. destruct (index_of_some_cons _ _ _ Hi) as (c & cs & Hc).
  unfold empty, iloc0_to_dict. simpl. rewrite Hc.
  by destruct (List.filter _ _).
Qed.

Lemma all_records_closed df user_id set res :
  queryable df = true →
  all_records df user_id set res
  = Ok (match records_of df user_id with
        | [] => res
        | _ :: _ => set (records_of df user_id) res
        end).
Proof.
  intros Hq. unfold all_records.
  destruct (empty df) eqn:He; simpl.
  { by rewrite (records_of_empty _ _ He). }
  destruct (queryable_true _ Hq) as [Hemp|Hi]; [congruence|].
  rewrite of_user_filter by done. simpl. unfold records_of, to_dict_records.
  destruct Hi as [i Hi]. destruct (index_of_some_cons _ _ _ Hi) as (c & cs & Hc).
  unfold empty. simpl. rewrite Hc.
  by destruct (List.filter _ _).
Qed.

Lemma step_not_queryable df user_id set set' res :
  queryable df = false →
  first_record df user_id set res = Raise no_user_id
  ∧ all_records df user_id set' res = Raise no_user_id.
Proof.
  intros Hq. destruct (queryable_false _ Hq) as [_ Hi].
  pose proof (no_column_no_row df user_id Hi) as Hno.
  by rewrite (first_record_no_row _ _ _ _ Hno), (all_records_no_row _ _ _ _ Hno), Hq.
Qed.

(** The whole lookup in one formula. *)
Lemma lookup_all_closed g user_id :
  lookup_all g user_id
  = if all_queryable g
    then Ok (mk_user_data
               (record_in (demographic_df g) user_id)
               (record_in (account_df g) user_id)
               (record_in (credit_df g) user_id)
               (record_in (investment_df g) user_id)
               (records_of (transaction_df g) user_id)
               (records_of (sentiment_df g) user_id))
    else Raise no_user_id.
Proof.
  unfold lookup_all, all_queryable, record_in.
  destruct (queryable (demographic_df g)) eqn:Q1; simpl.
  2: { by rewrite (proj1 (step_not_queryable _ _ _ set_transactions _ Q1)). }
  rewrite (first_record_closed _ _ _ _ Q1). simpl.
  destruct (queryable (account_df g)) eqn:Q2; simpl.
  2: { by rewrite (proj1 (step_not_queryable _ _ _ set_transactions _ Q2)). }
  rewrite (first_record_closed _ _ _ _ Q2). simpl.
  destruct (queryable (credit_df g)) eqn:Q3; simpl.
  2: { by rewrite (proj1 (step_not_queryable _ _ _ set_transactions _ Q3)). }
  rewrite (first_record_closed _ _ _ _ Q3). simpl.
  destruct (queryable (investment_df g)) eqn:Q4; simpl.
  2: { by rewrite (proj1 (step_not_queryable _ _ _ set_transactions _ Q4)). }
  rewrite (first_record_closed _ _ _ _ Q4). simpl.
  destruct (queryable (transaction_df g)) eqn:Q5; simpl.
  2: { by rewrite (proj2 (step_not_queryable _ _ set_demographics _ _ Q5)). }
  rewrite (all_records_closed _ _ _ _ Q5). simpl.
  destruct (queryable (sentiment_df g)) eqn:Q6; simpl.
  2: { by rewrite (proj2 (step_not_queryable _ _ set_demographics _ _ Q6)). }
  rewrite (all_records_closed _ _ _ _ Q6). simpl.
  f_equal.
  destruct (records_of (demographic_df g) user_id),
    (records_of (account_df g) user_id),
    (records_of (credit_df g) user_id),
    (records_of (investment_df g) user_id),
    (records_of (transaction_df g) user_id),
    (records_of (sentiment_df g) user_id); reflexivity.
Qed.

End GeneratorMoreFacts.

Module GeneratorExtras.
Import Frame Generator FrameFacts GeneratorFacts GeneratorMoreFacts Views.

(** X13.  When the six tables can be searched, [_get_user_data] returns,
    under [transactions] and under [sentiment], every row of the user in the
    table, as a dictionary, in source order, and nothing else; a record type
    whose table has no row of the user is the empty dictionary. *)
Theorem get_user_data_records (w : world) (user_id : string) :
  all_queryable (self w) = true →
  ∃ ud,
    (_get_user_data user_id w).1 = Ok ud
    ∧ transactions ud
      = to_dict (columns (transaction_df (self w)))
          <$> List.filter (row_of_user (transaction_df (self w)) user_id)
                (rows (transaction_df (self w)))
    ∧ sentiment ud
      = to_dict (columns (sentiment_df (self w)))
          <$> List.filter (row_of_user (sentiment_df (self w)) user_id)
                (rows (sentiment_df (self w)))
    ∧ ∀ k, has_row_of (table_of k (self w)) user_id = false → record_of k ud = ∅.
Proof.
  intros Hq. rewrite get_user_data_run, lookup_all_closed, Hq. simpl.
  eexists. split; [done|]. split; [done|]. split; [done|].
  intros k Hno.
  assert (record_in (table_of k (self w)) user_id = ∅) as Hrec.
  { unfold record_in, records_of. by rewrite (filter_no_match _ _ Hno). }
  by destruct k.
Qed.

Lemma get_user_data_records_witness :
  ∃ ud,
    (_get_user_data "u1" Examples.busy_world).1 = Ok ud
    ∧ transactions ud
      = to_dict (columns Examples.transaction_table)
          <$> List.filter (row_of_user Examples.transaction_table "u1")
                (rows Examples.transaction_table)
    ∧ sentiment ud
      = to_dict (columns no_data)
          <$> List.filter (row_of_user no_data "u1") (rows no_data)
    ∧ ∀ k, has_row_of (table_of k (self Examples.busy_world)) "u1" = false →
           record_of k ud = ∅.
Proof. apply (get_user_data_records Examples.busy_world "u1"). reflexivity. Defined.

(** X14.  The lookup fails exactly when some table that has rows has no
    [user_id] column: it then raises [KeyError('user_id')] for every user,
    whatever the other tables hold, and [generate_meta_prompt] answers with
    the orchestrator's fallback sentence; otherwise the lookup returns. *)
Theorem get_user_data_key_error (w : world) (user_id : string) :
  (all_queryable (self w) = false →
   (_get_user_data user_id w).1 = Raise (mk_exn KeyError "'user_id'")
   ∧ (generate_meta_prompt user_id w).1 = Ok error_fallback)
  ∧ (all_queryable (self w) = true →
     ∃ ud, (_get_user_data user_id w).1 = Ok ud)
  ∧ (all_queryable (self w) = false
     ↔ ∃ df, In df [ demographic_df (self w); account_df (self w); credit_df (self w);
                     investment_df (self w); transaction_df (self w);
                     sentiment_df (self w) ]
             ∧ empty df = false
             ∧ index_of "user_id" (columns df) = None).
Proof.
  split; [|split].
  - intros Hq. rewrite generate_meta_prompt_run, get_user_data_run, lookup_all_closed, Hq.
    by split.
  - intros Hq. rewrite get_user_data_run, lookup_all_closed, Hq. simpl. eauto.
  - unfold all_queryable. split.
    + intros H.
      repeat (apply andb_false_iff in H as [H|H]);
        apply queryable_false in H as [He Hi]; eexists; (split; [|by split]);
        simpl; auto 10.
    + intros (df & Hin & He & Hi).
      assert (queryable df = false) as Hq.
      { unfold queryable. by rewrite He, Hi. }
      simpl in Hin.
      destruct Hin as [<-|[<-|[<-|[<-|[<-|[<-|[]]]]]]]; rewrite Hq;
        repeat (rewrite ?andb_false_r, ?andb_false_l); reflexivity.
Qed.

(** X15.  The text for a user depends on the rows of that user only: two
    generators with the same processor, whose six tables can be searched and
    hold the same rows of the user, give the same text, whatever rows of
    other users and whatever log they have. *)
Theorem prompt_of_own_rows (w w' : world) (user_id : string) :
  data_processor (self w) = data_processor (self w') →
  all_queryable (self w) = true →
  all_queryable (self w') = true →
  records_of (demographic_df (self w)) user_id
  = records_of (demographic_df (self w')) user_id →
  records_of (account_df (self w)) user_id = records_of (account_df (self w')) user_id →
  records_of (credit_df (self w)) user_id = records_of (credit_df (self w')) user_id →
  records_of (investment_df (self w)) user_id
  = records_of (investment_df (self w')) user_id →
  records_of (transaction_df (self w)) user_id
  = records_of (transaction_df (self w')) user_id →
  records_of (sentiment_df (self w)) user_id
  = records_of (sentiment_df (self w')) user_id →
  (generate_meta_prompt user_id w).1 = (generate_meta_prompt user_id w').1.
Proof.
  intros Hp Hq Hq' H1 H2 H3 H4 H5 H6.
  rewrite !generate_meta_prompt_run, !lookup_all_closed, Hq, Hq'.
  unfold record_in. rewrite H1, H2, H3, H4, H5, H6. simpl.
  unfold insights_and_render. rewrite Hp. simpl.
  by destruct (_ ≫= _).
Qed.

Lemma prompt_of_own_rows_witness :
  (generate_meta_prompt "u1" Examples.busy_world).1
  = (generate_meta_prompt "u1" Examples.busy_world_u1).1.
Proof.
  apply prompt_of_own_rows; reflexivity.
Defined.

End GeneratorExtras.

Module RendererExtras.
Import Generator GeneratorFacts.
Import Renderer Layout TextFacts RendererFacts Views.

Lemma join_sections_not_blank x :
  join_sections (expected_section x <$> present_sections x) ≠ EmptyString.
Proof.
  destruct (present_sections x) as [|k ks]; [discriminate|].
  unfold join_sections. rewrite !fmap_cons.
  apply String.eqb_neq, concat_sections_not_blank, expected_section_text.
Qed.

Lemma render_not_blank x out : render x = Ok out → out ≠ EmptyString.
Proof.
  rewrite render_layout. destruct (render_error x); [discriminate|].
  intros [= <-]. apply join_sections_not_blank.
Qed.

(** X16.  [generate_meta_prompt] returns a text for every user and every
    state of the generator, whatever the tables hold and whatever the
    extractors do, and the text is never empty; neither is a text the
    renderer returns. *)
Theorem generate_meta_prompt_text (w : world) (user_id : string) :
  (∃ text, (generate_meta_prompt user_id w).1 = Ok text ∧ text ≠ EmptyString)
  ∧ (∀ x out, render x = Ok out → out ≠ EmptyString).
Proof.
  split; [|apply render_not_blank].
  rewrite generate_meta_prompt_run.
  destruct (lookup_all (self w) user_id) as [ud|e]; simpl.
  2: { exists error_fallback. by split. }
  unfold insights_and_render.
  destruct (extract_transaction_insights _ _) as [ti|e]; simpl.
  2: { exists error_fallback. by split. }
  destruct (extract_sentiment_insights _ _) as [si|e]; simpl.
  2: { exists error_fallback. by split. }
  destruct (_format_meta_prompt _ _ _ _ ti si) as [out|e] eqn:Hout; simpl.
  2: { exists error_fallback. by split. }
  exists out. split; [done|].
  by apply (render_not_blank
              (mk_inputs (Generator.demographics ud) (Generator.account ud)
                 (Generator.credit ud) (Generator.investments ud) ti si)).
Qed.

Lemma join_fails_spec d key : join_fails d key = true ↔ not_joinable d key.
Proof.
  unfold join_fails, not_joinable. destruct (d !! key) as [v|].
  - destruct v; simpl; split; try discriminate; eauto;
      try (intros (v & [= <-] & Hl & Hs); by (destruct (Hl l) || destruct (Hs s))).
  - split; [discriminate | by intros (v & ? & _)].
Qed.

Lemma field_too_long_spec d key :
  field_too_long d key = true ↔ ∃ z, d !! key = Some (VInt z) ∧ 4300 < digits z.
Proof.
  unfold field_too_long. destruct (d !! key) as [v|].
  - destruct v as [|b|z|r|s|l]; cbn [exceeds_limit]; unfold int_max_str_digits;
      (split; [try discriminate | try by intros (z' & [= ] & _)]).
    + intros H%Z.ltb_lt. eauto.
    + intros (z' & [= <-] & H). by apply Z.ltb_lt.
  - split; [discriminate | by intros (z & ? & _)].
Qed.

(** A piece raises for one of two reasons. *)
Lemma piece_error_some d p e :
  piece_error d p = Some e →
  (∃ key placeholder,
     p = Field key placeholder ∧ field_too_long d key = true ∧ e = int_limit_error)
  ∨ (∃ key placeholder,
       p = Joined key placeholder ∧ join_fails d key = true ∧ e = join_error).
Proof.
  destruct p as [text|key placeholder|key placeholder]; cbn [piece_error]; [done|..].
  - destruct (field_too_long d key) eqn:Hlong; [|done]. intros [= <-]. left.
    by exists key, placeholder.
  - destruct (join_fails d key) eqn:Hj; [|done]. intros [= <-]. right.
    by exists key, placeholder.
Qed.

Lemma first_error_some d line e :
  first_error d line = Some e → ∃ p, In p line ∧ piece_error d p = Some e.
Proof.
  induction line as [|p rest IH]; [done|]. cbn [first_error].
  destruct (piece_error d p) as [e'|] eqn:Hp.
  - intros [= <-]. exists p. split; [by left | done].
  - intros (p' & Hin & Hp')%IH. exists p'. split; [by right | done].
Qed.

Lemma first_error_none d line :
  first_error d line = None → ∀ p, In p line → piece_error d p = None.
Proof.
  induction line as [|p rest IH]; [by intros _ p []|]. cbn [first_error].
  destruct (piece_error d p) as [e'|] eqn:Hp; [done|].
  intros Hrest p' [<-|Hin]; [done | by apply IH].
Qed.

Lemma lines_error_some ls e :
  lines_error ls = Some e →
  ∃ d line p, In (d, line) ls ∧ In p line ∧ piece_error d p = Some e.
Proof.
  induction ls as [|[d line] rest IH]; [done|]. cbn [lines_error].
  destruct (first_error d line) as [e'|] eqn:Hl.
  - intros [= <-]. apply first_error_some in Hl as (p & Hin & Hp).
    exists d, line, p. split; [by left | done].
  - intros (d' & line' & p & Hin & Hp)%IH. exists d', line', p. split; [by right | done].
Qed.

Lemma lines_error_none ls :
  lines_error ls = None →
  ∀ d line p, In (d, line) ls → In p line → piece_error d p = None.
Proof.
  induction ls as [|[d line] rest IH]; [by intros _ d line p []|]. cbn [lines_error].
  destruct (first_error d line) as [e'|] eqn:Hl; [done|].
  intros Hrest d' line' p [[= <- <-]|Hin] Hp.
  - by apply (first_error_none _ _ Hl).
  - by apply (IH Hrest d' line').
Qed.

Lemma sections_error_some x ks e :
  sections_error x ks = Some e →
  ∃ k d line p,
    In k ks ∧ In (d, line) (section_lines x k) ∧ In p line ∧ piece_error d p = Some e.
Proof.
  induction ks as [|k rest IH]; [done|]. cbn [sections_error].
  destruct (lines_error (section_lines x k)) as [e'|] eqn:Hl.
  - intros [= <-]. apply lines_error_some in Hl as (d & line & p & Hin & Hp).
    exists k, d, line, p. split; [by left | done].
  - intros (k' & d & line & p & Hin & Hrest)%IH.
    exists k', d, line, p. split; [by right | done].
Qed.

Lemma sections_error_none x ks :
  sections_error x ks = None →
  ∀ k d line p,
    In k ks → In (d, line) (section_lines x k) → In p line → piece_error d p = None.
Proof.
  induction ks as [|k rest IH]; [by intros _ k d line p []|]. cbn [sections_error].
  destruct (lines_error (section_lines x k)) as [e'|] eqn:Hl; [done|].
  intros Hrest k' d line p [<-|Hin] Hline Hp.
  - by apply (lines_error_none _ Hl d line).
  - by apply (IH Hrest k' d line).
Qed.

(** The two sequences are the only pieces that are joined. *)
Lemma joined_pieces x k d line key placeholder :
  In (d, line) (section_lines x k) →
  In (Joined key placeholder) line →
  (k = Spending ∧ d = transaction_insights x ∧ key = "top_categories")
  ∨ (k = Social ∧ d = sentiment_insights x ∧ key = "financial_interests").
Proof.
  unfold section_lines, spending_fields.
  destruct k;
    try destruct (dict_truthy (account x));
    try destruct (dict_truthy (credit x));
    try destruct (has_recurring (transaction_insights x));
    cbn [fmap list_fmap app In]; intros Hin Hp;
    repeat (destruct Hin as [Hin|Hin]; [simplify_eq; cbn [In] in Hp|]);
    try done;
    repeat (destruct Hp as [Hp|Hp]; [simplify_eq|]); try done; auto.
Qed.

Lemma present_sections_spec x k : In k (present_sections x) ↔ has_source x k = true.
Proof.
  unfold present_sections. rewrite filter_In. split; [by intros [_ ?]|].
  intros Hk. split; [|done]. unfold section_order. destruct k; simpl; auto 10.
Qed.

Lemma unjoinable_piece x :
  unjoinable x = true →
  ∃ k d line p,
    In k (present_sections x) ∧ In (d, line) (section_lines x k) ∧ In p line
    ∧ piece_error d p = Some join_error.
Proof.
  unfold unjoinable. intros [[Ht Hj]%andb_true_iff|[Hs Hj]%andb_true_iff]%orb_true_iff.
  - exists Spending, (transaction_insights x),
      [Lit "Top Spending Categories: "; Joined "top_categories" "Unknown"],
      (Joined "top_categories" "Unknown").
    split; [by apply present_sections_spec|]. split.
    { unfold section_lines, spending_fields. rewrite fmap_app. apply in_app_iff.
      left. cbn [fmap list_fmap In]. auto. }
    split; [cbn [In]; auto|]. cbn [piece_error]. by rewrite Hj.
  - exists Social, (sentiment_insights x),
      [Lit "Financial Interests: "; Joined "financial_interests" "Unknown"],
      (Joined "financial_interests" "Unknown").
    split; [by apply present_sections_spec|]. split.
    { unfold section_lines. cbn [fmap list_fmap social_fields In]. auto. }
    split; [cbn [In]; auto|]. cbn [piece_error]. by rewrite Hj.
Qed.

Lemma oversized_spec x :
  oversized x = true
  ↔ ∃ k d line key placeholder,
      In k (present_sections x) ∧ In (d, line) (section_lines x k)
      ∧ In (Field key placeholder) line ∧ field_too_long d key = true.
Proof.
  unfold oversized. rewrite existsb_exists. split.
  - intros (k & Hk & ([d line] & Hin & (p & Hp & Hlong)%existsb_exists)%existsb_exists).
    destruct p as [text|key placeholder|key placeholder]; try discriminate.
    by exists k, d, line, key, placeholder.
  - intros (k & d & line & key & placeholder & Hk & Hin & Hp & Hlong).
    exists k. split; [done|]. apply existsb_exists. exists (d, line). split; [done|].
    apply existsb_exists. by exists (Field key placeholder).
Qed.

(** X17.  The renderer raises for two reasons only.  One is the [TypeError]
    of [join]: an insight dictionary that is not empty holds, under
    [top_categories] (for the transaction insights) or under
    [financial_interests] (for the sentiment insights), a value that is
    neither a list nor a string (a list holds strings).  The other is the
    [ValueError] of the conversion of an int to text: a field of a section
    that is rendered holds an int of more than 4300 digits, that is, one
    whose absolute value is at least the 4300th power of ten.  In every
    other case the renderer returns a text.  Records alone make it fail only
    by such an int. *)
Theorem render_failure (x : inputs) :
  (∀ e, render x = Raise e →
        (e = join_error ∧ exn_kind e = TypeError ∧ unjoinable x = true)
        ∨ (e = int_limit_error ∧ exn_kind e = ValueError ∧ oversized x = true))
  ∧ ((∃ e, render x = Raise e) ↔ unjoinable x = true ∨ oversized x = true)
  ∧ (unjoinable x = true
     ↔ (transaction_insights x ≠ ∅ ∧ not_joinable (transaction_insights x) "top_categories")
       ∨ (sentiment_insights x ≠ ∅
          ∧ not_joinable (sentiment_insights x) "financial_interests"))
  ∧ (oversized x = true
     ↔ ∃ k d line key placeholder z,
         has_source x k = true
         ∧ In (d, line) (section_lines x k)
         ∧ In (Field key placeholder) line
         ∧ d !! key = Some (VInt z)
         ∧ 4300 < digits z)
  ∧ (∀ z, 4300 < digits z ↔ 10 ^ 4300 ≤ Z.abs z)
  ∧ (unjoinable x = false → oversized x = false → ∃ out, render x = Ok out).
Proof.
  assert (∀ d : dict, dict_truthy d = true ↔ d ≠ ∅) as Htruthy.
  { intros d. unfold dict_truthy. rewrite negb_true_iff. apply bool_decide_eq_false. }
  assert (∀ e, render x = Raise e →
               (e = join_error ∧ exn_kind e = TypeError ∧ unjoinable x = true)
               ∨ (e = int_limit_error ∧ exn_kind e = ValueError ∧ oversized x = true))
    as Hraised.
  { intros e. rewrite render_layout.
    destruct (render_error x) as [e'|] eqn:Herr; [|discriminate]. intros [= ->].
    apply sections_error_some in Herr as (k & d & line & p & Hk & Hin & Hp & Herr).
    apply piece_error_some in Herr
      as [(key & ph & -> & Hlong & ->)|(key & ph & -> & Hj & ->)].
    - right. split; [done|]. split; [done|]. apply oversized_spec.
      by exists k, d, line, key, ph.
    - left. split; [done|]. split; [done|].
      apply present_sections_spec in Hk. unfold unjoinable.
      destruct (joined_pieces _ _ _ _ _ _ Hin Hp) as [(-> & -> & ->)|(-> & -> & ->)];
        simpl in Hk; rewrite Hk, Hj; simpl; [done | by rewrite orb_true_r]. }
  assert (unjoinable x = true ∨ oversized x = true → ∃ e, render x = Raise e) as Hraises.
  { intros H.
    assert (∃ k d line p e,
              In k (present_sections x) ∧ In (d, line) (section_lines x k) ∧ In p line
              ∧ piece_error d p = Some e) as (k & d & line & p & e & Hk & Hin & Hp & Herr).
    { destruct H as [H|H].
      - destruct (unjoinable_piece x H) as (k & d & line & p & ?). by exists k, d, line, p, join_error.
      - apply oversized_spec in H as (k & d & line & key & ph & Hk & Hin & Hp & Hlong).
        exists k, d, line, (Field key ph), int_limit_error.
        repeat (split; [done|]). cbn [piece_error]. by rewrite Hlong. }
    rewrite render_layout. unfold render_error.
    destruct (sections_error x (present_sections x)) as [e'|] eqn:Hnone; [eauto|].
    by rewrite (sections_error_none _ _ Hnone k d line p Hk Hin Hp) in Herr. }
  split; [exact Hraised|]. split.
  { split; [|exact Hraises]. intros [e He]. destruct (Hraised e He) as [(_ & _ & ?)|(_ & _ & ?)]; auto. }
  split.
  { unfold unjoinable. rewrite orb_true_iff, !andb_true_iff, !Htruthy, !join_fails_spec.
    done. }
  split.
  { rewrite oversized_spec. split.
    - intros (k & d & line & key & ph & Hk & Hin & Hp & (z & Hz & Hlong)%field_too_long_spec).
      exists k, d, line, key, ph, z. by rewrite <- present_sections_spec.
    - intros (k & d & line & key & ph & z & Hk & Hin & Hp & Hz & Hlong).
      exists k, d, line, key, ph. rewrite present_sections_spec.
      repeat (split; [done|]). apply field_too_long_spec. eauto. }
  split; [intros z; by apply digits_spec|].
  intros Hj Ho. destruct (render x) as [out|e]; [eauto|].
  destruct (Hraised e eq_refl) as [(_ & _ & ?)|(_ & _ & ?)]; congruence.
Qed.

(** The renderer does not get past an age of 4301 digits. *)
Example render_long_age : render Examples.long_age = Raise int_limit_error.
Proof.
  assert (field_too_long (demographics Examples.long_age) "age" = true) as Hlong.
  { apply field_too_long_spec. exists (10 ^ 4300). split; [reflexivity|].
    apply digits_spec; [done|]. rewrite Z.abs_eq; [done|]. by apply Z.pow_nonneg. }
  rewrite render_layout. unfold render_error.
  assert (present_sections Examples.long_age = [Demographic]) as -> by reflexivity.
  cbn [sections_error]. unfold section_lines, demographic_fields.
  cbn [fmap list_fmap lines_error first_error piece_error]. by rewrite Hlong.
Qed.

Ltac rewrite_lookups :=
  repeat match goal with
         | H : ?a !! ?k = _ |- context [?a !! ?k] => rewrite H
         end.

Lemma expected_section_agree x y :
  agree_on demographic_keys (demographics x) (demographics y) →
  agree_on account_keys (account x) (account y) →
  agree_on credit_keys (credit x) (credit y) →
  agree_on investment_keys (investments x) (investments y) →
  agree_on spending_keys (transaction_insights x) (transaction_insights y) →
  agree_on social_keys (sentiment_insights x) (sentiment_insights y) →
  ∀ k, expected_section x k = expected_section y k.
Proof.
  intros [_ H1] [T2 H2] [T3 H3] [_ H4] [_ H5] [_ H6] k.
  unfold demographic_keys, account_keys, credit_keys, investment_keys,
    spending_keys, social_keys in *.
  repeat match goal with
         | H : Forall _ (_ :: _) |- _ => apply Forall_cons in H as [? H]
         | H : Forall _ [] |- _ => clear H
         end.
  unfold expected_section, spending_fields, has_recurring.
  destruct k.
  5: { cbn [fill piece_text fmap list_fmap social_fields]. unfold shown, joined.
       rewrite_lookups. reflexivity. }
  4: { rewrite_lookups.
       destruct (transaction_insights y !! "recurring_payments") as [v|] eqn:E;
         [destruct (truthy v)|];
         cbn [fill piece_text fmap list_fmap app]; unfold shown, joined;
         rewrite_lookups; rewrite ?E; reflexivity. }
  3: { cbn [fill piece_text fmap list_fmap investment_fields]. unfold shown, joined.
       rewrite_lookups. reflexivity. }
  2: { rewrite T2, T3.
       destruct (dict_truthy (account y)), (dict_truthy (credit y));
         cbn [fill piece_text fmap list_fmap account_fields credit_fields app];
         unfold shown, joined; rewrite_lookups; reflexivity. }
  cbn [fill piece_text fmap list_fmap demographic_fields]. unfold shown, joined.
  rewrite_lookups. reflexivity.
Qed.

Lemma lines_error_agree x y :
  agree_on demographic_keys (demographics x) (demographics y) →
  agree_on account_keys (account x) (account y) →
  agree_on credit_keys (credit x) (credit y) →
  agree_on investment_keys (investments x) (investments y) →
  agree_on spending_keys (transaction_insights x) (transaction_insights y) →
  agree_on social_keys (sentiment_insights x) (sentiment_insights y) →
  ∀ k, lines_error (section_lines x k) = lines_error (section_lines y k).
Proof.
  intros [_ H1] [T2 H2] [T3 H3] [_ H4] [_ H5] [_ H6] k.
  unfold demographic_keys, account_keys, credit_keys, investment_keys,
    spending_keys, social_keys in *.
  repeat match goal with
         | H : Forall _ (_ :: _) |- _ => apply Forall_cons in H as [? H]
         | H : Forall _ [] |- _ => clear H
         end.
  unfold section_lines, spending_fields, has_recurring.
  destruct k.
  5: { cbn [fmap list_fmap lines_error first_error piece_error social_fields].
       unfold field_too_long, join_fails. rewrite_lookups. reflexivity. }
  4: { rewrite_lookups.
       destruct (transaction_insights y !! "recurring_payments") as [v|] eqn:E;
         [destruct (truthy v)|];
         cbn [fmap list_fmap app lines_error first_error piece_error];
         unfold field_too_long, join_fails; rewrite_lookups; rewrite ?E; reflexivity. }
  3: { cbn [fmap list_fmap lines_error first_error piece_error investment_fields].
       unfold field_too_long, join_fails. rewrite_lookups. reflexivity. }
  2: { rewrite T2, T3.
       destruct (dict_truthy (account y)), (dict_truthy (credit y));
         cbn [fmap list_fmap app lines_error first_error piece_error
                account_fields credit_fields];
         unfold field_too_long, join_fails; rewrite_lookups; reflexivity. }
  cbn [fmap list_fmap lines_error first_error piece_error demographic_fields].
  unfold field_too_long, join_fails. rewrite_lookups. reflexivity.
Qed.

(** X18.  The text depends on its six arguments only through the keys the
    renderer reads and through whether each dictionary is empty: arguments
    that agree on these give the same result, so the value of any other key
    (such as [user_id]) never reaches the text. *)
Theorem render_reads_listed_keys (x y : inputs) :
  agree_on demographic_keys (demographics x) (demographics y) →
  agree_on account_keys (account x) (account y) →
  agree_on credit_keys (credit x) (credit y) →
  agree_on investment_keys (investments x) (investments y) →
  agree_on spending_keys (transaction_insights x) (transaction_insights y) →
  agree_on social_keys (sentiment_insights x) (sentiment_insights y) →
  render x = render y.
Proof.
  intros A1 A2 A3 A4 A5 A6.
  pose proof (expected_section_agree x y A1 A2 A3 A4 A5 A6) as Hsec.
  pose proof (lines_error_agree x y A1 A2 A3 A4 A5 A6) as Herr.
  rewrite !render_layout.
  assert (present_sections x = present_sections y) as Hpresent.
  { destruct A1 as [T1 _], A2 as [T2 _], A3 as [T3 _], A4 as [T4 _],
      A5 as [T5 _], A6 as [T6 _].
    unfold present_sections, section_order, has_source. simpl.
    by rewrite T1, T2, T3, T4, T5, T6. }
  assert (render_error x = render_error y) as ->.
  { unfold render_error. rewrite Hpresent.
    generalize (present_sections y). intros ks.
    induction ks as [|k ks IH]; [done|].
    cbn [sections_error]. by rewrite Herr, IH. }
  rewrite Hpresent.
  destruct (render_error y); [done|]. do 2 f_equal.
  apply list_fmap_ext. intros _ k _. apply Hsec.
Qed.

Lemma render_reads_listed_keys_witness :
  render (mk_inputs Examples.engineer ∅ ∅ ∅ ∅ ∅)
  = render (mk_inputs Examples.engineer_with_id ∅ ∅ ∅ ∅ ∅).
Proof.
  apply render_reads_listed_keys; split; try reflexivity;
    repeat constructor.
Defined.

End RendererExtras.

(** ** Loading the tables *)

Module LoaderFacts.
Import Frame Generator Loader.

Ltac read_next :=
  match goal with
  | |- context [read_csv ?fs ?file] =>
      destruct (read_csv fs file) as [[?|?]|]; simpl
  end.

(** The load in one formula: it raises only when the directory is missing
    and cannot be created; otherwise it returns with the six attributes
    assigned. *)
Lemma load_run fs :
  ∃ recs,
    _load_datasets fs (mk_loading unset [])
    = if no_directory fs
      then (match makedirs fs with Ok _ => Ok tt | Raise e => Raise e end,
            mk_loading unset [DirMissing])
      else (Ok tt,
            mk_loading (if read_fails fs then empty_tables else tables_of_files fs) recs).
Proof.
  unfold _load_datasets, no_directory, read_fails, tables_of_files, table_of_file,
    file_names, attempt, load_file, mbind, L_bind, mret, L_ret, note, assign,
    fail_with, existsb.
  destruct (dir_exists fs), (makedirs fs) as [[]|e]; simpl;
    try (by exists []);
    repeat read_next; eexists; reflexivity.
Qed.

Lemma read_fails_spec fs :
  read_fails fs = true
  ↔ ∃ file e, In file file_names ∧ read_csv fs file = Some (Raise e).
Proof.
  unfold read_fails. rewrite existsb_exists. split.
  - intros (file & Hin & Hr). destruct (read_csv fs file) as [[df|e]|] eqn:E; try done.
    by exists file, e.
  - intros (file & e & Hin & Hr). exists file. by rewrite Hr.
Qed.

Lemma generator_of_empty_tables p :
  generator_of p empty_tables
  = Some (mk_generator p no_data no_data no_data no_data no_data no_data).
Proof. reflexivity. Qed.

End LoaderFacts.

Module LoaderExtras.
Import Frame Generator Loader LoaderFacts.

(** X19.  When reading any one of the six files fails, the load still
    returns, and all six tables are empty afterwards, also those whose files
    were read without error. *)
Theorem load_all_or_nothing (fs : file_system) (file : string) (e : exn) :
  no_directory fs = false →
  In file file_names →
  read_csv fs file = Some (Raise e) →
  ∃ recs,
    _load_datasets fs (mk_loading unset [])
    = (Ok tt, mk_loading empty_tables recs).
Proof.
  intros Hdir Hin Hfile.
  assert (read_fails fs = true) as Hfails.
  { apply read_fails_spec. by exists file, e. }
  destruct (load_run fs) as [recs Hrun].
  rewrite Hdir, Hfails in Hrun. by exists recs.
Qed.

Lemma load_all_or_nothing_witness :
  ∃ recs,
    _load_datasets Directories.broken_sentiment (mk_loading unset [])
    = (Ok tt, mk_loading empty_tables recs).
Proof.
  apply (load_all_or_nothing Directories.broken_sentiment "social_media_sentiment.csv"
           (mk_exn OtherError "No columns to parse from file")).
  - reflexivity.
  - simpl. auto 10.
  - reflexivity.
Defined.

(** X20.  When no read fails, each table is what [pd.read_csv] made of its
    file, and an empty table when its file is missing; a missing file does
    not affect the other tables. *)
Theorem load_tables (fs : file_system) :
  no_directory fs = false →
  (∀ file, In file file_names → ∀ e, read_csv fs file ≠ Some (Raise e)) →
  (∃ recs,
     _load_datasets fs (mk_loading unset [])
     = (Ok tt, mk_loading (tables_of_files fs) recs))
  ∧ (∀ file df, read_csv fs file = Some (Ok df) → table_of_file fs file = df)
  ∧ (∀ file, read_csv fs file = None → table_of_file fs file = no_data).
Proof.
  intros Hdir Hgood.
  assert (read_fails fs = false) as Hfails.
  { destruct (read_fails fs) eqn:Hf; [|done].
    apply read_fails_spec in Hf as (file & e & Hin & Hr). by destruct (Hgood file Hin e). }
  split; [|split].
  - destruct (load_run fs) as [recs Hrun].
    rewrite Hdir, Hfails in Hrun. by exists recs.
  - intros file df Hr. unfold table_of_file. by rewrite Hr.
  - intros file Hr. unfold table_of_file. by rewrite Hr.
Qed.

Lemma load_tables_witness :
  (∃ recs,
     _load_datasets Directories.demographic_only (mk_loading unset [])
     = (Ok tt, mk_loading (tables_of_files Directories.demographic_only) recs))
  ∧ (∀ file df, read_csv Directories.demographic_only file = Some (Ok df) →
                table_of_file Directories.demographic_only file = df)
  ∧ (∀ file, read_csv Directories.demographic_only file = None →
             table_of_file Directories.demographic_only file = no_data).
Proof.
  apply (load_tables Directories.demographic_only).
  - reflexivity.
  - intros file Hin e. simpl in Hin.
    repeat (destruct Hin as [<-|Hin]; [discriminate|]). destruct Hin.
Defined.

(** X21.  The load raises in one case only, a data directory that is missing
    and that [os.makedirs] cannot create; the error of a read never leaves
    it.  Whenever the load returns, each of the six table attributes is
    assigned, so that the generator object is complete. *)
Theorem load_returns (p : DataProcessor) (fs : file_system) :
  ((∃ e, (_load_datasets fs (mk_loading unset [])).1 = Raise e)
   ↔ dir_exists fs = false ∧ ∃ e, makedirs fs = Raise e)
  ∧ ((_load_datasets fs (mk_loading unset [])).1 = Ok tt →
     ∃ g, (init p fs).1 = Ok (Some g)).
Proof.
  destruct (load_run fs) as [recs Hrun]. unfold init. rewrite Hrun.
  unfold no_directory.
  destruct (dir_exists fs), (makedirs fs) as [[]|e]; simpl.
  - split; [split; [by intros [? ?] | by intros [? _]]|]. intros _.
    destruct (read_fails fs); simpl; eauto.
  - split; [split; [by intros [? ?] | by intros [? _]]|]. intros _.
    destruct (read_fails fs); simpl; eauto.
  - split; [split; [by intros [? ?] | by intros [_ [? ?]]]|]. intros _.
    destruct (read_fails fs); simpl; eauto.
  - split; [split; [eauto | eauto]|]. discriminate.
Qed.

(** X22.  A generator built from a directory in which reading one file fails
    answers every user with the renderer's fallback sentence, also a user
    whose rows are in a file that could be read: the failed load has emptied
    every table.  (The extractors return an empty structure on no rows.) *)
Theorem failed_load_hides_data (p : DataProcessor) (fs : file_system)
    (file : string) (e : exn) :
  no_directory fs = false →
  In file file_names →
  read_csv fs file = Some (Raise e) →
  extract_transaction_insights p [] = Ok ∅ →
  extract_sentiment_insights p [] = Ok ∅ →
  ∃ g,
    (init p fs).1 = Ok (Some g)
    ∧ ∀ user_id log,
        (generate_meta_prompt user_id (mk_world g log)).1 = Ok Renderer.empty_fallback.
Proof.
  intros Hdir Hin Hfile Ht Hs.
  assert (read_fails fs = true) as Hfails.
  { apply read_fails_spec. by exists file, e. }
  destruct (load_run fs) as [recs Hrun]. rewrite Hdir, Hfails in Hrun.
  exists (mk_generator p no_data no_data no_data no_data no_data no_data).
  split.
  - unfold init. by rewrite Hrun.
  - intros user_id log.
    by apply GeneratorClaims.no_data_searchable_fallback.
Qed.

Lemma failed_load_hides_data_witness :
  ∃ g,
    (init Examples.quiet_processor Directories.broken_sentiment).1 = Ok (Some g)
    ∧ ∀ user_id log,
        (generate_meta_prompt user_id (mk_world g log)).1 = Ok Renderer.empty_fallback.
Proof.
  apply (failed_load_hides_data Examples.quiet_processor Directories.broken_sentiment
           "social_media_sentiment.csv" (mk_exn OtherError "No columns to parse from file")).
  - reflexivity.
  - simpl. auto 10.
  - reflexivity.
  - reflexivity.
  - reflexivity.
Defined.

End LoaderExtras.

(** ** Connecting *)

Module ConnectionFacts.
Import Connection.

Ltac server_cases srv :=
  destruct (create_client srv) as [[]|], (select_database srv) as [[]|],
    (ping srv) as [[]|], (collection_names srv) as [?names|].

Lemma connect_mock s srv g :
  ENABLE_MOCK_DATA s = true →
  connect_to_mongo s srv g = use_new_mock g [UsingMock].
Proof. unfold connect_to_mongo. by intros ->. Qed.

Lemma connect_reached s srv g :
  ENABLE_MOCK_DATA s = false → unreachable srv = false →
  ∃ log,
    connect_to_mongo s srv g
    = (Some (MotorDatabase (MONGODB_URL s) (MONGODB_DB s)),
       mk_globals (Some (MONGODB_URL s))
         (Some (MotorDatabase (MONGODB_URL s) (MONGODB_DB s))) (mock_db g) (mocks g),
       log).
Proof.
  unfold connect_to_mongo, connect_failed, unreachable. intros -> Hsrv.
  server_cases srv; try discriminate.
  simpl. eauto.
Qed.

Lemma connect_unreachable s srv g :
  ENABLE_MOCK_DATA s = false → unreachable srv = true →
  ∃ g' log,
    connect_to_mongo s srv g = (None, g', log)
    ∧ db g' = None
    ∧ mock_db g' = mock_db g
    ∧ mocks g' = mocks g
    ∧ (db_client g' = db_client g ∨ db_client g' = Some (MONGODB_URL s)).
Proof.
  unfold connect_to_mongo, connect_failed, unreachable. intros -> Hsrv.
  server_cases srv; try discriminate; simpl;
    eexists _, _; (split; [reflexivity|]); simpl; auto.
Qed.

(** The mock is returned from the global once it is there. *)
Lemma get_database_mock s srv g id :
  ENABLE_MOCK_DATA s = true → mock_db g = Some id →
  get_database s srv g = (Some (Mock id), g, []).
Proof.
  intros Hs Hm. unfold get_database. by rewrite Hs, Hm.
Qed.

End ConnectionFacts.

Module ConnectionExtras.
Import Connection ConnectionFacts.

(** X23.  [connect_to_mongo] never raises.  With mock data enabled it
    creates a [MockDatabase] at every call, whatever the server does: the
    object returned is a new one, holds the initial contents, and is what
    [mock_db] refers to from then on, while the objects created before and
    the other globals are as they were.  Without mock data, it returns the
    Motor database when the client, the database, the ping and the listing
    of collections all succeed (collections that are missing only add to the
    log), and [None] with [db] reset to [None] when one of them fails.  A
    failure is never answered with a mock database: the mock fallback of the
    [except] clause is not taken. *)
Theorem connect_outcome (s : Settings) (srv : server) (g : globals) :
  (ENABLE_MOCK_DATA s = true →
   ∃ id g',
     connect_to_mongo s srv g = (Some (Mock id), g', [UsingMock])
     ∧ mocks g !! id = None
     ∧ mocks g' !! id = Some Database.new_database
     ∧ mock_db g' = Some id
     ∧ (∀ j m, mocks g !! j = Some m → mocks g' !! j = Some m)
     ∧ db g' = db g ∧ db_client g' = db_client g)
  ∧ (ENABLE_MOCK_DATA s = false → unreachable srv = false →
     ∃ log,
       connect_to_mongo s srv g
       = (Some (MotorDatabase (MONGODB_URL s) (MONGODB_DB s)),
          mk_globals (Some (MONGODB_URL s))
            (Some (MotorDatabase (MONGODB_URL s) (MONGODB_DB s))) (mock_db g) (mocks g),
          log))
  ∧ (ENABLE_MOCK_DATA s = false → unreachable srv = true →
     ∃ g' log,
       connect_to_mongo s srv g = (None, g', log)
       ∧ db g' = None
       ∧ mock_db g' = mock_db g
       ∧ mocks g' = mocks g
       ∧ (db_client g' = db_client g ∨ db_client g' = Some (MONGODB_URL s)))
  ∧ (∀ message,
       In (ConnectFailed message) (connect_to_mongo s srv g).2 →
       (connect_to_mongo s srv g).1.1 = None
       ∧ ¬ In UsingMock (connect_to_mongo s srv g).2).
Proof.
  split; [|split; [apply connect_reached | split; [apply connect_unreachable|]]].
  - intros Hs. rewrite (connect_mock s srv g Hs). unfold use_new_mock.
    eexists _, _. split; [reflexivity|]. simpl.
    split; [by apply lookup_ge_None_2|].
    split; [by rewrite lookup_app_r, Nat.sub_diag by done|].
    split; [done|].
    split; [|done].
    intros j m Hj. by apply lookup_app_l_Some.
  - intros message. unfold connect_to_mongo.
    destruct (ENABLE_MOCK_DATA s) eqn:Hs.
    { simpl. by intros [?|[]]. }
    unfold connect_failed. rewrite Hs.
    server_cases srv; simpl; intros Hin; (split; [|intros Hmock]);
      try reflexivity;
      repeat match goal with
             | H : In _ (match ?l with _ => _ end) |- _ => destruct l; simpl in H
             | H : In _ (_ ++ _) |- _ => apply in_app_or in H as [H|H]; simpl in H
             | H : _ ∨ _ |- _ => destruct H as [H|H]
             | H : False |- _ => destruct H
             | H : _ = _ |- _ => discriminate H
             end.
Qed.

Lemma connect_outcome_witness :
  ∃ id g',
    connect_to_mongo (mk_settings true "mongodb://localhost:27017" "advisor")
      (mk_server (Raise (mk_exn OtherError "refused")) (Ok tt) (Ok tt) (Ok []))
      (mk_globals None None (Some 0%nat) [Database.mk_database []])
    = (Some (Mock id), g', [UsingMock])
    ∧ [Database.mk_database []] !! id = None
    ∧ mocks g' !! id = Some Database.new_database
    ∧ mock_db g' = Some id
    ∧ (∀ j m, [Database.mk_database []] !! j = Some m → mocks g' !! j = Some m)
    ∧ db g' = None ∧ db_client g' = None.
Proof.
  destruct (connect_outcome (mk_settings true "mongodb://localhost:27017" "advisor")
              (mk_server (Raise (mk_exn OtherError "refused")) (Ok tt) (Ok tt) (Ok []))
              (mk_globals None None (Some 0%nat) [Database.mk_database []]))
    as [Hmock _].
  exact (Hmock eq_refl).
Defined.

(** X24.  With mock data enabled, [get_database] creates the mock database
    on the first call and from then on returns that same object, without
    changing a global or creating another object and whatever the server
    does, so that what was stored in it stays.  With mock data disabled it
    returns the database it has, once there is one, without connecting
    again: after a call that connected, the next call returns the same
    database and logs nothing.  While the connection fails it returns [None]
    and leaves [db] at [None], so that the next call tries again. *)
Theorem get_database_keeps (s : Settings) (srv : server) (g : globals) :
  (ENABLE_MOCK_DATA s = true → mock_db g = None → db g = None →
   ∃ id g' log,
     get_database s srv g = (Some (Mock id), g', log)
     ∧ mocks g !! id = None
     ∧ mocks g' !! id = Some Database.new_database
     ∧ ∀ srv', get_database s srv' g' = (Some (Mock id), g', []))
  ∧ (ENABLE_MOCK_DATA s = true → ∀ id, mock_db g = Some id →
     get_database s srv g = (Some (Mock id), g, []))
  ∧ (ENABLE_MOCK_DATA s = false → ∀ d, db g = Some d →
     get_database s srv g = (Some d, g, []))
  ∧ (ENABLE_MOCK_DATA s = false → db g = None → unreachable srv = false →
     ∃ d g' log,
       get_database s srv g = (Some d, g', log)
       ∧ d = MotorDatabase (MONGODB_URL s) (MONGODB_DB s)
       ∧ ∀ srv', get_database s srv' g' = (Some d, g', []))
  ∧ (ENABLE_MOCK_DATA s = false → db g = None → unreachable srv = true →
     ∃ g' log, get_database s srv g = (None, g', log) ∧ db g' = None).
Proof.
  assert (ENABLE_MOCK_DATA s = false → ∀ srv0 g0 d, db g0 = Some d →
          get_database s srv0 g0 = (Some d, g0, [])) as Hkept.
  { intros Hs srv0 g0 d Hd. unfold get_database. by rewrite Hs, Hd. }
  split; [|split; [|split; [|split]]].
  - intros Hs Hm Hd.
    eexists (List.length (mocks g)), _, _. split.
    { unfold get_database. rewrite Hs, Hm, Hd. simpl.
      rewrite (connect_mock s srv g Hs). unfold use_new_mock. reflexivity. }
    simpl. split; [by apply lookup_ge_None_2|].
    split; [by rewrite lookup_app_r, Nat.sub_diag by done|].
    intros srv'. by apply get_database_mock.
  - intros Hs id Hm. by apply get_database_mock.
  - intros Hs d Hd. by apply Hkept.
  - intros Hs Hd Hsrv.
    destruct (connect_reached s srv g Hs Hsrv) as [log Hc].
    eexists _, _, log. split.
    { unfold get_database. rewrite Hs, Hd, Hc. reflexivity. }
    split; [reflexivity|].
    intros srv'. by apply Hkept.
  - intros Hs Hd Hsrv. unfold get_database. rewrite Hs, Hd. simpl.
    destruct (connect_unreachable s srv g Hs Hsrv) as (g' & log & -> & _).
    simpl. eauto.
Qed.

Lemma get_database_keeps_witness :
  ∃ id g' log,
    get_database (mk_settings true "mongodb://localhost:27017" "advisor")
      (mk_server (Ok tt) (Ok tt) (Ok tt) (Ok [])) fresh
    = (Some (Mock id), g', log)
    ∧ mocks fresh !! id = None
    ∧ mocks g' !! id = Some Database.new_database
    ∧ ∀ srv',
        get_database (mk_settings true "mongodb://localhost:27017" "advisor") srv' g'
        = (Some (Mock id), g', []).
Proof.
  destruct (get_database_keeps (mk_settings true "mongodb://localhost:27017" "advisor")
              (mk_server (Ok tt) (Ok tt) (Ok tt) (Ok [])) fresh) as [Hfirst _].
  exact (Hfirst eq_refl eq_refl eq_refl).
Defined.

End ConnectionExtras.

(** ** The application *)

Module AppFacts.
Import App.

(** The loop when every import returns: all files are imported, in order,
    and the counts are added. *)
Lemma import_all_ok import_csv files total log counts :
  Forall2 (fun cf n => import_csv cf.1 cf.2 = Ok n) files counts →
  import_all import_csv files total log
  = (Ok (total + foldr Z.add 0 counts),
     log ++ ((fun cf => Importing cf.1 cf.2) <$> files)).
Proof.
  intros H. revert total log.
  induction H as [|[c f] n files counts Hcf _ IH]; intros total log; simpl.
  - by rewrite Z.add_0_r, app_nil_r.
  - simpl in Hcf. rewrite Hcf, IH. f_equal; [f_equal; lia|].
    by rewrite <- app_assoc.
Qed.

(** The loop when an import raises: the files after it are not tried. *)
Lemma import_all_stops import_csv pre c f e post total log counts :
  Forall2 (fun cf n => import_csv cf.1 cf.2 = Ok n) pre counts →
  import_csv c f = Raise e →
  import_all import_csv (pre ++ (c, f) :: post) total log
  = (Raise e, log ++ ((fun cf => Importing cf.1 cf.2) <$> pre) ++ [Importing c f]).
Proof.
  intros H He. revert total log.
  induction H as [|[c0 f0] n pre counts Hcf _ IH]; intros total log; simpl.
  - by rewrite He.
  - simpl in Hcf. rewrite Hcf, IH. by rewrite <- app_assoc.
Qed.

End AppFacts.

Module AppExtras.
Import App AppFacts.

(** X25.  At startup the files are imported, into whatever
    [connect_to_mongo] returned, in the order of [csv_files]; the first
    import that raises ends the loop, so that the files after it are not
    imported at all, and the failure is logged instead of the total.  The
    startup goes on all the same: the key of the language model is tested
    next and the function returns. *)
Theorem startup_import_stops (s : Connection.Settings) (srv : Connection.server)
    (g : Connection.globals)
    (import_csv : option Connection.database → string → string → result Z)
    (test_api_key : result bool)
    (pre : list (string * string)) (c f : string) (post : list (string * string))
    (counts : list Z) (e : exn) :
  csv_files = pre ++ (c, f) :: post →
  Forall2 (fun cf n => import_csv (Connection.connect_to_mongo s srv g).1.1 cf.1 cf.2 = Ok n)
    pre counts →
  import_csv (Connection.connect_to_mongo s srv g).1.1 c f = Raise e →
  ∃ key_record,
    startup_db_client s srv g import_csv test_api_key
    = (Ok tt, (Connection.connect_to_mongo s srv g).1.2,
       (Connection.connect_to_mongo s srv g).2,
       [ImportStarting] ++ ((fun cf => Importing cf.1 cf.2) <$> pre)
         ++ [Importing c f; ImportFailed (exn_str e); key_record])
    ∧ (key_record = KeyVerified ∨ key_record = KeyNotVerified
       ∨ ∃ m, key_record = KeyTestFailed m).
Proof.
  intros Hfiles Hpre He. unfold startup_db_client.
  destruct (Connection.connect_to_mongo s srv g) as [[db g'] clog].
  simpl in Hpre, He. cbn [fst snd].
  rewrite Hfiles, (import_all_stops _ _ _ _ _ _ _ _ _ Hpre He).
  destruct test_api_key as [[]|e'];
    eexists; (split; [by rewrite <- !app_assoc|]); eauto.
Qed.

Lemma startup_import_stops_witness :
  ∃ key_record,
    startup_db_client
      (Connection.mk_settings true "mongodb://localhost:27017" "advisor")
      (Connection.mk_server (Ok tt) (Ok tt) (Ok tt) (Ok [])) Connection.fresh
      (fun _ c _ => if String.eqb c "account_data"
                    then Raise (mk_exn OtherError "no such file") else Ok 3)
      (Ok true)
    = (Ok tt,
       Connection.mk_globals None None (Some 0%nat) [Database.new_database],
       [Connection.UsingMock],
       [ImportStarting]
         ++ ((fun cf => Importing cf.1 cf.2)
               <$> [("demographic_data", "demographic_data.csv")])
         ++ [ Importing "account_data" "account_data.csv";
              ImportFailed (exn_str (mk_exn OtherError "no such file"));
              key_record ])
    ∧ (key_record = KeyVerified ∨ key_record = KeyNotVerified
       ∨ ∃ m, key_record = KeyTestFailed m).
Proof.
  apply (startup_import_stops
           (Connection.mk_settings true "mongodb://localhost:27017" "advisor")
           (Connection.mk_server (Ok tt) (Ok tt) (Ok tt) (Ok [])) Connection.fresh
           _ (Ok true)
           [("demographic_data", "demographic_data.csv")]
           "account_data" "account_data.csv"
           [ ("credit_history", "credit_history.csv");
             ("investment_data", "investment_data.csv");
             ("transaction_data", "transaction_data.csv");
             ("products", "products.csv");
             ("social_media_sentiment", "social_media_sentiment.csv") ]
           [3]).
  - reflexivity.
  - repeat constructor.
  - reflexivity.
Defined.

(** X26.  When every import returns, all seven files are imported, in the
    order of [csv_files], and the total that is logged is the sum of the
    counts. *)
Theorem startup_import_total (s : Connection.Settings) (srv : Connection.server)
    (g : Connection.globals)
    (import_csv : option Connection.database → string → string → result Z)
    (test_api_key : result bool) (counts : list Z) :
  Forall2 (fun cf n => import_csv (Connection.connect_to_mongo s srv g).1.1 cf.1 cf.2 = Ok n)
    csv_files counts →
  ∃ key_record,
    startup_db_client s srv g import_csv test_api_key
    = (Ok tt, (Connection.connect_to_mongo s srv g).1.2,
       (Connection.connect_to_mongo s srv g).2,
       [ImportStarting] ++ ((fun cf => Importing cf.1 cf.2) <$> csv_files)
         ++ [ImportComplete (foldr Z.add 0 counts); key_record]).
Proof.
  intros Hall. unfold startup_db_client.
  destruct (Connection.connect_to_mongo s srv g) as [[db g'] clog].
  cbn [fst snd] in Hall. cbn [fst snd].
  rewrite (import_all_ok _ _ _ _ _ Hall).
  destruct test_api_key as [[]|e']; eexists; by rewrite <- !app_assoc.
Qed.

Lemma startup_import_total_witness :
  ∃ key_record,
    startup_db_client
      (Connection.mk_settings true "mongodb://localhost:27017" "advisor")
      (Connection.mk_server (Ok tt) (Ok tt) (Ok tt) (Ok [])) Connection.fresh
      (fun _ _ _ => Ok 2) (Ok false)
    = (Ok tt,
       Connection.mk_globals None None (Some 0%nat) [Database.new_database],
       [Connection.UsingMock],
       [ImportStarting] ++ ((fun cf => Importing cf.1 cf.2) <$> csv_files)
         ++ [ImportComplete (foldr Z.add 0 [2; 2; 2; 2; 2; 2; 2]); key_record]).
Proof.
  apply (startup_import_total
           (Connection.mk_settings true "mongodb://localhost:27017" "advisor")
           (Connection.mk_server (Ok tt) (Ok tt) (Ok tt) (Ok [])) Connection.fresh
           (fun _ _ _ => Ok 2) (Ok false) [2; 2; 2; 2; 2; 2; 2]).
  repeat constructor.
Defined.

(** X27.  [simple_chat_endpoint] always answers.  An image that cannot be
    read or opened is dropped: the answer is that of the same message
    without an image.  When the chatbot raises, the answer is the apology of
    the processing step with no recommendations; otherwise it is the reply
    and the recommendations of the chatbot, which is always asked as the
    user [guest-user]. *)
Theorem simple_chat_answers {I R : Type}
    (process_message : string → string → option I → result (string * list R))
    (message : string) (image : option (result I)) :
  (∃ r, simple_chat_endpoint process_message message image = Ok r)
  ∧ (∀ e, simple_chat_endpoint process_message message (Some (Raise e))
          = simple_chat_endpoint process_message message None)
  ∧ (∀ img e, process_message "guest-user" message img = Raise e →
       simple_chat_endpoint process_message message (Ok <$> img)
       = Ok (mk_response processing_apology []))
  ∧ (∀ img reply recs, process_message "guest-user" message img = Ok (reply, recs) →
       simple_chat_endpoint process_message message (Ok <$> img)
       = Ok (mk_response reply recs))
  ∧ (∀ other,
       (∀ m img, other "guest-user" m img = process_message "guest-user" m img) →
       simple_chat_endpoint other message image
       = simple_chat_endpoint process_message message image).
Proof.
  unfold simple_chat_endpoint. split; [|split; [|split; [|split]]].
  - destruct (process_message _ _ _) as [[reply recs]|e]; eauto.
  - done.
  - intros img e He. destruct img; simpl; by rewrite He.
  - intros img reply recs Hr. destruct img; simpl; by rewrite Hr.
  - intros other Hsame. by rewrite Hsame.
Qed.

End AppExtras.
